(** * Kimchi REST controller: a shallow embedding of [src/kimchi/controller.py]

    The controller maps HTTP verbs on resources and collections to methods of
    a model object looked up by name, parses and validates request bodies and
    translates the model's exceptions to HTTP statuses.  The embedding below
    follows the Python source function by function.

    External collaborators (CherryPy, [json], [jsonschema], the template
    layer, the model object, Python's [str()] on compound values) are section
    variables; module [Demo] holds stand-ins for them, with which the
    handlers are run on concrete requests at the end. *)

From Stdlib Require Import String Ascii List ZArith Bool Lia DecimalString.
Import ListNotations.
Local Open Scope string_scope.
Local Open Scope Z_scope.
Set Warnings "-register-all".

(** ** Python values and exceptions *)

(** The values that travel through the controller: what [json.loads] returns
    and what the model hands back.  Numbers are integers and dictionaries are
    keyed by strings, as JSON objects are; the order of a dictionary's pairs
    stands for Python's iteration order. *)
Inductive pyval : Type :=
| PNone
| PBool (b : bool)
| PInt (z : Z)
| PStr (s : string)
| PList (l : list pyval)
| PDict (d : list (string * pyval)).

(** The exceptions the controller raises, catches or lets through. *)
Inductive exn : Type :=
| MissingParameter (msg : string)
| InvalidParameter (msg : string)
| InvalidOperation (msg : string)
| OperationFailed (msg : string)
| NotFoundError (msg : string)
| AttributeError
| KeyError (key : string)
| TypeError
| ValueError
| UnboundLocalError
| OtherError (msg : string)
| HTTPError (status : Z) (message : option string)
| HTTPRedirect (url : string) (status : Z)
| InternalRedirect (url : string).

(** ** Strings as Python uses them here *)

Definition upper_ascii (c : ascii) : ascii :=
  let n := nat_of_ascii c in
  if (97 <=? n)%nat && (n <=? 122)%nat then ascii_of_nat (n - 32) else c.

Definition lower_ascii (c : ascii) : ascii :=
  let n := nat_of_ascii c in
  if (65 <=? n)%nat && (n <=? 90)%nat then ascii_of_nat (n + 32) else c.

Fixpoint str_map (f : ascii -> ascii) (s : string) : string :=
  match s with
  | EmptyString => EmptyString
  | String c s' => String (f c) (str_map f s')
  end.

(** [s.upper()] and [s.lower()] *)
Definition upper (s : string) : string := str_map upper_ascii s.
Definition lower (s : string) : string := str_map lower_ascii s.

(** [sub in s] for two strings: substring test *)
Fixpoint str_contains (sub s : string) : bool :=
  if prefix sub s then true
  else match s with
       | EmptyString => false
       | String _ s' => str_contains sub s'
       end.

(** [c in s] for a character *)
Fixpoint has_char (c : ascii) (s : string) : bool :=
  match s with
  | EmptyString => false
  | String x s' => Ascii.eqb x c || has_char c s'
  end.

(** the first component of [s.split(c, 1)] *)
Fixpoint before_char (c : ascii) (s : string) : string :=
  match s with
  | EmptyString => EmptyString
  | String x s' => if Ascii.eqb x c then EmptyString else String x (before_char c s')
  end.

(** [s.split(c)] *)
Fixpoint split_char (c : ascii) (s : string) : list string :=
  match s with
  | EmptyString => [EmptyString]
  | String x s' =>
      if Ascii.eqb x c then EmptyString :: split_char c s'
      else match split_char c s' with
           | [] => [String x EmptyString]
           | p :: ps => String x p :: ps
           end
  end.

(** [sep.join(l)] *)
Fixpoint join (sep : string) (l : list string) : string :=
  match l with
  | [] => EmptyString
  | [x] => x
  | x :: xs => x ++ sep ++ join sep xs
  end.

(** What it is for a header value to name the media type [mime], in the
    words of the specification and not in those of the code: the value
    is a list of items between commas, followed by nothing or by
    parameters that start at its first semicolon, and one of the items is
    [mime], letter for letter.  To be compared with [mime_in_header]. *)
Definition lists_media_type (mime value : string) : Prop :=
  exists (before after : list string) (params : string),
    value = join "," (before ++ mime :: after) ++ params /\
    Forall (fun item => has_char ";" item = false) (before ++ after) /\
    (params = "" \/ exists p, params = String ";" p).

(** [x in l] for a list or tuple of strings *)
Definition str_in (x : string) (l : list string) : bool :=
  existsb (String.eqb x) l.

(** A Python sequence on the right of [in]: a tuple of strings, or one
    string (where [in] is the substring test). *)
Inductive pyseq : Type :=
| Tuple (items : list string)
| Str (s : string).

Definition py_in (x : string) (seq : pyseq) : bool :=
  match seq with
  | Tuple items => str_in x items
  | Str s => str_contains x s
  end.

(** ** Operations on values *)

Fixpoint lookup_key (k : string) (d : list (string * pyval)) : option pyval :=
  match d with
  | [] => None
  | (k', v) :: d' => if String.eqb k k' then Some v else lookup_key k d'
  end.

(** [a == b] *)
Fixpoint py_eqb (a b : pyval) {struct a} : bool :=
  match a, b with
  | PNone, PNone => true
  | PBool x, PBool y => Bool.eqb x y
  | PBool x, PInt z => Z.eqb (Z.b2z x) z
  | PInt z, PBool x => Z.eqb z (Z.b2z x)
  | PInt x, PInt y => Z.eqb x y
  | PStr x, PStr y => String.eqb x y
  | PList xs, PList ys =>
      (fix list_eqb (xs ys : list pyval) {struct xs} : bool :=
         match xs, ys with
         | [], [] => true
         | x :: xs', y :: ys' => py_eqb x y && list_eqb xs' ys'
         | _, _ => false
         end) xs ys
  | PDict xs, PDict ys =>
      Nat.eqb (length xs) (length ys) &&
      (fix all_in (xs : list (string * pyval)) {struct xs} : bool :=
         match xs with
         | [] => true
         | (k, v) :: xs' =>
             match lookup_key k ys with
             | Some v' => py_eqb v v'
             | None => false
             end && all_in xs'
         end) xs
  | _, _ => false
  end.

(** truth value of [if val:] *)
Definition py_truthy (v : pyval) : bool :=
  match v with
  | PNone => false
  | PBool b => b
  | PInt z => negb (Z.eqb z 0)
  | PStr s => negb (String.eqb s "")
  | PList l => match l with [] => false | _ => true end
  | PDict d => match d with [] => false | _ => true end
  end.

(** [d[k]] with a string key *)
Definition py_getitem (v : pyval) (k : string) : exn + pyval :=
  match v with
  | PDict d => match lookup_key k d with
               | Some x => inr x
               | None => inl (KeyError k)
               end
  | _ => inl TypeError
  end.

(** [d.get(k, default)] *)
Definition py_dict_get (v : pyval) (k : string) (default : pyval) : exn + pyval :=
  match v with
  | PDict d => match lookup_key k d with
               | Some x => inr x
               | None => inr default
               end
  | _ => inl AttributeError
  end.

(** [d.keys()] *)
Definition py_keys (v : pyval) : exn + list string :=
  match v with
  | PDict d => inr (map fst d)
  | _ => inl AttributeError
  end.

(** [k in d] on a dictionary *)
Definition dict_has (k : string) (d : list (string * pyval)) : bool :=
  match lookup_key k d with Some _ => true | None => false end.

(** [d[k] = v] *)
Fixpoint dict_set (k : string) (v : pyval) (d : list (string * pyval))
  : list (string * pyval) :=
  match d with
  | [] => [(k, v)]
  | (k', v') :: d' =>
      if String.eqb k k' then (k, v) :: d' else (k', v') :: dict_set k v d'
  end.

(** [d.update(other)] for a dictionary [other] *)
Definition dict_update (d other : list (string * pyval)) : list (string * pyval) :=
  fold_left (fun acc kv => dict_set (fst kv) (snd kv) acc) other d.

(** One element of the sequence [d.update(other)] is given when [other] is
    no dictionary: any sequence of two elements, the first being the key.
    A list of two, a text of two characters and a dictionary of two keys
    are such sequences; a sequence of another length is a [ValueError], a
    value that is no sequence a [TypeError], and so is a key that is a
    list or a dictionary.  [PDict] has texts for keys: a pair whose key is
    a number, a truth value or [None] gives a dictionary this model has no
    value for, which is marked by an [OtherError]. *)
Definition update_pair (item : pyval) : exn + (string * pyval) :=
  match item with
  | PList [PStr k; v] => inr (k, v)
  | PList [PList _; _] | PList [PDict _; _] => inl TypeError
  | PList [_; _] => inl (OtherError "key outside the model")
  | PList _ => inl ValueError
  | PStr (String a (String b EmptyString)) =>
      inr (String a EmptyString, PStr (String b EmptyString))
  | PStr _ => inl ValueError
  | PDict [(k1, _); (k2, _)] => inr (k1, PStr k2)
  | PDict _ => inl ValueError
  | PNone | PBool _ | PInt _ => inl TypeError
  end.

Fixpoint update_pairs (items : list pyval) : exn + list (string * pyval) :=
  match items with
  | [] => inr []
  | item :: rest =>
      match update_pair item with
      | inl e => inl e
      | inr kv => match update_pairs rest with
                  | inl e => inl e
                  | inr kvs => inr (kv :: kvs)
                  end
      end
  end.

(** what [d.update(other)] takes from [other]: the items of a dictionary,
    or the pairs of an iterable; a text is iterated character by
    character, none of which is a pair *)
Definition update_items (other : pyval) : exn + list (string * pyval) :=
  match other with
  | PDict d => inr d
  | PList items => update_pairs items
  | PStr EmptyString => inr []
  | PStr _ => inl ValueError
  | PNone | PBool _ | PInt _ => inl TypeError
  end.

Fixpoint chars (s : string) : list pyval :=
  match s with
  | EmptyString => []
  | String c s' => PStr (String c EmptyString) :: chars s'
  end.

(** the items a [for] loop draws from a value *)
Definition py_iter (v : pyval) : exn + list pyval :=
  match v with
  | PList l => inr l
  | PDict d => inr (map (fun kv => PStr (fst kv)) d)
  | PStr s => inr (chars s)
  | _ => inl TypeError
  end.

(** [s.encode('utf8')]: strings are kept as their UTF-8 bytes, so encoding
    changes nothing; a value that is no string has no [encode]. *)
Definition py_encode (v : pyval) : exn + string :=
  match v with
  | PStr s => inr s
  | _ => inl AttributeError
  end.

(** [urllib2.quote]: letters, digits and [_.-/] stay, any other byte
    becomes [%XX]. *)
Definition hex_digit (n : nat) : ascii :=
  if (n <? 10)%nat then ascii_of_nat (48 + n) else ascii_of_nat (55 + n).

Definition quote_safe (c : ascii) : bool :=
  let n := nat_of_ascii c in
  ((65 <=? n) && (n <=? 90) || (97 <=? n) && (n <=? 122) ||
   (48 <=? n) && (n <=? 57))%nat ||
  has_char c "_.-/".

Fixpoint quote (s : string) : string :=
  match s with
  | EmptyString => EmptyString
  | String c s' =>
      if quote_safe c then String c (quote s')
      else let n := nat_of_ascii c in
           String "%" (String (hex_digit (n / 16)) (String (hex_digit (n mod 16)) (quote s')))
  end.

(** [fmt % tuple(args)] for the directives the controller's templates use:
    [%s] takes the next argument, [%%] is a percent sign. *)
Fixpoint py_format (fmt : string) (args : list string) : exn + string :=
  match fmt with
  | EmptyString => match args with [] => inr EmptyString | _ => inl TypeError end
  | String "%" (String "s" rest) =>
      match args with
      | [] => inl TypeError
      | a :: args' =>
          match py_format rest args' with
          | inr r => inr (a ++ r)
          | inl e => inl e
          end
      end
  | String "%" (String "%" rest) =>
      match py_format rest args with
      | inr r => inr (String "%" r)
      | inl e => inl e
      end
  | String "%" _ => inl ValueError
  | String c rest =>
      match py_format rest args with
      | inr r => inr (String c r)
      | inl e => inl e
      end
  end.

(** ** The request, the response and the model's state *)

(** [cherrypy.request]: the method, the headers (CherryPy matches header
    names regardless of case; the list keeps them in their canonical
    spelling) and [cherrypy.request.app.root.api_schema], [None] when the
    root has no such attribute. *)
Record request : Type := mkRequest {
  method : string;
  headers : list (string * string);
  api_schema : option pyval
}.

Fixpoint header_get (name : string) (hs : list (string * string)) : option string :=
  match hs with
  | [] => None
  | (n, v) :: hs' => if String.eqb name n then Some v else header_get name hs'
  end.

(** What a handler can change: the model's state, [cherrypy.response.status]
    (200 unless a handler sets it), the unread part of the request body, and
    the log of the model methods called so far. *)
Record world (mstate : Type) : Type := mkWorld {
  w_model : mstate;
  w_status : Z;
  w_body : string;
  w_calls : list (string * list pyval)
}.
Arguments mkWorld {mstate}.
Arguments w_model {mstate}.
Arguments w_status {mstate}.
Arguments w_body {mstate}.
Arguments w_calls {mstate}.

(** A world at the start of a request. *)
Definition fresh_world {mstate : Type} (st : mstate) (rawbody : string) : world mstate :=
  mkWorld st 200 rawbody [].

(** ** Handlers as state-and-exception computations *)

Definition M (mstate A : Type) : Type := world mstate -> (exn + A) * world mstate.

Definition ret {S A : Type} (a : A) : M S A := fun w => (inr a, w).

Definition raise {S A : Type} (e : exn) : M S A := fun w => (inl e, w).

Definition bind {S A B : Type} (m : M S A) (k : A -> M S B) : M S B :=
  fun w => match m w with
           | (inr a, w') => k a w'
           | (inl e, w') => (inl e, w')
           end.

(** [try: m except ...]: the handler picks the clause for an exception, or
    [None] when no clause matches and the exception goes on. *)
Definition try {S A : Type} (m : M S A) (handler : exn -> option (M S A)) : M S A :=
  fun w => match m w with
           | (inr a, w') => (inr a, w')
           | (inl e, w') => match handler e with
                            | Some h => h w'
                            | None => (inl e, w')
                            end
           end.

Definition lift {S A : Type} (r : exn + A) : M S A := fun w => (r, w).

Declare Scope py_scope.
Delimit Scope py_scope with py.
Notation "x <- m ;; k" := (bind m (fun x => k))
  (at level 61, m at next level, right associativity) : py_scope.
Notation "m ;;; k" := (bind m (fun _ => k))
  (at level 61, right associativity) : py_scope.
Local Open Scope py_scope.

Fixpoint mapM {S A B : Type} (f : A -> M S B) (l : list A) : M S (list B) :=
  match l with
  | [] => ret []
  | x :: xs => y <- f x ;; ys <- mapM f xs ;; ret (y :: ys)
  end.

(** the world once the body has been read *)
Definition body_consumed {S : Type} (w : world S) : world S :=
  mkWorld (w_model w) (w_status w) "" (w_calls w).

(** the world once the model method [name] has run on [args] and left the
    model in [st] *)
Definition after_call {S : Type} (name : string) (args : list pyval) (st : S)
    (w : world S) : world S :=
  mkWorld st (w_status w) (w_body w) (w_calls w ++ [(name, args)]).

Definition with_status {S : Type} (code : Z) (w : world S) : world S :=
  mkWorld (w_model w) code (w_body w) (w_calls w).

(** [cherrypy.response.status = code] *)
Definition set_status {S : Type} (code : Z) : M S unit :=
  fun w => (inr tt, with_status code w).

(** [cherrypy.request.body.read()]: hands out what is left of the body and
    leaves nothing behind. *)
Definition body_read {S : Type} : M S string :=
  fun w => (inr (w_body w), body_consumed w).

(** the request with another schema configured on the server, or none *)
Definition with_schema (req : request) (schema : option pyval) : request :=
  mkRequest (method req) (headers req) schema.

(** the status of the [HTTPError] a handler ended with, if it did *)
Definition error_status {A : Type} (x : exn + A) : option Z :=
  match x with
  | inl (HTTPError status _) => Some status
  | _ => None
  end.

(** a computation that leaves [cherrypy.response.status] alone *)
Definition keeps_status {S A : Type} (m : M S A) : Prop :=
  forall w : world S, w_status (snd (m w)) = w_status w.

(** a computation that leaves the request body unread *)
Definition keeps_body {S A : Type} (m : M S A) : Prop :=
  forall w : world S, w_body (snd (m w)) = w_body w.

(** ** The classes of the controller *)

Inductive rclass : Type :=
| Resource | DebugReportContent | VM | VMScreenShot | Template | Interface
| Network | StorageVolume | StoragePool | IsoPool | Task | DebugReport
| Config | Capabilities | Distro | Host | HostStats | Partition.

Inductive cclass : Type :=
| Collection | AsyncCollection | VMs | Templates | Interfaces | Networks
| IsoVolumes | StorageVolumes | StoragePools | Tasks | DebugReports
| Distros | Partitions | Plugins.

(** [cls.__name__] *)
Definition rclass_name (c : rclass) : string :=
  match c with
  | Resource => "Resource" | DebugReportContent => "DebugReportContent"
  | VM => "VM" | VMScreenShot => "VMScreenShot" | Template => "Template"
  | Interface => "Interface" | Network => "Network"
  | StorageVolume => "StorageVolume" | StoragePool => "StoragePool"
  | IsoPool => "IsoPool" | Task => "Task" | DebugReport => "DebugReport"
  | Config => "Config" | Capabilities => "Capabilities" | Distro => "Distro"
  | Host => "Host" | HostStats => "HostStats" | Partition => "Partition"
  end.

Definition cclass_name (c : cclass) : string :=
  match c with
  | Collection => "Collection" | AsyncCollection => "AsyncCollection"
  | VMs => "VMs" | Templates => "Templates" | Interfaces => "Interfaces"
  | Networks => "Networks" | IsoVolumes => "IsoVolumes"
  | StorageVolumes => "StorageVolumes" | StoragePools => "StoragePools"
  | Tasks => "Tasks" | DebugReports => "DebugReports" | Distros => "Distros"
  | Partitions => "Partitions" | Plugins => "Plugins"
  end.

(** [get_class_name] is only ever given an instance: an instance has no
    [__subclasses__], so the [try] always ends in the [except] branch and the
    result is the class's own name in lower case. *)
Definition get_class_name (class_name : string) : string := lower class_name.

Definition model_fn (class_name fn_name : string) : string :=
  get_class_name class_name ++ "_" ++ fn_name.

(** A [Resource] instance: the attributes its [__init__] sets.  [uri_fmt] and
    [info] are [None] while the attribute does not exist. *)
Record resource : Type := mkResource {
  r_class : rclass;
  ident : pyval;
  model_args : list pyval;
  update_params : option (list string);
  uri_fmt : option string;
  info : option pyval
}.

Definition set_info (r : resource) (i : pyval) : resource :=
  mkResource (r_class r) (ident r) (model_args r) (update_params r) (uri_fmt r) (Some i).

(** A [Collection] instance. *)
Record collection : Type := mkCollection {
  c_class : cclass;
  c_resource : rclass;
  resource_args : list pyval;
  coll_model_args : list pyval
}.

(** ** Stand-ins for the collaborators

    A small model layer, a rendering that keeps the name and the data, a
    table for [json.loads] and a validator for a fragment of Draft 3, used
    to run the handlers on concrete requests. *)

Module Demo.

Definition dq : string := String (ascii_of_nat 34) "".

(** the response body: the template's name with the data it was given *)
Definition body : Type := (string * pyval)%type.
Definition render (name : string) (data : pyval) : body := (name, data).

(** [str()] of a value, with the keys and strings of a compound value shown
    the way Python 2 shows unicode strings *)
Fixpoint repr (v : pyval) : string :=
  match v with
  | PNone => "None"
  | PBool true => "True"
  | PBool false => "False"
  | PInt z => NilZero.string_of_int (Z.to_int z)
  | PStr s => "u'" ++ s ++ "'"
  | PList l => "[" ++ join ", " (map repr l) ++ "]"
  | PDict d =>
      "{" ++ join ", " (map (fun kv => match kv with
                                       | (k, x) => "u'" ++ k ++ "': " ++ repr x
                                       end) d) ++ "}"
  end.

(** request bodies and what [json.loads] makes of them; any other text is
    taken as malformed *)
Definition body_size : string := "{" ++ dq ++ "size" ++ dq ++ ": 10}".
Definition body_rename : string :=
  "{" ++ dq ++ "name" ++ dq ++ ": " ++ dq ++ "vm 2" ++ dq ++ "}".
Definition body_same_name : string :=
  "{" ++ dq ++ "name" ++ dq ++ ": " ++ dq ++ "vm1" ++ dq ++ "}".
Definition body_uuid : string :=
  "{" ++ dq ++ "uuid" ++ dq ++ ": " ++ dq ++ "42" ++ dq ++ "}".
Definition body_pool : string :=
  "{" ++ dq ++ "name" ++ dq ++ ": " ++ dq ++ "p1" ++ dq ++ "}".
Definition body_empty : string := "{}".

Definition loads (raw : string) : option pyval :=
  if String.eqb raw body_size then Some (PDict [("size", PInt 10)])
  else if String.eqb raw body_rename then Some (PDict [("name", PStr "vm 2")])
  else if String.eqb raw body_same_name then Some (PDict [("name", PStr "vm1")])
  else if String.eqb raw body_uuid then Some (PDict [("uuid", PStr "42")])
  else if String.eqb raw body_pool then Some (PDict [("name", PStr "p1")])
  else if String.eqb raw body_empty then Some (PDict [])
  else None.

(** A validator for the part of Draft 3 the examples use: the schema lists
    the operations under [properties]; an operation's schema may list its
    own [properties] and forbid others with [additionalProperties: false].
    One message for each property of the body that is not allowed. *)
Definition unexpected (allowed : list (string * pyval)) (params : list (string * pyval))
  : list string :=
  map (fun kv => "Additional properties are not allowed (u'" ++ fst kv ++ "' was unexpected)")
      (filter (fun kv => negb (dict_has (fst kv) allowed)) params).

Definition operation_errors (schema : pyval) (op : string) (params : pyval) : list string :=
  match py_getitem schema "properties" with
  | inr (PDict ops) =>
      match lookup_key op ops with
      | Some (PDict opschema) =>
          match lookup_key "additionalProperties" opschema, params with
          | Some (PBool false), PDict ps =>
              match lookup_key "properties" opschema with
              | Some (PDict allowed) => unexpected allowed ps
              | _ => unexpected [] ps
              end
          | _, _ => []
          end
      | _ => []
      end
  | _ => []
  end.

Definition iter_errors (schema request : pyval) : list string :=
  match request with
  | PDict ops => flat_map (fun kv => operation_errors schema (fst kv) (snd kv)) ops
  | _ => []
  end.

(** the schema of the examples: [vm_update] takes a [name] and nothing else *)
Definition schema : pyval :=
  PDict [("type", PStr "object");
         ("properties",
          PDict [("vm_update",
                  PDict [("type", PStr "object");
                         ("properties", PDict [("name", PDict [("type", PStr "string")])]);
                         ("additionalProperties", PBool false)])])].

(** *** The model: the virtual machines and pools it knows, by name *)

Definition store : Type := list (string * pyval).
Definition method : Type := list pyval -> store -> (exn + pyval) * store.

Definition vm_info (state : string) : pyval :=
  PDict [("uuid", PStr "42"); ("stats", PDict []); ("memory", PInt 1024);
         ("cpus", PInt 1); ("state", PStr state); ("screenshot", PNone);
         ("icon", PStr "images/icon-vm.png");
         ("graphics", PDict [("type", PStr "vnc"); ("port", PInt 5900)])].

Definition pool_info (task : pyval) : pyval :=
  PDict [("state", PStr "inactive"); ("capacity", PInt 0); ("allocated", PInt 0);
         ("available", PInt 0); ("path", PStr "/var/lib/p1"); ("source", PDict []);
         ("type", PStr "dir"); ("nr_volumes", PInt 0); ("autostart", PBool true);
         ("task_id", task)].

Definition iso_info : pyval :=
  PDict [("state", PStr "active"); ("type", PStr "kimchi-iso")].

Fixpoint remove_key (k : string) (st : store) : store :=
  match st with
  | [] => []
  | (k', v) :: st' => if String.eqb k k' then st' else (k', v) :: remove_key k st'
  end.

Fixpoint rename_key (k k' : string) (st : store) : store :=
  match st with
  | [] => []
  | (x, v) :: st' => if String.eqb k x then (k', v) :: st' else (x, v) :: rename_key k k' st'
  end.

Definition entity_lookup : method :=
  fun args st =>
    match args with
    | [PStr name] => match lookup_key name st with
                     | Some i => (inr i, st)
                     | None => (inl (NotFoundError name), st)
                     end
    | _ => (inl TypeError, st)
    end.

Definition entity_delete : method :=
  fun args st =>
    match args with
    | [PStr name] => match lookup_key name st with
                     | Some _ => (inr PNone, remove_key name st)
                     | None => (inl (NotFoundError name), st)
                     end
    | _ => (inl TypeError, st)
    end.

(** [vm_update(name, params)]: renames the machine when [params] has a
    [name], and returns the name it now has *)
Definition entity_update : method :=
  fun args st =>
    match args with
    | [PStr name; PDict params] =>
        match lookup_key name st, lookup_key "name" params with
        | None, _ => (inl (NotFoundError name), st)
        | Some _, Some (PStr name') => (inr (PStr name'), rename_key name name' st)
        | Some _, _ => (inr (PStr name), st)
        end
    | _ => (inl TypeError, st)
    end.

(** [vms_create(params)] and [storagepools_create(params)] *)
Definition entity_create (i : pyval) : method :=
  fun args st =>
    match args with
    | [PDict params] =>
        match lookup_key "name" params with
        | Some (PStr name) => (inr (PStr name), st ++ [(name, i)])%list
        | _ => (inl (MissingParameter "name"), st)
        end
    | _ => (inl TypeError, st)
    end.

Definition entity_list : method :=
  fun args st =>
    match args with
    | [] => (inr (PList (map (fun kv => PStr (fst kv)) st)), st)
    | _ => (inl TypeError, st)
    end.

(** an action that the model carries out without a result *)
Definition action_done : method := fun _ st => (inr PNone, st).

(** a method that raises *)
Definition raising (e : exn) : method := fun _ st => (inl e, st).

(** a method that returns a value *)
Definition returning (v : pyval) : method := fun _ st => (inr v, st).

Definition model_of (methods : list (string * method)) (name : string) : option method :=
  (fix find (l : list (string * method)) : option method :=
     match l with
     | [] => None
     | (n, fn) :: l' => if String.eqb name n then Some fn else find l'
     end) methods.

Definition task : pyval :=
  PDict [("id", PInt 1); ("status", PStr "running"); ("message", PStr "OK")].

(** the model of the examples *)
Definition model : string -> option method :=
  model_of [("vm_lookup", entity_lookup); ("vm_delete", entity_delete);
            ("vm_update", entity_update); ("vm_start", action_done);
            ("vms_create", entity_create (vm_info "shutoff"));
            ("vms_get_list", entity_list);
            ("storagepools_create", entity_create (pool_info (PStr "1")));
            ("storagepool_lookup", entity_lookup);
            ("isopool_lookup", returning iso_info);
            ("storagevolume_resize", action_done);
            ("debugreports_create", returning task)].

(** a model without any method *)
Definition no_model : string -> option method := model_of [].

(** a model that has nothing but the lookup of the reserved pool *)
Definition iso_only : string -> option method :=
  model_of [("isopool_lookup", returning iso_info)].


Definition ISO_POOL_NAME : string := "kimchi_isos".
Definition socket_port : Z := 8000.

Definition vms : store := [("vm1", vm_info "running")].

Definition json_headers (length : string) : list (string * string) :=
  [("Content-Length", length); ("Content-Type", "application/json")].

(** the instances that path dispatch makes for [/vms/vm1],
    [/storagepools/p1/storagevolumes/v1], [/vms], [/storagepools] and
    [/debugreports] *)
Definition vm1 : resource :=
  mkResource VM (PStr "vm1") [PStr "vm1"] (Some ["name"]) (Some "/vms/%s") None.

Definition volume_v1 : resource :=
  mkResource StorageVolume (PStr "v1") [PStr "p1"; PStr "v1"] (Some [])
    (Some "/storagepools/%s/storagevolumes/%s") (Some (PDict [])).

Definition the_vms : collection := mkCollection VMs VM [] [].
Definition the_pools : collection := mkCollection StoragePools StoragePool [] [].
Definition the_reports : collection := mkCollection DebugReports DebugReport [] [].

(** *** Stand-ins for what the rest of the controller uses *)

(** [decode("utf-8")] of a text that is not plain ASCII: the bytes of a URL
    are taken as well formed; a text already held as unicode cannot be
    decoded again *)
Definition decode_bytes (s : string) : exn + string := inr s.
Definition decode_text (s : string) : exn + string :=
  inl (OtherError "UnicodeEncodeError").

(** [kimchi.auth]: one user is known *)
Definition auth_login : method :=
  fun args st =>
    match args with
    | [PStr "admin"; PStr "secret"] => (inr PNone, st)
    | [_; _] => (inl (OperationFailed "Invalid credentials"), st)
    | _ => (inl TypeError, st)
    end.

Definition auth_logout : method := action_done.

Definition body_login : string :=
  "{" ++ dq ++ "userid" ++ dq ++ ": " ++ dq ++ "admin" ++ dq ++ ", " ++
  dq ++ "password" ++ dq ++ ": " ++ dq ++ "secret" ++ dq ++ "}".
Definition body_wrong_password : string :=
  "{" ++ dq ++ "userid" ++ dq ++ ": " ++ dq ++ "admin" ++ dq ++ ", " ++
  dq ++ "password" ++ dq ++ ": " ++ dq ++ "guess" ++ dq ++ "}".
Definition body_userid_only : string :=
  "{" ++ dq ++ "userid" ++ dq ++ ": " ++ dq ++ "admin" ++ dq ++ "}".

(** [json.loads] on the bodies of the login examples as well *)
Definition loads_login (raw : string) : option pyval :=
  if String.eqb raw body_login
  then Some (PDict [("userid", PStr "admin"); ("password", PStr "secret")])
  else if String.eqb raw body_wrong_password
  then Some (PDict [("userid", PStr "admin"); ("password", PStr "guess")])
  else if String.eqb raw body_userid_only
  then Some (PDict [("userid", PStr "admin")])
  else loads raw.

(** a schema under which [vms_create] takes a [name] and nothing else *)
Definition create_schema : pyval :=
  PDict [("type", PStr "object");
         ("properties",
          PDict [("vms_create",
                  PDict [("type", PStr "object");
                         ("properties", PDict [("name", PDict [("type", PStr "string")])]);
                         ("additionalProperties", PBool false)])])].

(** a model whose [vm_delete] and [vm_lookup] fail inside with an
    [AttributeError], and whose listing and creation raise [e] *)
Definition broken (e : exn) : string -> option method :=
  model_of [("vm_delete", raising AttributeError); ("vm_lookup", raising AttributeError);
            ("vms_get_list", raising e); ("vms_create", raising e);
            ("storagepools_create", raising e); ("debugreports_create", raising e)].

(** a model with a listing of two machines, the capabilities of the host,
    the file of a debug report and the screenshot of a machine *)
Definition report_info : pyval :=
  PDict [("file", PStr "/data/debugreports/r1.txz"); ("ctime", PStr "2013-10-01")].

Definition wide_model : string -> option method :=
  model_of [("vms_get_list", returning (PList [PStr "vm1"; PStr "vm2"]));
            ("vm_lookup", returning (vm_info "running"));
            ("storagepools_get_list", returning (PList [PStr "p1"]));
            ("storagepool_lookup", returning (pool_info PNone));
            ("isopool_lookup", returning iso_info);
            ("get_capabilities",
             returning (PDict [("qemu_stream", PBool true); ("kvm", PBool true)]));
            ("debugreportcontent_lookup", returning report_info);
            ("vmscreenshot_lookup", returning (PStr "/data/screenshots/vm1.png"))].

Definition volumes_of_p1 : collection :=
  mkCollection StorageVolumes StorageVolume [PStr "p1"] [PStr "p1"].

Definition pool_p1 : resource :=
  mkResource StoragePool (PStr "p1") [PStr "p1"] (Some ["autostart"])
    (Some "/storagepools/%s") None.

Definition report_content : resource :=
  mkResource DebugReportContent (PStr "r1") [PStr "r1"] (Some []) None None.

Definition screenshot_vm1 : resource :=
  mkResource VMScreenShot (PStr "vm1") [PStr "vm1"] (Some []) None None.

Definition capabilities : resource :=
  mkResource Capabilities PNone [PNone] (Some []) None None.

End Demo.

(** ** The controller *)

Section Controller.

(** The model layer: its state, and a method for some names
    ([getattr(self.model, name)] fails on the others).  A method takes
    its positional arguments and returns a value or raises. *)
Variable mstate : Type.
Definition model_method : Type := list pyval -> mstate -> (exn + pyval) * mstate.
Variable model : string -> option model_method.

(** [kimchi.template.render(name, data)] makes the response body. *)
Variable body : Type.
Variable render : string -> pyval -> body.

(** [json.loads]; [None] is its [ValueError]. *)
Variable json_loads : string -> option pyval.

(** [Draft3Validator(schema).iter_errors(request)], as the messages of the
    errors; [validate] raises exactly when there is one. *)
Variable iter_errors : pyval -> pyval -> list string.

(** [str()] of a value that is no string. *)
Variable py_repr : pyval -> string.

(** [kimchi.model.ISO_POOL_NAME] and [cherrypy.server.socket_port]. *)
Variable ISO_POOL_NAME : string.
Variable socket_port : Z.

(** [cherrypy.request], global to the handlers of one request. *)
Variable req : request.

Local Abbreviation Mm := (M mstate).

Definition py_str (v : pyval) : string :=
  match v with
  | PStr s => s
  | _ => py_repr v
  end.

Definition getattr_model (name : string) : Mm model_method :=
  match model name with
  | Some fn => ret fn
  | None => raise AttributeError
  end.

(** a call of the model method found under [name] *)
Definition call (name : string) (fn : model_method) (args : list pyval) : Mm pyval :=
  fun w => let (r, st) := fn args (w_model w) in
           (r, after_call name args st w).

Definition validate_method (allowed : pyseq) : Mm string :=
  let method := upper (method req) in
  if negb (py_in method allowed) then raise (HTTPError 405 None)
  else ret method.

Definition mime_in_header (header mime : string) : bool :=
  let accepts := match header_get header (headers req) with
                 | None => "application/json"
                 | Some v => v
                 end in
  let accepts := if has_char ";" accepts then before_char ";" accepts
                 else accepts in
  if str_in mime (split_char "," accepts) then true else false.

Definition parse_request : Mm pyval :=
  match header_get "Content-Length" (headers req) with
  | None => ret (PDict [])
  | Some _ =>
      rawbody <- body_read ;;
      if mime_in_header "Content-Type" "application/json" then
        match json_loads rawbody with
        | Some v => ret v
        | None => raise (HTTPError 400 (Some "Unable to parse JSON request"))
        end
      else raise (HTTPError 415 (Some "This API only supports 'application/json'"))
  end.

Definition internal_redirect {A : Type} (url : pyval) : Mm A :=
  u <- lift (py_encode url) ;;
  raise (InternalRedirect u).

Definition validate_params (params : pyval) (class_name action : string) : Mm unit :=
  match api_schema req with
  | None => ret tt
  | Some schema =>
      let operation := model_fn class_name action in
      let request := PDict [(operation, params)] in
      match iter_errors schema request with
      | [] => ret tt
      | _ :: _ =>
          raise (InvalidParameter (join "; " (iter_errors schema request)))
      end
  end.

(** *** Resource *)

(** [Resource.__init__] *)
Definition Resource_init (c : rclass) (ident : pyval) : resource :=
  mkResource c ident [ident] (Some []) None None.

Definition with_update_params (r : resource) (ps : list string) : resource :=
  mkResource (r_class r) (ident r) (model_args r) (Some ps) (uri_fmt r) (info r).

Definition with_uri_fmt (r : resource) (fmt : string) : resource :=
  mkResource (r_class r) (ident r) (model_args r) (update_params r) (Some fmt) (info r).

(** [cls(model, *args)]: the constructors of the resource classes *)
Definition make_resource (c : rclass) (args : list pyval) : exn + resource :=
  match c, args with
  | StorageVolume, [pool; ident] =>
      inr (mkResource StorageVolume ident [pool; ident] (Some [])
             (Some "/storagepools/%s/storagevolumes/%s") (Some (PDict [])))
  | StorageVolume, _ => inl TypeError
  | IsoPool, [] => inr (Resource_init IsoPool (PStr ISO_POOL_NAME))
  | IsoPool, _ => inl TypeError
  | (Resource | Config | Capabilities | HostStats), [] => inr (Resource_init c PNone)
  | Host, [] => inr (with_uri_fmt (Resource_init Host PNone) "/host/%s")
  | Host, [ident] => inr (with_uri_fmt (Resource_init Host ident) "/host/%s")
  | VM, [ident] =>
      inr (with_uri_fmt (with_update_params (Resource_init VM ident) ["name"]) "/vms/%s")
  | Template, [ident] =>
      inr (with_uri_fmt
             (with_update_params (Resource_init Template ident)
                ["name"; "folder"; "icon"; "os_distro"; "storagepool";
                 "os_version"; "cpus"; "memory"; "cdrom"; "disks"])
             "/templates/%s")
  | Interface, [ident] => inr (with_uri_fmt (Resource_init Interface ident) "/interfaces/%s")
  | Network, [ident] => inr (with_uri_fmt (Resource_init Network ident) "/networks/%s")
  | StoragePool, [ident] =>
      inr (with_uri_fmt (with_update_params (Resource_init StoragePool ident) ["autostart"])
             "/storagepools/%s")
  | _, [ident] => inr (Resource_init c ident)
  | _, _ => inl TypeError
  end.

(** the action handlers a class generates in its [__init__]: the action
    name and the body keys it takes *)
Definition class_actions (c : rclass) : list (string * option (list string)) :=
  match c with
  | VM => [("start", None); ("stop", None); ("connect", None)]
  | Network => [("activate", None); ("deactivate", None)]
  | StorageVolume => [("resize", Some ["size"]); ("wipe", None)]
  | StoragePool => [("activate", None); ("deactivate", None)]
  | Host => [("reboot", None); ("shutdown", None)]
  | _ => []
  end.

Definition r_name (r : resource) : string := rclass_name (r_class r).

Definition get_info (r : resource) : Mm pyval :=
  match info r with
  | Some i => ret i
  | None => raise AttributeError
  end.

(** a dictionary display whose values are [self.info[key]], left to right *)
Fixpoint info_fields (i : pyval) (fields : list (string * string))
  : exn + list (string * pyval) :=
  match fields with
  | [] => inr []
  | (out, key) :: rest =>
      match py_getitem i key with
      | inl e => inl e
      | inr v => match info_fields i rest with
                 | inl e => inl e
                 | inr d => inr ((out, v) :: d)
                 end
      end
  end.

Definition same (keys : list string) : list (string * string) :=
  map (fun k => (k, k)) keys.

(** [for key in keys: val = self.info.get(key); if val: res[key] = val] *)
Fixpoint optional_fields (i : pyval) (keys : list string) (res : list (string * pyval))
  : exn + list (string * pyval) :=
  match keys with
  | [] => inr res
  | key :: rest =>
      match py_dict_get i key PNone with
      | inl e => inl e
      | inr val =>
          optional_fields i rest (if py_truthy val then dict_set key val res else res)
      end
  end.

(** the [data] property of each class *)
Definition data (r : resource) : Mm pyval :=
  match r_class r with
  | Resource | DebugReportContent | VMScreenShot => ret (PDict [])
  | VM =>
      i <- get_info r ;;
      d <- lift (info_fields i (same ["uuid"; "stats"; "memory"; "cpus"; "state";
                                      "screenshot"; "icon"])) ;;
      g <- lift (py_getitem i "graphics") ;;
      gt <- lift (py_getitem g "type") ;;
      g' <- lift (py_getitem i "graphics") ;;
      gp <- lift (py_getitem g' "port") ;;
      ret (PDict (("name", ident r) :: d ++ [("graphics", PDict [("type", gt); ("port", gp)])]))
  | Template =>
      i <- get_info r ;;
      d <- lift (info_fields i (same ["icon"; "os_distro"; "os_version"; "cpus";
                                      "memory"; "cdrom"; "disks"; "storagepool"])) ;;
      f <- lift (py_dict_get i "folder" (PList [])) ;;
      ret (PDict (("name", ident r) :: d ++ [("folder", f)]))
  | Interface =>
      i <- get_info r ;;
      d <- lift (info_fields i (same ["type"; "ipaddr"; "netmask"; "status"])) ;;
      ret (PDict (("name", ident r) :: d))
  | Network =>
      i <- get_info r ;;
      d <- lift (info_fields i (same ["autostart"; "connection"; "interface";
                                      "subnet"; "dhcp"; "state"])) ;;
      ret (PDict (("name", ident r) :: d))
  | StorageVolume =>
      i <- get_info r ;;
      d <- lift (info_fields i (same ["type"; "capacity"; "allocation"; "path"; "format"])) ;;
      res <- lift (optional_fields i ["os_version"; "os_distro"; "bootable"]
                     (("name", ident r) :: d)) ;;
      ret (PDict res)
  | StoragePool =>
      i <- get_info r ;;
      d <- lift (info_fields i (same ["state"; "capacity"; "allocated"; "available";
                                      "path"; "source"; "type"; "nr_volumes";
                                      "autostart"])) ;;
      res <- lift (optional_fields i ["task_id"] (("name", ident r) :: d)) ;;
      ret (PDict res)
  | IsoPool =>
      i <- get_info r ;;
      d <- lift (info_fields i (same ["state"; "type"])) ;;
      ret (PDict (("name", ident r) :: d))
  | Task =>
      i <- get_info r ;;
      d <- lift (info_fields i (same ["status"; "message"])) ;;
      ret (PDict (("id", ident r) :: d))
  | DebugReport =>
      i <- get_info r ;;
      d <- lift (info_fields i [("file", "file"); ("time", "ctime")]) ;;
      ret (PDict (("name", ident r) :: d))
  | Config => ret (PDict [("http_port", PInt socket_port)])
  | Capabilities =>
      let caps := ["libvirt_stream_protocols"; "qemu_stream"; "screenshot";
                   "system_report_tool"] in
      let ret0 := fold_left (fun acc x => dict_set x PNone acc) caps [] in
      fn <- getattr_model "get_capabilities" ;;
      c <- call "get_capabilities" fn [] ;;
      other <- lift (update_items c) ;;
      ret (PDict (dict_update ret0 other))
  | Distro | Host | HostStats | Partition => get_info r
  end.

(** [Resource.lookup] *)
Definition Resource_lookup (r : resource) : Mm resource :=
  try (fn <- getattr_model (model_fn (r_name r) "lookup") ;;
       i <- call (model_fn (r_name r) "lookup") fn (model_args r) ;;
       ret (set_info r i))
      (fun e => match e with
                | AttributeError => Some (ret (set_info r (PDict [])))
                | _ => None
                end).

(** [Resource.delete] *)
Definition Resource_delete (r : resource) : Mm (option body) :=
  try (fn <- getattr_model (model_fn (r_name r) "delete") ;;
       _ <- call (model_fn (r_name r) "delete") fn (model_args r) ;;
       set_status 204 ;;;
       ret None)
      (fun e => match e with
                | AttributeError =>
                    Some (raise (HTTPError 405
                            (Some ("Delete is not allowed for " ++ get_class_name (r_name r)))))
                | OperationFailed msg =>
                    Some (raise (HTTPError 500 (Some ("Operation Failed: '" ++ msg ++ "'"))))
                | InvalidOperation msg =>
                    Some (raise (HTTPError 400 (Some ("Invalid operation: '" ++ msg ++ "'"))))
                | _ => None
                end).

(** [Resource.get].  The looked-up instance is returned with the body, since
    [lookup] stores [info] in it. *)
Definition Resource_get (r : resource) : Mm (resource * body) :=
  r' <- Resource_lookup r ;;
  d <- data r' ;;
  ret (r', render (get_class_name (r_name r)) d).

Definition DebugReportContent_get (r : resource) : Mm (resource * body) :=
  r' <- Resource_lookup r ;;
  i <- get_info r' ;;
  f <- lift (py_getitem i "file") ;;
  internal_redirect f.

Definition VMScreenShot_get (r : resource) : Mm (resource * body) :=
  r' <- Resource_lookup r ;;
  i <- get_info r' ;;
  internal_redirect i.

(** [self.get()]: the method of the instance's class *)
Definition get (r : resource) : Mm (resource * body) :=
  match r_class r with
  | DebugReportContent => DebugReportContent_get r
  | VMScreenShot => VMScreenShot_get r
  | _ => Resource_get r
  end.

(** [[v for v in keys if v not in allowed]] *)
Definition invalid_keys (allowed keys : list string) : list string :=
  filter (fun v => negb (str_in v allowed)) keys.

(** [Resource.update] *)
Definition Resource_update (r : resource) : Mm (option body) :=
  update <- try (getattr_model (model_fn (r_name r) "update"))
              (fun e => match e with
                        | AttributeError =>
                            Some (raise (HTTPError 405
                                    (Some (get_class_name (r_name r) ++
                                           " does not implement update method"))))
                        | _ => None
                        end) ;;
  params <- parse_request ;;
  validate_params params (r_name r) "update" ;;;
  match update_params r with
  | Some allowed =>
      keys <- lift (py_keys params) ;;
      let invalids := invalid_keys allowed keys in
      match invalids with
      | _ :: _ =>
          raise (HTTPError 405
                   (Some (py_str (PList (map PStr invalids)) ++
                          " are not allowed to be updated")))
      | [] => ret tt
      end
  | None => ret tt
  end ;;;
  new_ident <- call (model_fn (r_name r) "update") update [ident r; params] ;;
  if negb (py_eqb new_ident (ident r)) then
    match uri_fmt r with
    | None => raise AttributeError
    | Some fmt =>
        quoted <- lift (py_encode new_ident) ;;
        url <- lift (py_format fmt
                       (map py_str (removelast (model_args r)) ++ [quote quoted])%list) ;;
        raise (HTTPRedirect url 303)
    end
  else
    rb <- get r ;;
    ret (Some (snd rb)).

(** the [except] clauses of [Resource.index], by verb *)
Definition get_errors {A : Type} (e : exn) : option (Mm A) :=
  match e with
  | NotFoundError msg =>
      Some (raise (HTTPError 404 (Some ("Not found: '" ++ msg ++ "'"))))
  | InvalidOperation msg =>
      Some (raise (HTTPError 400 (Some ("Invalid operation: '" ++ msg ++ "'"))))
  | OperationFailed msg =>
      Some (raise (HTTPError 406 (Some ("Operation failed: '" ++ msg ++ "'"))))
  | _ => None
  end.

Definition delete_errors {A : Type} (e : exn) : option (Mm A) :=
  match e with
  | NotFoundError msg =>
      Some (raise (HTTPError 404 (Some ("Not found: '" ++ msg ++ "'"))))
  | _ => None
  end.

Definition put_errors {A : Type} (e : exn) : option (Mm A) :=
  match e with
  | InvalidParameter msg =>
      Some (raise (HTTPError 400 (Some ("Invalid parameter: '" ++ msg ++ "'"))))
  | InvalidOperation msg =>
      Some (raise (HTTPError 400 (Some ("Invalid operation: '" ++ msg ++ "'"))))
  | NotFoundError msg =>
      Some (raise (HTTPError 404 (Some ("Not found: '" ++ msg ++ "'"))))
  | _ => None
  end.

(** [Resource.index] *)
Definition Resource_index (r : resource) : Mm (option body) :=
  method <- validate_method (Tuple ["GET"; "DELETE"; "PUT"]) ;;
  if String.eqb method "GET" then
    try (rb <- get r ;; ret (Some (snd rb))) get_errors
  else if String.eqb method "DELETE" then
    try (Resource_delete r) delete_errors
  else if String.eqb method "PUT" then
    try (Resource_update r) put_errors
  else ret None.

(** the [except] clauses shared by the generated action handlers and by
    [POST] on a collection *)
Definition action_errors {A : Type} (e : exn) : option (Mm A) :=
  match e with
  | MissingParameter param =>
      Some (raise (HTTPError 400 (Some ("Missing parameter: '" ++ param ++ "'"))))
  | InvalidParameter param =>
      Some (raise (HTTPError 400 (Some ("Invalid parameter: '" ++ param ++ "'"))))
  | InvalidOperation msg =>
      Some (raise (HTTPError 400 (Some ("Invalid operation: '" ++ msg ++ "'"))))
  | OperationFailed msg =>
      Some (raise (HTTPError 500 (Some ("Operation Failed: '" ++ msg ++ "'"))))
  | NotFoundError msg =>
      Some (raise (HTTPError 404 (Some ("Not found: '" ++ msg ++ "'"))))
  | _ => None
  end.

(** [parse_request()[key] for key in action_args] *)
Definition body_args (action_args : option (list string)) : Mm (list pyval) :=
  match action_args with
  | Some keys => mapM (fun key => p <- parse_request ;; lift (py_getitem p key)) keys
  | None => ret []
  end.

(** [generate_action_handler]: the [wrapper] it returns.  The allowed
    methods are given as [('POST')], which is the string ['POST']. *)
Definition generate_action_handler (r : resource) (action_name : string)
    (action_args : option (list string)) : Mm (option body) :=
  validate_method (Str "POST") ;;;
  try (extra <- body_args action_args ;;
       let args := (model_args r ++ extra)%list in
       fn <- getattr_model (model_fn (r_name r) action_name) ;;
       _ <- call (model_fn (r_name r) action_name) fn args ;;
       match uri_fmt r with
       | None => raise AttributeError
       | Some fmt =>
           url <- lift (py_format fmt (map py_str (model_args r))) ;;
           internal_redirect (PStr url)
       end)
      action_errors.

(** *** Collection *)

(** [cls(model, *args)]: the constructors of the collection classes;
    [IsoVolumes] and [StorageVolumes] take the pool. *)
Definition make_collection (c : cclass) (args : list pyval) : exn + collection :=
  match c, args with
  | IsoVolumes, [pool] => inr (mkCollection IsoVolumes Resource [] [])
  | StorageVolumes, [pool] => inr (mkCollection StorageVolumes StorageVolume [pool] [pool])
  | (IsoVolumes | StorageVolumes), _ => inl TypeError
  | _, [] =>
      inr (mkCollection c
             match c with
             | VMs => VM
             | Templates => Template
             | Interfaces => Interface
             | Networks => Network
             | StoragePools => StoragePool
             | Tasks => Task
             | DebugReports => DebugReport
             | Distros => Distro
             | Partitions => Partition
             | _ => Resource
             end [] [])
  | _, _ => inl TypeError
  end.

(** the reserved pool a [StoragePools] instance holds under the attribute
    [ISO_POOL_NAME]: [IsoPool(model)] *)
Definition isos : resource := Resource_init IsoPool (PStr ISO_POOL_NAME).

Definition c_name (c : collection) : string := cclass_name (c_class c).

(** [key in v] *)
Definition py_contains (key : string) (v : pyval) : exn + bool :=
  match v with
  | PDict d => inr (dict_has key d)
  | PList l => inr (existsb (py_eqb (PStr key)) l)
  | PStr s => inr (str_contains key s)
  | _ => inl TypeError
  end.

Definition create_not_allowed {A : Type} (c : collection) (e : exn) : option (Mm A) :=
  match e with
  | AttributeError =>
      Some (raise (HTTPError 405
              (Some ("Create is not allowed for " ++ get_class_name (c_name c)))))
  | _ => None
  end.

(** [Collection.create] *)
Definition Collection_create (c : collection) : Mm body :=
  create <- try (getattr_model (model_fn (c_name c) "create")) (create_not_allowed c) ;;
  params <- parse_request ;;
  validate_params params (c_name c) "create" ;;;
  name <- call (model_fn (c_name c) "create") create (coll_model_args c ++ [params])%list ;;
  set_status 201 ;;;
  res <- lift (make_resource (c_resource c) (resource_args c ++ [name])%list) ;;
  rb <- get res ;;
  ret (snd rb).

(** [AsyncCollection.create] *)
Definition AsyncCollection_create (c : collection) : Mm body :=
  create <- try (getattr_model (model_fn (c_name c) "create")) (create_not_allowed c) ;;
  params <- parse_request ;;
  task <- call (model_fn (c_name c) "create") create (coll_model_args c ++ [params])%list ;;
  set_status 202 ;;;
  ret (render "Task" task).

(** [StoragePools.create] *)
Definition StoragePools_create (c : collection) : Mm body :=
  create <- try (getattr_model (model_fn (c_name c) "create")) (create_not_allowed c) ;;
  params <- parse_request ;;
  name <- call (model_fn (c_name c) "create") create (coll_model_args c ++ [params])%list ;;
  res <- lift (make_resource (c_resource c) (resource_args c ++ [name])%list) ;;
  rb <- get res ;;
  d <- data (fst rb) ;;
  has_task <- lift (py_contains "task_id" d) ;;
  (if has_task : bool then set_status 202 else set_status 201) ;;;
  ret (snd rb).

(** [self.create]: the method of the instance's class *)
Definition create (c : collection) : Mm body :=
  match c_class c with
  | AsyncCollection | DebugReports => AsyncCollection_create c
  | StoragePools => StoragePools_create c
  | _ => Collection_create c
  end.

(** [Collection._get_resources] *)
Definition Collection_get_resources (c : collection) : Mm (list resource) :=
  try (get_list <- getattr_model (model_fn (c_name c) "get_list") ;;
       idents <- call (model_fn (c_name c) "get_list") get_list (coll_model_args c) ;;
       items <- lift (py_iter idents) ;;
       mapM (fun ident =>
               res <- lift (make_resource (c_resource c) (resource_args c ++ [ident])%list) ;;
               Resource_lookup res)
            items)
      (fun e => match e with
                | AttributeError => Some (ret [])
                | _ => None
                end).

(** [StoragePools._get_resources]: [res_list] is bound once the inherited
    method has returned; an [AttributeError] before that leaves the final
    [return res_list] without its variable. *)
Definition StoragePools_get_resources (c : collection) : Mm (list resource) :=
  try (res_list <- Collection_get_resources c ;;
       try (isos' <- Resource_lookup isos ;;
            ret (res_list ++ [isos'])%list)
           (fun e => match e with
                     | AttributeError => Some (ret res_list)
                     | _ => None
                     end))
      (fun e => match e with
                | AttributeError => Some (raise UnboundLocalError)
                | _ => None
                end).

Definition get_resources (c : collection) : Mm (list resource) :=
  match c_class c with
  | StoragePools => StoragePools_get_resources c
  | _ => Collection_get_resources c
  end.

(** [Collection.get] *)
Definition Collection_get (c : collection) : Mm body :=
  resources <- get_resources c ;;
  data <- mapM data resources ;;
  ret (render (get_class_name (c_name c)) (PList data)).

(** [IsoVolumes.get] and [Plugins.get], which read alike *)
Definition IsoVolumes_get (c : collection) : Mm body :=
  res_list <- try (get_list <- getattr_model (model_fn (c_name c) "get_list") ;;
                   call (model_fn (c_name c) "get_list") get_list (coll_model_args c))
                  (fun e => match e with
                            | AttributeError => Some (ret (PList []))
                            | _ => None
                            end) ;;
  ret (render (get_class_name (c_name c)) res_list).

Definition Plugins_get (c : collection) : Mm body := IsoVolumes_get c.

Definition collection_get (c : collection) : Mm body :=
  match c_class c with
  | IsoVolumes => IsoVolumes_get c
  | Plugins => Plugins_get c
  | _ => Collection_get c
  end.

(** the [except] clauses of [GET] on a collection *)
Definition list_errors {A : Type} (e : exn) : option (Mm A) :=
  match e with
  | InvalidOperation param =>
      Some (raise (HTTPError 400 (Some ("Invalid operation: '" ++ param ++ "'"))))
  | NotFoundError param =>
      Some (raise (HTTPError 404 (Some ("Not found: '" ++ param ++ "'"))))
  | _ => None
  end.

(** [Collection.index] *)
Definition Collection_index (c : collection) : Mm (option body) :=
  method <- validate_method (Tuple ["GET"; "POST"]) ;;
  if String.eqb method "GET" then
    try (b <- collection_get c ;; ret (Some b)) list_errors
  else if String.eqb method "POST" then
    try (b <- create c ;; ret (Some b)) action_errors
  else ret None.

(** *** The statuses the handlers of a resource give the model's exceptions *)




Definition action_status (e : exn) : option Z :=
  match e with
  | MissingParameter _ => Some 400
  | InvalidParameter _ => Some 400
  | InvalidOperation _ => Some 400
  | OperationFailed _ => Some 500
  | NotFoundError _ => Some 404
  | _ => None
  end.

(** *** Conditions on a request *)

(** the schema of the server, if there is one, has nothing to say against
    [params] as the body of the action *)
Definition schema_accepts (params : pyval) (class_name action : string) : Prop :=
  match api_schema req with
  | None => True
  | Some schema =>
      iter_errors schema (PDict [(model_fn class_name action, params)]) = []
  end.

(** the body is a dictionary and the allow-list of the resource, if it has
    one, covers its keys *)
Definition allow_list_passes (r : resource) (params : pyval) : Prop :=
  match update_params r with
  | None => True
  | Some allowed =>
      exists d, params = PDict d /\ invalid_keys allowed (map fst d) = []
  end.

(** the keys of [info] that the [data] of a class reads with [self.info[key]]
    ([VM], which also reads inside [graphics], and [Capabilities], which
    asks the model, are not in the table) *)
Definition required_keys (c : rclass) : list string :=
  match c with
  | Template => ["icon"; "os_distro"; "os_version"; "cpus"; "memory"; "cdrom";
                 "disks"; "storagepool"]
  | Interface => ["type"; "ipaddr"; "netmask"; "status"]
  | Network => ["autostart"; "connection"; "interface"; "subnet"; "dhcp"; "state"]
  | StorageVolume => ["type"; "capacity"; "allocation"; "path"; "format"]
  | StoragePool => ["state"; "capacity"; "allocated"; "available"; "path"; "source";
                    "type"; "nr_volumes"; "autostart"]
  | IsoPool => ["state"; "type"]
  | Task => ["status"; "message"]
  | DebugReport => ["file"; "ctime"]
  | _ => []
  end.

(** the keys the [data] of a class copies from [info] only when their value
    is true *)
Definition optional_keys (c : rclass) : list string :=
  match c with
  | StorageVolume => ["os_version"; "os_distro"; "bootable"]
  | StoragePool => ["task_id"]
  | _ => []
  end.

(** [bool(info.get(key))] *)
Definition truthy_at (i : list (string * pyval)) (key : string) : bool :=
  match lookup_key key i with
  | Some v => py_truthy v
  | None => false
  end.

(** the statuses [GET] on a collection gives the model's exceptions *)
Definition LIST_status (e : exn) : option Z :=
  match e with
  | InvalidOperation _ => Some 400
  | NotFoundError _ => Some 404
  | _ => None
  end.

(** *** Path dispatch *)

Fixpoint is_ascii (s : string) : bool :=
  match s with
  | EmptyString => true
  | String c s' => (nat_of_ascii c <? 128)%nat && is_ascii s'
  end.

(** [decode("utf-8")] of a text that is not plain ASCII: of a segment of
    the URL, which is a byte string ([decode_bytes] fails on bytes that are
    not well formed), and of an identifier a resource holds
    ([decode_text]; Python 2 refuses to decode what is unicode already). *)
Variable decode_bytes : string -> exn + string.
Variable decode_text : string -> exn + string.

(** [v.decode("utf-8")]: plain ASCII is its own decoding *)
Definition py_decode (other : string -> exn + string) (v : pyval) : exn + pyval :=
  match v with
  | PStr s =>
      if is_ascii s then inr (PStr s)
      else match other s with
           | inl e => inl e
           | inr t => inr (PStr t)
           end
  | _ => inl AttributeError
  end.

(** [Collection._cp_dispatch(vpath)]: the result, [None] when the method
    falls off its end, and the path as [vpath.pop(0)] leaves it *)
Definition Collection_cp_dispatch (c : collection) (vpath : list string)
  : (exn + option resource) * list string :=
  match vpath with
  | [] => (inr None, [])
  | ident :: rest =>
      match py_decode decode_bytes (PStr ident) with
      | inl e => (inl e, rest)
      | inr decoded =>
          match make_resource (c_resource c) (resource_args c ++ [decoded])%list with
          | inl e => (inl e, rest)
          | inr r => (inr (Some r), rest)
          end
      end
  end.

(** [StoragePool._cp_dispatch(vpath)] *)
Definition StoragePool_cp_dispatch (r : resource) (vpath : list string)
  : (exn + option collection) * list string :=
  match vpath with
  | [] => (inr None, [])
  | subcollection :: rest =>
      if String.eqb subcollection "storagevolumes" then
        match py_decode decode_text (ident r) with
        | inl e => (inl e, rest)
        | inr pool =>
            match make_collection StorageVolumes [pool] with
            | inl e => (inl e, rest)
            | inr c => (inr (Some c), rest)
            end
        end
      else (inr None, rest)
  end.

(** [IsoPool._cp_dispatch(vpath)] *)
Definition IsoPool_cp_dispatch (r : resource) (vpath : list string)
  : (exn + option collection) * list string :=
  match vpath with
  | [] => (inr None, [])
  | subcollection :: rest =>
      if String.eqb subcollection "storagevolumes" then
        match py_decode decode_text (ident r) with
        | inl e => (inl e, rest)
        | inr pool =>
            match make_collection IsoVolumes [pool] with
            | inl e => (inl e, rest)
            | inr c => (inr (Some c), rest)
            end
        end
      else (inr None, rest)
  end.

(** *** Login and logout *)

(** [kimchi.auth.login] and [kimchi.auth.logout]; what they keep is part
    of the state behind the controller. *)
Variable auth_login : model_method.
Variable auth_logout : model_method.

(** [login]: [str()] of a [KeyError] is the key between quotes *)
Definition login : Mm string :=
  params <- parse_request ;;
  credentials <- try (userid <- lift (py_getitem params "userid") ;;
                      password <- lift (py_getitem params "password") ;;
                      ret (userid, password))
                     (fun e => match e with
                               | KeyError key =>
                                   Some (raise (HTTPError 400
                                           (Some ("Missing parameter: ''" ++ key ++ "''"))))
                               | _ => None
                               end) ;;
  try (_ <- call "auth.login" auth_login [fst credentials; snd credentials] ;; ret tt)
      (fun e => match e with
                | OperationFailed _ => Some (raise (HTTPError 401 None))
                | _ => None
                end) ;;;
  ret "{}".

(** [logout] *)
Definition logout : Mm string :=
  _ <- call "auth.logout" auth_logout [] ;;
  ret "{}".

(** ** Properties of the request parser and the validator *)

Lemma string_app_nil (s : string) : s ++ "" = s.
Proof. induction s as [|x s IH]; simpl; [reflexivity | now rewrite IH]. Qed.

Lemma has_char_app (c : ascii) (s t : string) :
  has_char c (s ++ t) = has_char c s || has_char c t.
Proof.
  induction s as [|x s IH]; simpl; [reflexivity|].
  rewrite IH. now rewrite orb_assoc.
Qed.

Lemma before_char_app (c : ascii) (s t : string) :
  has_char c s = false -> before_char c (s ++ String c t) = s.
Proof.
  induction s as [|x s IH]; simpl; intros H.
  - now rewrite Ascii.eqb_refl.
  - apply orb_false_iff in H as [Hx Hs]. rewrite Hx, IH; auto.
Qed.

Lemma split_char_single (c : ascii) (s : string) :
  has_char c s = false -> split_char c s = [s].
Proof.
  induction s as [|x s IH]; simpl; intros H; [reflexivity|].
  apply orb_false_iff in H as [Hx Hs]. now rewrite Hx, IH.
Qed.

(** The media type a [Content-Type] value names, once its parameters are
    cut off, is all that [mime_in_header] compares. *)
Lemma mime_in_header_media_type (header mime mt params : string) :
  header_get header (headers req) = Some (mt ++ params) ->
  has_char ";" mt = false -> has_char "," mt = false ->
  params = "" \/ (exists p, params = String ";" p) ->
  mime_in_header header mime = String.eqb mime mt.
Proof.
  intros Hh Hsemi Hcomma Hp. unfold mime_in_header. rewrite Hh.
  assert (E : (if has_char ";" (mt ++ params) then before_char ";" (mt ++ params)
               else mt ++ params) = mt).
  { destruct Hp as [-> | [p ->]].
    - rewrite has_char_app, Hsemi. simpl. now rewrite string_app_nil.
    - rewrite has_char_app, Hsemi. simpl. now apply before_char_app. }
  rewrite E, split_char_single by assumption.
  unfold str_in. simpl. now destruct (String.eqb mime mt).
Qed.


(** C10. A request without a [Content-Length] header: [parse_request]
    returns the empty dictionary, whatever the other headers (and so the
    [Content-Type]) say, and leaves the world, the unread body with it, as
    it was; what follows the parsing goes on with the empty dictionary
    instead of a 415 or a 400. *)
Theorem parse_request_without_content_length :
  header_get "Content-Length" (headers req) = None ->
  (forall w : world mstate, parse_request w = (inr (PDict []), w)) /\
  (forall (A : Type) (k : pyval -> M mstate A) (w : world mstate),
      bind parse_request k w = k (PDict []) w).
Proof.
  intros H. unfold bind, parse_request. rewrite H. split; reflexivity.
Qed.

(** C9. [validate_params] for the class named [T] and the action [A]:
    the body is wrapped under the key [t_A], [t] being [T] in lower case,
    and handed with the server's schema to the Draft 3 validator.  Without
    a schema on the server nothing happens; with one, no message means
    success and any message means one [InvalidParameter] whose text is the
    messages joined by a semicolon. *)
Theorem validate_params_wraps_and_joins (params : pyval) (T A : string)
    (w : world mstate) :
  (api_schema req = None -> validate_params params T A w = (inr tt, w)) /\
  (forall schema : pyval,
      api_schema req = Some schema ->
      let request := PDict [(lower T ++ "_" ++ A, params)] in
      (iter_errors schema request = [] ->
       validate_params params T A w = (inr tt, w)) /\
      (iter_errors schema request <> [] ->
       validate_params params T A w =
         (inl (InvalidParameter (join "; " (iter_errors schema request))), w))).
Proof.
  unfold validate_params, model_fn, get_class_name. split.
  - intros ->. reflexivity.
  - intros schema ->. cbv zeta. split; intros H.
    + now rewrite H.
    + destruct (iter_errors schema _) eqn:E; [contradiction | reflexivity].
Qed.

(** A plain media type: 415 unless it is [application/json], and 400 for
    [application/json], or no [Content-Type] at all, with a body that
    [json.loads] rejects. *)
Lemma parse_request_by_media_type (len : string) (w : world mstate) :
  header_get "Content-Length" (headers req) = Some len ->
  (forall mt params : string,
      header_get "Content-Type" (headers req) = Some (mt ++ params) ->
      has_char ";" mt = false -> has_char "," mt = false ->
      params = "" \/ (exists p, params = String ";" p) ->
      mt <> "application/json" ->
      parse_request w =
        (inl (HTTPError 415 (Some "This API only supports 'application/json'")),
         body_consumed w)) /\
  (forall params : string,
      header_get "Content-Type" (headers req) = Some ("application/json" ++ params) ->
      params = "" \/ (exists p, params = String ";" p) ->
      json_loads (w_body w) = None ->
      parse_request w =
        (inl (HTTPError 400 (Some "Unable to parse JSON request")), body_consumed w)) /\
  (header_get "Content-Type" (headers req) = None ->
   json_loads (w_body w) = None ->
   parse_request w =
     (inl (HTTPError 400 (Some "Unable to parse JSON request")), body_consumed w)).
Proof.
  intros Hlen. unfold parse_request, bind, body_read. rewrite Hlen.
  split; [|split].
  - intros mt params Hct Hs Hc Hp Hne.
    rewrite (mime_in_header_media_type _ _ mt params Hct Hs Hc Hp).
    destruct (String.eqb_spec "application/json" mt) as [E|_]; [|reflexivity].
    now subst mt.
  - intros params Hct Hp Hbad.
    rewrite (mime_in_header_media_type _ _ "application/json" params Hct eq_refl eq_refl Hp).
    simpl String.eqb. cbv iota. rewrite Hbad. reflexivity.
  - intros Hct Hbad. unfold mime_in_header. rewrite Hct. simpl.
    rewrite Hbad. reflexivity.
Qed.

(** *** Splitting at commas and cutting at the semicolon *)

Lemma split_char_not_nil (c : ascii) (s : string) : split_char c s <> [].
Proof.
  induction s as [|x s IH]; simpl; [discriminate|].
  destruct (Ascii.eqb x c); [discriminate|].
  destruct (split_char c s); discriminate.
Qed.

Lemma split_char_app (c : ascii) (s t : string) :
  split_char c (s ++ String c t) = (split_char c s ++ split_char c t)%list.
Proof.
  induction s as [|x s IH]; simpl.
  - now rewrite Ascii.eqb_refl.
  - rewrite IH. destruct (Ascii.eqb x c); [reflexivity|].
    pose proof (split_char_not_nil c s) as Hn.
    destruct (split_char c s); [contradiction | reflexivity].
Qed.

(** [c.join(s.split(c)) == s] *)
Lemma join_split_char (c : ascii) (s : string) :
  join (String c "") (split_char c s) = s.
Proof.
  induction s as [|x s IH]; simpl; [reflexivity|].
  pose proof (split_char_not_nil c s) as Hn.
  destruct (Ascii.eqb_spec x c) as [->|Hx].
  - destruct (split_char c s) as [|p ps]; [contradiction|].
    simpl in IH |- *. now rewrite IH.
  - destruct (split_char c s) as [|p ps]; [contradiction|].
    destruct ps as [|q qs]; simpl in IH |- *; now rewrite IH.
Qed.

Lemma join_cons (sep x : string) (l : list string) :
  l <> [] -> join sep (x :: l) = x ++ sep ++ join sep l.
Proof. destruct l; [contradiction | reflexivity]. Qed.

Lemma has_char_join (c : ascii) (sep : string) (l : list string) :
  has_char c sep = false ->
  has_char c (join sep l) = existsb (has_char c) l.
Proof.
  intros Hsep. induction l as [|x l IH]; [reflexivity|].
  destruct l as [|y l].
  - simpl. now rewrite orb_false_r.
  - rewrite join_cons by discriminate.
    rewrite !has_char_app, Hsep, IH. reflexivity.
Qed.

(** an item without a comma is found again by [split] after [join] *)
Lemma in_split_char_join (c : ascii) (x : string) (before after : list string) :
  has_char c x = false ->
  In x (split_char c (join (String c "") (before ++ x :: after))).
Proof.
  intros Hx. induction before as [|b bs IH].
  - simpl app. destruct after as [|a after].
    + simpl. rewrite (split_char_single c x Hx). now left.
    + rewrite join_cons by discriminate.
      replace (x ++ String c "" ++ join (String c "") (a :: after))
        with (x ++ String c (join (String c "") (a :: after))) by reflexivity.
      rewrite split_char_app, (split_char_single c x Hx). now left.
  - change ((b :: bs) ++ x :: after)%list with (b :: (bs ++ x :: after))%list.
    rewrite join_cons by (destruct bs; discriminate).
    replace (b ++ String c "" ++ join (String c "") (bs ++ x :: after))
      with (b ++ String c (join (String c "") (bs ++ x :: after))) by reflexivity.
    rewrite split_char_app. apply in_or_app. now right.
Qed.

Lemma before_char_cuts (c : ascii) (s : string) :
  has_char c s = true ->
  exists t, s = before_char c s ++ String c t /\ has_char c (before_char c s) = false.
Proof.
  induction s as [|x s IH]; simpl; [discriminate|].
  destruct (Ascii.eqb_spec x c) as [->|Hx].
  - intros _. exists s. split; reflexivity.
  - simpl. intros H. destruct (IH H) as (t & E & Hno).
    exists t. split; [now rewrite <- E|].
    simpl. rewrite Hno. now apply Ascii.eqb_neq in Hx as ->.
Qed.

(** what [accepts.split(';', 1)] keeps, and what it drops *)
Lemma cut_at_semicolon (value : string) :
  exists params,
    value = (if has_char ";" value then before_char ";" value else value) ++ params /\
    has_char ";" (if has_char ";" value then before_char ";" value else value) = false /\
    (params = "" \/ exists p, params = String ";" p).
Proof.
  destruct (has_char ";" value) eqn:E.
  - destruct (before_char_cuts _ _ E) as (t & Hv & Hno).
    exists (String ";" t). repeat split; eauto.
  - exists "". rewrite string_app_nil. auto.
Qed.

Lemma cut_at_semicolon_app (m params : string) :
  has_char ";" m = false ->
  params = "" \/ (exists p, params = String ";" p) ->
  (if has_char ";" (m ++ params) then before_char ";" (m ++ params) else m ++ params) = m.
Proof.
  intros Hm [-> | [p ->]].
  - rewrite string_app_nil, Hm. reflexivity.
  - rewrite has_char_app, Hm. simpl. now apply before_char_app.
Qed.

Lemma str_in_In (x : string) (l : list string) : str_in x l = true <-> In x l.
Proof.
  unfold str_in. rewrite existsb_exists. split.
  - intros (y & Hy & E). apply String.eqb_eq in E. now subst.
  - intros H. exists x. split; [assumption | apply String.eqb_refl].
Qed.

(** [mime_in_header] on a header that is there says what
    [lists_media_type] says of its value. *)
Lemma lists_media_type_iff (mime value : string) :
  has_char "," mime = false -> has_char ";" mime = false ->
  lists_media_type mime value <->
  str_in mime
    (split_char "," (if has_char ";" value then before_char ";" value else value)) = true.
Proof.
  intros Hcomma Hsemi. rewrite str_in_In. split.
  - intros (before & after & params & -> & Hno & Hp).
    rewrite cut_at_semicolon_app; [now apply in_split_char_join| |assumption].
    rewrite has_char_join by reflexivity.
    apply not_true_is_false. intros H. apply existsb_exists in H as (y & Hy & Hc).
    rewrite Forall_forall in Hno.
    apply in_app_or in Hy as [Hy | [<- | Hy]].
    + rewrite Hno in Hc; [discriminate|]. apply in_or_app. now left.
    + congruence.
    + rewrite Hno in Hc; [discriminate|]. apply in_or_app. now right.
  - intros Hin. destruct (cut_at_semicolon value) as (params & Hv & Hno & Hp).
    apply in_split in Hin as (before & after & Hsplit).
    pose proof (join_split_char ","
                  (if has_char ";" value then before_char ";" value else value)) as Hj.
    rewrite Hsplit in Hj.
    exists before, after, params. split; [|split; [|assumption]].
    + change "," with (String "," ""). rewrite Hj. exact Hv.
    + rewrite <- Hj in Hno. rewrite has_char_join in Hno by reflexivity.
      apply Forall_forall. intros y Hy.
      apply not_true_is_false. intros Hc.
      assert (E : existsb (has_char ";") (before ++ mime :: after) = true).
      { apply existsb_exists. exists y. split; [|assumption].
        apply in_app_or in Hy as [Hy|Hy]; apply in_or_app; [now left | right; now right]. }
      congruence.
Qed.

(** C8, as the code has it.  A request that carries a body (it has a
    [Content-Length]).  Its [Content-Type], taken as [application/json] when
    the header is not there, is cut at its first semicolon and split at its
    commas.  When one of the items is [application/json], letter for
    letter, the body is parsed: [json.loads] rejecting it is answered 400,
    and what [json.loads] makes of it is returned.  When none is, the
    answer is 415, whatever the body.  Either way the body has been read.
    For a value that names one media type, with or without parameters
    behind a semicolon, the first case is the media type being
    [application/json] as written here. *)
Theorem parse_request_415_and_400 (len : string) (w : world mstate) :
  header_get "Content-Length" (headers req) = Some len ->
  let value := match header_get "Content-Type" (headers req) with
               | Some v => v
               | None => "application/json"
               end in
  (lists_media_type "application/json" value ->
   (json_loads (w_body w) = None ->
    parse_request w =
      (inl (HTTPError 400 (Some "Unable to parse JSON request")), body_consumed w)) /\
   (forall v : pyval,
       json_loads (w_body w) = Some v -> parse_request w = (inr v, body_consumed w))) /\
  (~ lists_media_type "application/json" value ->
   parse_request w =
     (inl (HTTPError 415 (Some "This API only supports 'application/json'")),
      body_consumed w)) /\
  (forall mt params : string,
      value = mt ++ params ->
      has_char ";" mt = false -> has_char "," mt = false ->
      params = "" \/ (exists p, params = String ";" p) ->
      lists_media_type "application/json" value <-> mt = "application/json").
Proof.
  intros Hlen value.
  assert (Hmime : mime_in_header "Content-Type" "application/json" =
                  str_in "application/json"
                    (split_char ","
                       (if has_char ";" value then before_char ";" value else value))).
  { unfold mime_in_header, value.
    destruct (header_get "Content-Type" (headers req)); now destruct (str_in _ _). }
  pose proof (lists_media_type_iff "application/json" value eq_refl eq_refl) as Hiff.
  unfold parse_request, bind, body_read. rewrite Hlen, Hmime.
  split; [|split].
  - intros Hl. apply Hiff in Hl. rewrite Hl. split.
    + intros Hbad. cbv iota. rewrite Hbad. reflexivity.
    + intros v Hv. cbv iota. rewrite Hv. reflexivity.
  - intros Hl.
    destruct (str_in "application/json" _) eqn:E; [|reflexivity].
    exfalso. apply Hl, Hiff. reflexivity.
  - intros mt params Hv Hs Hc Hp. rewrite Hiff, Hv.
    rewrite (cut_at_semicolon_app mt params Hs Hp), (split_char_single "," mt Hc).
    unfold str_in. cbn [existsb]. rewrite orb_false_r.
    destruct (String.eqb_spec "application/json" mt) as [E|E];
      split; intros H; congruence.
Qed.


(** ** Properties of the handlers of a resource *)

(** [Resource.index] by verb *)
Lemma Resource_index_GET (r : resource) (w : world mstate) :
  upper (method req) = "GET" ->
  Resource_index r w = try (rb <- get r ;; ret (Some (snd rb))) get_errors w.
Proof.
  intros Hm. unfold Resource_index, validate_method, bind at 1. rewrite Hm.
  reflexivity.
Qed.

Lemma Resource_index_PUT (r : resource) (w : world mstate) :
  upper (method req) = "PUT" ->
  Resource_index r w = try (Resource_update r) put_errors w.
Proof.
  intros Hm. unfold Resource_index, validate_method, bind at 1. rewrite Hm.
  reflexivity.
Qed.

Lemma Resource_index_DELETE (r : resource) (w : world mstate) :
  upper (method req) = "DELETE" ->
  Resource_index r w = try (Resource_delete r) delete_errors w.
Proof.
  intros Hm. unfold Resource_index, validate_method, bind at 1. rewrite Hm.
  reflexivity.
Qed.

(** C7. [DELETE] on a resource of any class.  When the model has no
    [<type>_delete] the answer is the 405 of the controller, and nothing of
    the failed attribute lookup gets out; when the model's delete returns,
    the status is 204 and the handler returns no body. *)
Theorem delete_405_without_method_204_on_success (r : resource) (w : world mstate) :
  upper (method req) = "DELETE" ->
  (model (model_fn (r_name r) "delete") = None ->
   Resource_index r w =
     (inl (HTTPError 405 (Some ("Delete is not allowed for " ++ lower (r_name r)))), w)) /\
  (forall (fn : model_method) (v : pyval) (st' : mstate),
      model (model_fn (r_name r) "delete") = Some fn ->
      fn (model_args r) (w_model w) = (inr v, st') ->
      Resource_index r w =
        (inr None,
         with_status 204 (after_call (model_fn (r_name r) "delete") (model_args r) st' w))).
Proof.
  intros Hm. rewrite (Resource_index_DELETE r w Hm).
  unfold try, Resource_delete, try, bind, getattr_model. split.
  - intros ->. reflexivity.
  - intros fn v st' -> Hfn. unfold ret, call. rewrite Hfn. reflexivity.
Qed.


(** *** Frames: what the steps of a handler leave alone *)

Lemma parse_request_frame (w w1 : world mstate) (x : exn + pyval) :
  parse_request w = (x, w1) ->
  w_model w1 = w_model w /\ w_calls w1 = w_calls w /\ w_status w1 = w_status w.
Proof.
  unfold parse_request, bind, body_read.
  destruct (header_get "Content-Length" (headers req)).
  - destruct (mime_in_header _ _); [destruct (json_loads _)|];
      unfold ret, raise; intros [= <- <-]; auto.
  - unfold ret. intros [= <- <-]. auto.
Qed.

Lemma validate_params_accepts (params : pyval) (T A : string) (w : world mstate) :
  schema_accepts params T A -> validate_params params T A w = (inr tt, w).
Proof.
  unfold schema_accepts, validate_params. destruct (api_schema req); [|reflexivity].
  intros ->. reflexivity.
Qed.

Lemma validate_params_frame (params : pyval) (T A : string) (w w1 : world mstate)
    (x : exn + unit) :
  validate_params params T A w = (x, w1) -> w1 = w.
Proof.
  unfold validate_params. destruct (api_schema req); [destruct (iter_errors _ _)|];
    unfold ret, raise; now intros [= <- <-].
Qed.

Lemma validate_params_outcome (params : pyval) (T A : string) (w : world mstate) :
  validate_params params T A w = (inr tt, w) \/
  exists msg, validate_params params T A w = (inl (InvalidParameter msg), w).
Proof.
  unfold validate_params. destruct (api_schema req); [destruct (iter_errors _ _)|];
    unfold ret, raise; eauto.
Qed.


Lemma keeps_ret {A : Type} (a : A) : keeps_status (ret a : M mstate A).
Proof. intros w. reflexivity. Qed.

Lemma keeps_raise {A : Type} (e : exn) : keeps_status (raise e : M mstate A).
Proof. intros w. reflexivity. Qed.

Lemma keeps_lift {A : Type} (x : exn + A) : keeps_status (lift x : M mstate A).
Proof. intros w. reflexivity. Qed.

Lemma keeps_bind {A B : Type} (m : M mstate A) (k : A -> M mstate B) :
  keeps_status m -> (forall a, keeps_status (k a)) -> keeps_status (bind m k).
Proof.
  intros Hm Hk w. unfold bind. specialize (Hm w).
  destruct (m w) as [[e|a] w1]; simpl in *; [assumption|].
  now rewrite Hk.
Qed.

Lemma keeps_try {A : Type} (m : M mstate A) (handler : exn -> option (M mstate A)) :
  keeps_status m -> (forall e h, handler e = Some h -> keeps_status h) ->
  keeps_status (try m handler).
Proof.
  intros Hm Hh w. unfold try. specialize (Hm w).
  destruct (m w) as [[e|a] w1]; simpl in *; [|assumption].
  destruct (handler e) as [h|] eqn:E; [|assumption].
  now rewrite (Hh e h E).
Qed.

Lemma keeps_call (name : string) (fn : model_method) (args : list pyval) :
  keeps_status (call name fn args).
Proof. intros w. unfold call. now destruct (fn args (w_model w)). Qed.

Lemma keeps_getattr_model (name : string) : keeps_status (getattr_model name).
Proof. intros w. unfold getattr_model. now destruct (model name). Qed.

Lemma keeps_get_info (r : resource) : keeps_status (get_info r).
Proof. intros w. unfold get_info. now destruct (info r). Qed.

Lemma keeps_mapM {A B : Type} (f : A -> M mstate B) (l : list A) :
  (forall x, keeps_status (f x)) -> keeps_status (mapM f l).
Proof.
  intros Hf. induction l as [|x l IH]; simpl.
  - apply keeps_ret.
  - apply keeps_bind; [apply Hf|]. intros y.
    apply keeps_bind; [apply IH|]. intros ys. apply keeps_ret.
Qed.

(** unfolding of the monad's operations, with the matches they expose *)
Ltac run := cbv beta iota zeta delta [ret raise lift bind try].

Ltac keeps :=
  repeat first
    [ apply keeps_ret | apply keeps_raise | apply keeps_lift | apply keeps_call
    | apply keeps_getattr_model | apply keeps_get_info
    | apply keeps_bind; [|intros ?] ].

Lemma keeps_Resource_lookup (r : resource) : keeps_status (Resource_lookup r).
Proof.
  unfold Resource_lookup. apply keeps_try; [keeps|].
  intros e h. destruct e; intros [= <-]. apply keeps_ret.
Qed.

Lemma keeps_data (r : resource) : keeps_status (data r).
Proof.
  unfold data. destruct (r_class r); keeps.
Qed.

Lemma keeps_internal_redirect {A : Type} (url : pyval) :
  keeps_status (internal_redirect url : M mstate A).
Proof. unfold internal_redirect. keeps. Qed.

Lemma keeps_get (r : resource) : keeps_status (get r).
Proof.
  unfold get, DebugReportContent_get, VMScreenShot_get, Resource_get.
  destruct (r_class r);
    repeat first [ apply keeps_Resource_lookup | apply keeps_data
                 | apply keeps_internal_redirect | progress keeps ].
Qed.

(** [get] returns only through [Resource.get]: a lookup, then the
    rendering of [data] under the name of the class *)
Lemma get_returns (r r' : resource) (b : body) (w w' : world mstate) :
  get r w = (inr (r', b), w') ->
  exists (wl : world mstate) (d : pyval),
    Resource_lookup r w = (inr r', wl) /\
    data r' wl = (inr d, w') /\
    b = render (lower (r_name r)) d.
Proof.
  assert (Hbase : Resource_get r w = (inr (r', b), w') ->
                  exists wl d, Resource_lookup r w = (inr r', wl) /\
                               data r' wl = (inr d, w') /\
                               b = render (lower (r_name r)) d).
  { unfold Resource_get, bind.
    destruct (Resource_lookup r w) as [[e|r1] wl]; [discriminate|].
    destruct (data r1 wl) as [[e|d] wd] eqn:Hd; [discriminate|].
    unfold ret. intros [= <- <- <-]. eauto. }
  assert (Hredirect : forall (A : Type) (u : pyval) (x : A) (w1 w2 : world mstate),
             @internal_redirect A u w1 <> (inr x, w2)).
  { intros A u x w1 w2. unfold internal_redirect, bind, lift, raise.
    destruct (py_encode u); discriminate. }
  unfold get. destruct (r_class r); try exact Hbase.
  - unfold DebugReportContent_get, bind.
    destruct (Resource_lookup r w) as [[e|r1] wl]; [discriminate|].
    destruct (get_info r1 wl) as [[e|i] wi]; [discriminate|].
    unfold lift. destruct (py_getitem i "file"); [discriminate|].
    intros H. now apply Hredirect in H.
  - unfold VMScreenShot_get, bind.
    destruct (Resource_lookup r w) as [[e|r1] wl]; [discriminate|].
    destruct (get_info r1 wl) as [[e|i] wi]; [discriminate|].
    intros H. now apply Hredirect in H.
Qed.

(** *** [PUT] *)

Lemma invalid_keys_complete (allowed keys : list string) (k : string) :
  In k keys -> str_in k allowed = false -> In k (invalid_keys allowed keys).
Proof.
  intros Hin Hk. unfold invalid_keys. apply filter_In. split; [assumption|].
  now rewrite Hk.
Qed.

Lemma Resource_update_without_method (r : resource) (w : world mstate) :
  model (model_fn (r_name r) "update") = None ->
  Resource_update r w =
    (inl (HTTPError 405 (Some (lower (r_name r) ++ " does not implement update method"))), w).
Proof.
  intros H. unfold Resource_update, bind, try, getattr_model. rewrite H. reflexivity.
Qed.

(** the update up to the call of the model, for a body that gets there *)
Lemma Resource_update_reaches_model (r : resource) (w w1 : world mstate)
    (fn : model_method) (params : pyval) :
  model (model_fn (r_name r) "update") = Some fn ->
  parse_request w = (inr params, w1) ->
  schema_accepts params (r_name r) "update" ->
  allow_list_passes r params ->
  Resource_update r w =
    match fn [ident r; params] (w_model w1) with
    | (inl e, st') =>
        (inl e, after_call (model_fn (r_name r) "update") [ident r; params] st' w1)
    | (inr new_ident, st') =>
        let w2 := after_call (model_fn (r_name r) "update") [ident r; params] st' w1 in
        if negb (py_eqb new_ident (ident r)) then
          match uri_fmt r with
          | None => (inl AttributeError, w2)
          | Some fmt =>
              match py_encode new_ident with
              | inl e => (inl e, w2)
              | inr quoted =>
                  match py_format fmt
                          (map py_str (removelast (model_args r)) ++ [quote quoted])%list with
                  | inl e => (inl e, w2)
                  | inr url => (inl (HTTPRedirect url 303), w2)
                  end
              end
          end
        else (rb <- get r ;; ret (Some (snd rb))) w2
    end.
Proof.
  intros Hm Hp Hs Ha.
  unfold Resource_update, bind at 1, try, getattr_model. rewrite Hm. unfold ret at 1.
  unfold bind at 1. rewrite Hp.
  unfold bind at 1. rewrite (validate_params_accepts _ _ _ w1 Hs).
  unfold bind at 1.
  assert (Hallow :
    match update_params r with
    | Some allowed =>
        keys <- lift (py_keys params) ;;
        match invalid_keys allowed keys with
        | [] => ret tt
        | _ :: _ =>
            raise (HTTPError 405
                     (Some (py_str (PList (map PStr (invalid_keys allowed keys))) ++
                            " are not allowed to be updated")))
        end
    | None => ret tt
    end w1 = (inr tt, w1)).
  { unfold allow_list_passes in Ha. destruct (update_params r) as [allowed|]; [|reflexivity].
    destruct Ha as (d & -> & Hd). unfold bind, lift. simpl. rewrite Hd. reflexivity. }
  rewrite Hallow. clear Hallow.
  unfold bind at 1, call, after_call.
  destruct (fn [ident r; params] (w_model w1)) as [[e|nid] st']; [reflexivity|].
  cbv zeta. destruct (negb (py_eqb nid (ident r))); [|reflexivity].
  destruct (uri_fmt r); [|reflexivity].
  unfold bind, lift, raise. destruct (py_encode nid); [reflexivity|].
  destruct (py_format _ _); reflexivity.
Qed.


(** the update for a body with a key that the allow-list does not have *)
Lemma Resource_update_invalid_key (r : resource) (w w1 : world mstate)
    (fn : model_method) (allowed : list string) (d : list (string * pyval)) (k : string) :
  model (model_fn (r_name r) "update") = Some fn ->
  update_params r = Some allowed ->
  parse_request w = (inr (PDict d), w1) ->
  In k (invalid_keys allowed (map fst d)) ->
  Resource_update r w =
    match validate_params (PDict d) (r_name r) "update" w1 with
    | (inl e, _) => (inl e, w1)
    | (inr _, _) =>
        (inl (HTTPError 405
                (Some (py_str (PList (map PStr (invalid_keys allowed (map fst d)))) ++
                       " are not allowed to be updated"))), w1)
    end.
Proof.
  intros Hm Ha Hp Hk.
  unfold Resource_update, bind at 1, try, getattr_model. rewrite Hm. unfold ret at 1.
  unfold bind at 1. rewrite Hp. unfold bind at 1.
  destruct (validate_params (PDict d) (r_name r) "update" w1) as [[e|[]] wv] eqn:Hv;
    apply validate_params_frame in Hv; subst wv; [reflexivity|].
  rewrite Ha. unfold bind, lift. simpl py_keys. cbv iota.
  destruct (invalid_keys allowed (map fst d)); [contradiction|reflexivity].
Qed.

(** C2, as the code has it.  [PUT] on a resource with an allow-list, the
    body parsed to a dictionary with a key [k] that the list does not
    have: whatever the answer, the model is not called and its state stays;
    when the model has [<type>_update] and the schema accepts the body, the
    answer is 405 and its message is [str()] of the list of the keys
    outside the allow-list, [k] among them, followed by
    [are not allowed to be updated]. *)
Theorem put_outside_allow_list_is_405 (r : resource) (w w1 : world mstate)
    (allowed : list string) (d : list (string * pyval)) (k : string) :
  upper (method req) = "PUT" ->
  update_params r = Some allowed ->
  parse_request w = (inr (PDict d), w1) ->
  In k (map fst d) -> str_in k allowed = false ->
  (w_calls (snd (Resource_index r w)) = w_calls w /\
   w_model (snd (Resource_index r w)) = w_model w) /\
  (forall fn : model_method,
      model (model_fn (r_name r) "update") = Some fn ->
      schema_accepts (PDict d) (r_name r) "update" ->
      In k (invalid_keys allowed (map fst d)) /\
      Resource_index r w =
        (inl (HTTPError 405
                (Some (py_str (PList (map PStr (invalid_keys allowed (map fst d)))) ++
                       " are not allowed to be updated"))), w1)).
Proof.
  intros Hm Ha Hp Hin Hk.
  pose proof (invalid_keys_complete allowed (map fst d) k Hin Hk) as Hinv.
  destruct (parse_request_frame _ _ _ Hp) as (Hmodel & Hcalls & _).
  rewrite (Resource_index_PUT r w Hm). split.
  - unfold try. destruct (model (model_fn (r_name r) "update")) as [fn|] eqn:Hfn.
    + rewrite (Resource_update_invalid_key r w w1 fn allowed d k Hfn Ha Hp Hinv).
      destruct (validate_params_outcome (PDict d) (r_name r) "update" w1)
        as [-> | [msg ->]]; simpl; auto.
    + rewrite (Resource_update_without_method r w Hfn). simpl. auto.
  - intros fn Hfn Hs. split; [assumption|]. unfold try.
    rewrite (Resource_update_invalid_key r w w1 fn allowed d k Hfn Ha Hp Hinv).
    rewrite (validate_params_accepts _ _ _ w1 Hs). reflexivity.
Qed.

(** C3. [PUT] on a resource, the model's [<type>_update] called and
    returning an identifier.  When it differs from [ident], is a string and
    the class has a URI template, the answer is a 303 redirect to the
    template filled with the leading model arguments and the quoted new
    identifier, and in no case does the handler return a body.  When it
    equals [ident], the answer is what [get] gives in
    the world the update left: if [get] returns, the body is the rendering
    of [data] after a lookup made then, and the status is the one the
    request started with. *)
Theorem put_redirects_or_fetches_again (r : resource) (w w1 : world mstate)
    (fn : model_method) (params new_ident : pyval) (st' : mstate) :
  upper (method req) = "PUT" ->
  model (model_fn (r_name r) "update") = Some fn ->
  parse_request w = (inr params, w1) ->
  schema_accepts params (r_name r) "update" ->
  allow_list_passes r params ->
  fn [ident r; params] (w_model w1) = (inr new_ident, st') ->
  let w2 := after_call (model_fn (r_name r) "update") [ident r; params] st' w1 in
  (py_eqb new_ident (ident r) = false ->
   (forall (b : option body) (w' : world mstate), Resource_index r w <> (inr b, w')) /\
   (forall (s fmt url : string),
       new_ident = PStr s ->
       uri_fmt r = Some fmt ->
       py_format fmt (map py_str (removelast (model_args r)) ++ [quote s])%list = inr url ->
       Resource_index r w = (inl (HTTPRedirect url 303), w2))) /\
  (py_eqb new_ident (ident r) = true ->
   forall (r' : resource) (b : body) (w3 : world mstate),
     get r w2 = (inr (r', b), w3) ->
     Resource_index r w = (inr (Some b), w3) /\
     w_status w3 = w_status w /\
     exists (wl : world mstate) (d : pyval),
       Resource_lookup r w2 = (inr r', wl) /\
       data r' wl = (inr d, w3) /\
       b = render (lower (r_name r)) d).
Proof.
  intros Hm Hfn Hp Hs Ha Hcall w2.
  rewrite (Resource_index_PUT r w Hm). unfold try.
  rewrite (Resource_update_reaches_model r w w1 fn params Hfn Hp Hs Ha), Hcall.
  cbv zeta. fold w2. split.
  - intros Hne. rewrite Hne. cbn [negb]. split.
    + intros b w'.
      assert (Hout : forall e : exn,
                 match @put_errors (option body) e with
                 | Some h => h w2
                 | None => (inl e, w2)
                 end <> (inr b, w')).
      { intros e. destruct e; simpl; discriminate. }
      destruct (uri_fmt r); [|apply Hout].
      destruct (py_encode new_ident); [apply Hout|].
      destruct (py_format _ _); apply Hout.
    + intros s fmt url -> Hfmt Hurl. rewrite Hfmt. simpl. rewrite Hurl. reflexivity.
  - intros Heq r' b w3 Hget. rewrite Heq. simpl negb. cbv iota.
    unfold bind at 1. rewrite Hget. simpl. split; [reflexivity|]. split.
    + pose proof (keeps_get r w2) as Hk. rewrite Hget in Hk. simpl in Hk.
      rewrite Hk. unfold w2. simpl.
      now destruct (parse_request_frame _ _ _ Hp) as (_ & _ & ->).
    + now apply get_returns.
Qed.


(** *** The model's exceptions *)






(** a generated handler up to the call of the model, for a method that
    passes the test against ['POST'] *)
Lemma action_handler_reaches_model (r : resource) (action_name : string)
    (action_args : option (list string)) (w w1 : world mstate)
    (extra : list pyval) (fn : model_method) :
  str_contains (upper (method req)) "POST" = true ->
  body_args action_args w = (inr extra, w1) ->
  model (model_fn (r_name r) action_name) = Some fn ->
  generate_action_handler r action_name action_args w =
    let name := model_fn (r_name r) action_name in
    let args := (model_args r ++ extra)%list in
    match fn args (w_model w1) with
    | (inl e, st') =>
        match @action_errors (option body) e with
        | Some h => h (after_call name args st' w1)
        | None => (inl e, after_call name args st' w1)
        end
    | (inr _, st') =>
        match uri_fmt r with
        | None => (inl AttributeError, after_call name args st' w1)
        | Some fmt =>
            match py_format fmt (map py_str (model_args r)) with
            | inl e =>
                match @action_errors (option body) e with
                | Some h => h (after_call name args st' w1)
                | None => (inl e, after_call name args st' w1)
                end
            | inr url => (inl (InternalRedirect url), after_call name args st' w1)
            end
        end
    end.
Proof.
  intros Hm Hb Hfn.
  unfold generate_action_handler, validate_method, bind at 1, py_in.
  rewrite Hm. cbn [negb]. unfold ret at 1.
  unfold try, bind at 1. rewrite Hb.
  unfold bind at 1, getattr_model. rewrite Hfn. unfold ret at 1.
  unfold bind at 1, call, after_call. cbv zeta.
  destruct (fn (model_args r ++ extra)%list (w_model w1)) as [[e|v] st']; [reflexivity|].
  destruct (uri_fmt r); [|reflexivity].
  unfold bind, lift, internal_redirect, bind, lift, raise.
  destruct (py_format s (map py_str (model_args r))); reflexivity.
Qed.




(** ** Properties of the handlers of a collection *)

Lemma Collection_index_GET (c : collection) (w : world mstate) :
  upper (method req) = "GET" ->
  Collection_index c w = try (b <- collection_get c ;; ret (Some b)) list_errors w.
Proof.
  intros Hm. unfold Collection_index, validate_method, bind at 1. rewrite Hm.
  reflexivity.
Qed.

Lemma Collection_index_POST (c : collection) (w : world mstate) :
  upper (method req) = "POST" ->
  Collection_index c w = try (b <- create c ;; ret (Some b)) action_errors w.
Proof.
  intros Hm. unfold Collection_index, validate_method, bind at 1. rewrite Hm.
  reflexivity.
Qed.

Lemma Collection_get_resources_without_get_list (c : collection) (w : world mstate) :
  model (model_fn (c_name c) "get_list") = None ->
  Collection_get_resources c w = (inr [], w).
Proof.
  intros H. unfold Collection_get_resources, try, bind, getattr_model.
  rewrite H. reflexivity.
Qed.

Lemma data_IsoPool (r : resource) (i : pyval) (d : list (string * pyval))
    (w : world mstate) :
  r_class r = IsoPool -> info r = Some i ->
  info_fields i (same ["state"; "type"]) = inr d ->
  data r w = (inr (PDict (("name", ident r) :: d)), w).
Proof.
  intros Hc Hi Hd. unfold data. rewrite Hc. unfold bind, get_info, lift.
  rewrite Hi. unfold ret at 1. rewrite Hd. reflexivity.
Qed.

(** C6, as the code has it.  [GET] on a collection whose model has no
    [<type>_get_list]: for every class but [StoragePools] the handler
    returns the rendering of the empty list and touches nothing, the
    status with it; [StoragePools] still appends its reserved pool, and
    with a model whose [isopool_lookup] returns a state and a type the
    list rendered holds that one pool. *)
Theorem list_without_get_list (c : collection) (w : world mstate) :
  upper (method req) = "GET" ->
  model (model_fn (c_name c) "get_list") = None ->
  (c_class c <> StoragePools ->
   Collection_index c w = (inr (Some (render (lower (c_name c)) (PList []))), w)) /\
  (c_class c = StoragePools ->
   forall (fn : model_method) (i : pyval) (st' : mstate) (d : list (string * pyval)),
     model "isopool_lookup" = Some fn ->
     fn [PStr ISO_POOL_NAME] (w_model w) = (inr i, st') ->
     info_fields i (same ["state"; "type"]) = inr d ->
     Collection_index c w =
       (inr (Some (render "storagepools"
                     (PList [PDict (("name", PStr ISO_POOL_NAME) :: d)]))),
        after_call "isopool_lookup" [PStr ISO_POOL_NAME] st' w)).
Proof.
  intros Hm Hnone. rewrite (Collection_index_GET c w Hm). split.
  - intros Hc. unfold try, bind at 1, collection_get, Plugins_get, IsoVolumes_get,
      Collection_get, get_resources.
    destruct (c_class c) eqn:E; try (now contradiction Hc);
      try (unfold bind; rewrite (Collection_get_resources_without_get_list c w Hnone);
           reflexivity);
      unfold bind, try, getattr_model; rewrite Hnone; reflexivity.
  - intros Hc fn i st' d Hfn Hcall Hd.
    unfold try, bind at 1, collection_get, Collection_get, get_resources.
    rewrite Hc. unfold StoragePools_get_resources, try, bind at 1, bind at 1, bind at 1.
    rewrite (Collection_get_resources_without_get_list c w Hnone).
    unfold Resource_lookup.
    change (model_fn (r_name isos) "lookup") with "isopool_lookup".
    change (model_args isos) with [PStr ISO_POOL_NAME].
    unfold try, bind, getattr_model, call.
    rewrite Hfn. unfold ret at 1. rewrite Hcall.
    unfold c_name. rewrite Hc. run. cbn [mapM app]. run.
    rewrite (data_IsoPool (set_info isos i) i d _ eq_refl eq_refl Hd).
    reflexivity.
Qed.


(** *** [POST]: what a create that returns has done *)

Lemma bind_returns {A B : Type} (m : M mstate A) (k : A -> M mstate B)
    (w w' : world mstate) (b : B) :
  bind m k w = (inr b, w') ->
  exists (a : A) (w1 : world mstate), m w = (inr a, w1) /\ k a w1 = (inr b, w').
Proof.
  unfold bind. destruct (m w) as [[e|a] w1]; [discriminate|]. eauto.
Qed.

Lemma getattr_create_returns (c : collection) (w w1 : world mstate) (fn : model_method) :
  try (getattr_model (model_fn (c_name c) "create")) (create_not_allowed c) w = (inr fn, w1) ->
  model (model_fn (c_name c) "create") = Some fn /\ w1 = w.
Proof.
  unfold try, getattr_model. destruct (model _); simpl.
  - intros [= <- <-]. auto.
  - discriminate.
Qed.

Lemma call_returns (name : string) (fn : model_method) (args : list pyval)
    (w w1 : world mstate) (v : pyval) :
  call name fn args w = (inr v, w1) ->
  exists st : mstate, fn args (w_model w) = (inr v, st) /\ w1 = after_call name args st w.
Proof.
  unfold call. destruct (fn args (w_model w)) as [x st]. intros [= -> <-]. eauto.
Qed.

Lemma validate_params_returns (params : pyval) (T A : string) (w w1 : world mstate) :
  validate_params params T A w = (inr tt, w1) -> schema_accepts params T A /\ w1 = w.
Proof.
  unfold validate_params, schema_accepts.
  destruct (api_schema req); [destruct (iter_errors _ _) eqn:E|];
    unfold ret, raise; intros [= <-]; auto.
Qed.

Lemma make_resource_class (c : rclass) (args : list pyval) (r : resource) :
  make_resource c args = inr r -> r_class r = c.
Proof.
  destruct c; destruct args as [|a [|b [|x args]]]; simpl;
    intros [= <-]; reflexivity.
Qed.

Lemma Collection_create_returns (c : collection) (w w' : world mstate) (b : body) :
  Collection_create c w = (inr b, w') ->
  exists (fn : model_method) (params : pyval) (w1 : world mstate) (name : pyval)
         (st1 : mstate) (res r' : resource),
    model (model_fn (c_name c) "create") = Some fn /\
    parse_request w = (inr params, w1) /\
    schema_accepts params (c_name c) "create" /\
    fn (coll_model_args c ++ [params])%list (w_model w1) = (inr name, st1) /\
    make_resource (c_resource c) (resource_args c ++ [name])%list = inr res /\
    get res (with_status 201
               (after_call (model_fn (c_name c) "create")
                  (coll_model_args c ++ [params])%list st1 w1)) = (inr (r', b), w').
Proof.
  unfold Collection_create. intros H.
  apply bind_returns in H as (fn & w0 & Hfn & H).
  apply getattr_create_returns in Hfn as (Hfn & ->).
  apply bind_returns in H as (params & w1 & Hp & H).
  apply bind_returns in H as ([] & wv & Hv & H).
  apply validate_params_returns in Hv as (Hs & ->).
  apply bind_returns in H as (name & wc & Hc & H).
  apply call_returns in Hc as (st1 & Hc & ->).
  apply bind_returns in H as ([] & ws & Hst & H).
  unfold set_status in Hst. injection Hst as <-.
  apply bind_returns in H as (res0 & wr & Hr & H).
  unfold lift in Hr.
  destruct (make_resource (c_resource c) (resource_args c ++ [name])%list) as [e|res] eqn:Hmk;
    [discriminate|]. injection Hr as <- <-.
  apply bind_returns in H as ([r' b'] & wg & Hg & H).
  unfold ret in H. simpl in H. injection H as <- <-.
  exists fn, params, w1, name, st1, res, r'. auto 10.
Qed.

(** [AsyncCollection.create] returns exactly when the model has the method
    and its call returns; the schema has no part in it *)
Lemma AsyncCollection_create_returns (c : collection) (w w' : world mstate) (b : body) :
  AsyncCollection_create c w = (inr b, w') <->
  exists (fn : model_method) (params : pyval) (w1 : world mstate) (task : pyval)
         (st1 : mstate),
    model (model_fn (c_name c) "create") = Some fn /\
    parse_request w = (inr params, w1) /\
    fn (coll_model_args c ++ [params])%list (w_model w1) = (inr task, st1) /\
    b = render "Task" task /\
    w' = with_status 202
           (after_call (model_fn (c_name c) "create")
              (coll_model_args c ++ [params])%list st1 w1).
Proof.
  unfold AsyncCollection_create. split.
  - intros H.
    apply bind_returns in H as (fn & w0 & Hfn & H).
    apply getattr_create_returns in Hfn as (Hfn & ->).
    apply bind_returns in H as (params & w1 & Hp & H).
    apply bind_returns in H as (task & wc & Hc & H).
    apply call_returns in Hc as (st1 & Hc & ->).
    apply bind_returns in H as ([] & ws & Hst & H).
    unfold set_status in Hst. injection Hst as <-.
    unfold ret in H. injection H as <- <-.
    exists fn, params, w1, task, st1. auto 10.
  - intros (fn & params & w1 & task & st1 & Hfn & Hp & Hc & -> & ->).
    unfold bind at 1, try, getattr_model. rewrite Hfn. unfold ret at 1.
    unfold bind at 1. rewrite Hp. unfold bind at 1, call. rewrite Hc.
    reflexivity.
Qed.

Lemma StoragePools_create_returns (c : collection) (w w' : world mstate) (b : body) :
  StoragePools_create c w = (inr b, w') ->
  exists (fn : model_method) (params : pyval) (w1 : world mstate) (name : pyval)
         (st1 : mstate) (res r' : resource) (w2 w3 : world mstate) (d : pyval)
         (has_task : bool),
    model (model_fn (c_name c) "create") = Some fn /\
    parse_request w = (inr params, w1) /\
    fn (coll_model_args c ++ [params])%list (w_model w1) = (inr name, st1) /\
    make_resource (c_resource c) (resource_args c ++ [name])%list = inr res /\
    get res (after_call (model_fn (c_name c) "create")
               (coll_model_args c ++ [params])%list st1 w1) = (inr (r', b), w2) /\
    data r' w2 = (inr d, w3) /\
    py_contains "task_id" d = inr has_task /\
    w' = with_status (if has_task then 202 else 201) w3.
Proof.
  unfold StoragePools_create. intros H.
  apply bind_returns in H as (fn & w0 & Hfn & H).
  apply getattr_create_returns in Hfn as (Hfn & ->).
  apply bind_returns in H as (params & w1 & Hp & H).
  apply bind_returns in H as (name & wc & Hc & H).
  apply call_returns in Hc as (st1 & Hc & ->).
  apply bind_returns in H as (res0 & wr & Hr & H).
  unfold lift in Hr.
  destruct (make_resource (c_resource c) (resource_args c ++ [name])%list) as [e|res] eqn:Hmk;
    [discriminate|]. injection Hr as <- <-.
  apply bind_returns in H as ([r' b'] & w2 & Hg & H).
  apply bind_returns in H as (d & w3 & Hd & H).
  apply bind_returns in H as (has_task & wh & Hh & H).
  unfold lift in Hh. destruct (py_contains "task_id" d) as [e|h] eqn:Hin; [discriminate|].
  injection Hh as <- <-.
  apply bind_returns in H as ([] & ws & Hst & H).
  unfold ret in H. simpl in H. injection H as <- <-.
  exists fn, params, w1, name, st1, res, r', w2, w3, d, h.
  repeat split; try assumption.
  destruct h; unfold set_status in Hst; now injection Hst as <-.
Qed.

(** *** Generated action handlers *)

Lemma action_handler_refuses (r : resource) (action_name : string)
    (action_args : option (list string)) (w : world mstate) :
  str_contains (upper (method req)) "POST" = false ->
  generate_action_handler r action_name action_args w = (inl (HTTPError 405 None), w).
Proof.
  intros H. unfold generate_action_handler, validate_method, bind at 1, py_in.
  rewrite H. reflexivity.
Qed.

Lemma body_args_one_key (key : string) (p v : pyval) (w w1 : world mstate) :
  parse_request w = (inr p, w1) -> py_getitem p key = inr v ->
  body_args (Some [key]) w = (inr [v], w1).
Proof.
  intros Hp Hv. unfold body_args. cbn [mapM]. unfold bind at 1, bind at 1.
  rewrite Hp. unfold lift. rewrite Hv. reflexivity.
Qed.

(** A handler made by [generate_action_handler], on [POST]: the values of
    the declared keys follow the model arguments of the resource in the
    call of [<type>_<action>], and the answer is the internal redirect to
    the URI template filled with the model arguments. *)
Lemma action_handler_on_POST (r : resource) (action_name : string)
    (action_args : option (list string)) (w w1 : world mstate)
    (extra : list pyval) (fn : model_method) (v : pyval) (st' : mstate)
    (fmt url : string) :
  upper (method req) = "POST" ->
  body_args action_args w = (inr extra, w1) ->
  model (model_fn (r_name r) action_name) = Some fn ->
  fn (model_args r ++ extra)%list (w_model w1) = (inr v, st') ->
  uri_fmt r = Some fmt ->
  py_format fmt (map py_str (model_args r)) = inr url ->
  generate_action_handler r action_name action_args w =
    (inl (InternalRedirect url),
     after_call (model_fn (r_name r) action_name) (model_args r ++ extra)%list st' w1).
Proof.
  intros Hm Hb Hfn Hcall Hfmt Hurl.
  assert (Hpost : str_contains (upper (method req)) "POST" = true) by now rewrite Hm.
  rewrite (action_handler_reaches_model r action_name action_args w w1 extra fn Hpost Hb Hfn).
  cbv zeta. rewrite Hcall, Hfmt, Hurl. reflexivity.
Qed.


Lemma Resource_lookup_class (r r' : resource) (w w' : world mstate) :
  Resource_lookup r w = (inr r', w') -> r_class r' = r_class r.
Proof.
  unfold Resource_lookup, try, bind, getattr_model.
  destruct (model _) as [fn|]; simpl.
  - destruct (call _ fn (model_args r) w) as [[e|i] wc].
    + destruct e; simpl; try discriminate. now intros [= <- _].
    + now intros [= <- _].
  - now intros [= <- _].
Qed.

(** ** More on the handlers of a resource *)

Lemma Resource_lookup_no_AttributeError (r : resource) (w : world mstate) :
  fst (Resource_lookup r w) <> inl AttributeError.
Proof.
  unfold Resource_lookup, try, bind, getattr_model.
  destruct (model _) as [fn|]; simpl; [|discriminate].
  destruct (call _ fn (model_args r) w) as [[e|i] wc]; simpl; [|discriminate].
  destruct e; simpl; discriminate.
Qed.

Lemma Resource_lookup_returns (r r' : resource) (w w' : world mstate) :
  Resource_lookup r w = (inr r', w') -> exists i : pyval, r' = set_info r i.
Proof.
  unfold Resource_lookup, try, bind, getattr_model.
  destruct (model _) as [fn|]; simpl.
  - destruct (call _ fn (model_args r) w) as [[e|i] wc]; simpl.
    + destruct e; simpl; try discriminate. intros [= <- _]. eauto.
    + intros [= <- _]. eauto.
  - intros [= <- _]. eauto.
Qed.

(** X1. [Resource.lookup] never ends in an [AttributeError]: a model without
    [<type>_lookup], and a lookup that raises [AttributeError] inside the
    model, both leave the resource with an empty [info]; whenever the
    lookup returns, the resource differs from what it was in [info]
    alone. *)
Theorem lookup_masks_AttributeError (r : resource) (w : world mstate) :
  fst (Resource_lookup r w) <> inl AttributeError /\
  (forall (r' : resource) (w' : world mstate),
      Resource_lookup r w = (inr r', w') -> exists i : pyval, r' = set_info r i) /\
  (model (model_fn (r_name r) "lookup") = None ->
   Resource_lookup r w = (inr (set_info r (PDict [])), w)) /\
  (forall (fn : model_method) (st' : mstate),
      model (model_fn (r_name r) "lookup") = Some fn ->
      fn (model_args r) (w_model w) = (inl AttributeError, st') ->
      Resource_lookup r w =
        (inr (set_info r (PDict [])),
         after_call (model_fn (r_name r) "lookup") (model_args r) st' w)).
Proof.
  split; [apply Resource_lookup_no_AttributeError|].
  split; [intros r' w'; apply Resource_lookup_returns|].
  unfold Resource_lookup, try, bind, getattr_model, call. split.
  - intros ->. reflexivity.
  - intros fn st' -> Hcall. unfold ret at 1. rewrite Hcall. reflexivity.
Qed.

(** X2. [DELETE] on a resource whose model has [<type>_delete], the call
    raising [AttributeError] inside the model: the answer is the 405 of a
    missing method, with the model left as the failed call left it. *)
Theorem delete_AttributeError_inside_model_is_405 (r : resource) (w : world mstate)
    (fn : model_method) (st' : mstate) :
  upper (method req) = "DELETE" ->
  model (model_fn (r_name r) "delete") = Some fn ->
  fn (model_args r) (w_model w) = (inl AttributeError, st') ->
  Resource_index r w =
    (inl (HTTPError 405 (Some ("Delete is not allowed for " ++ lower (r_name r)))),
     after_call (model_fn (r_name r) "delete") (model_args r) st' w).
Proof.
  intros Hm Hfn Hcall. rewrite (Resource_index_DELETE r w Hm).
  unfold try, Resource_delete, try, bind, getattr_model, call.
  rewrite Hfn. unfold ret. rewrite Hcall. reflexivity.
Qed.

(** X3. A model without [<type>_create] makes [POST] on a collection of any
    class a 405, and a model without [<type>_update] makes [PUT] on a
    resource of any class a 405; in both cases the body of the request has
    not been read and nothing else has happened. *)
Theorem missing_create_or_update_is_405 (c : collection) (r : resource)
    (w : world mstate) :
  (upper (method req) = "POST" ->
   model (model_fn (c_name c) "create") = None ->
   Collection_index c w =
     (inl (HTTPError 405 (Some ("Create is not allowed for " ++ lower (c_name c)))), w)) /\
  (upper (method req) = "PUT" ->
   model (model_fn (r_name r) "update") = None ->
   Resource_index r w =
     (inl (HTTPError 405 (Some (lower (r_name r) ++ " does not implement update method"))),
      w)).
Proof.
  split.
  - intros Hm Hnone. rewrite (Collection_index_POST c w Hm).
    unfold try, bind at 1, create, Collection_create, AsyncCollection_create,
      StoragePools_create.
    destruct (c_class c); unfold bind at 1, try, getattr_model; rewrite Hnone; reflexivity.
  - intros Hm Hnone. rewrite (Resource_index_PUT r w Hm). unfold try.
    rewrite (Resource_update_without_method r w Hnone). reflexivity.
Qed.

Lemma internal_redirect_raises {A : Type} (url : pyval) (x : A) (w w' : world mstate) :
  @internal_redirect A url w <> (inr x, w').
Proof.
  unfold internal_redirect, bind, lift, raise. destruct (py_encode url); discriminate.
Qed.

(** X4. [GET] on the content of a debug report or on the screenshot of a
    machine never returns a body.  When the lookup returns a dictionary
    with a text under [file], respectively a text, the answer is the
    internal redirect to that text. *)
Theorem get_of_content_and_screenshot_redirects (r : resource) (w : world mstate) :
  upper (method req) = "GET" ->
  (r_class r = DebugReportContent \/ r_class r = VMScreenShot ->
   forall (b : option body) (w' : world mstate), Resource_index r w <> (inr b, w')) /\
  (r_class r = DebugReportContent ->
   forall (fn : model_method) (i : pyval) (f : string) (st' : mstate),
     model (model_fn (r_name r) "lookup") = Some fn ->
     fn (model_args r) (w_model w) = (inr i, st') ->
     py_getitem i "file" = inr (PStr f) ->
     Resource_index r w =
       (inl (InternalRedirect f),
        after_call (model_fn (r_name r) "lookup") (model_args r) st' w)) /\
  (r_class r = VMScreenShot ->
   forall (fn : model_method) (u : string) (st' : mstate),
     model (model_fn (r_name r) "lookup") = Some fn ->
     fn (model_args r) (w_model w) = (inr (PStr u), st') ->
     Resource_index r w =
       (inl (InternalRedirect u),
        after_call (model_fn (r_name r) "lookup") (model_args r) st' w)).
Proof.
  intros Hm. rewrite (Resource_index_GET r w Hm). split; [|split].
  - intros Hc b w'.
    assert (Hget : forall rb wg, get r w <> (inr rb, wg)).
    { intros rb wg. unfold get.
      destruct Hc as [-> | ->].
      - unfold DebugReportContent_get, bind.
        destruct (Resource_lookup r w) as [[e|r1] wl]; [discriminate|].
        destruct (get_info r1 wl) as [[e|i] wi]; [discriminate|].
        unfold lift. destruct (py_getitem i "file"); [discriminate|].
        apply internal_redirect_raises.
      - unfold VMScreenShot_get, bind.
        destruct (Resource_lookup r w) as [[e|r1] wl]; [discriminate|].
        destruct (get_info r1 wl) as [[e|i] wi]; [discriminate|].
        apply internal_redirect_raises. }
    unfold try, bind. destruct (get r w) as [[e|rb] wg] eqn:E.
    + destruct e; simpl; discriminate.
    + exfalso. exact (Hget rb wg eq_refl).
  - intros Hc fn i f st' Hfn Hcall Hfile.
    unfold get. rewrite Hc.
    unfold DebugReportContent_get, Resource_lookup, getattr_model, call.
    rewrite Hfn. run. rewrite Hcall. unfold get_info.
    change (info (set_info r i)) with (Some i). run.
    rewrite Hfile. reflexivity.
  - intros Hc fn u st' Hfn Hcall.
    unfold get. rewrite Hc.
    unfold VMScreenShot_get, Resource_lookup, getattr_model, call.
    rewrite Hfn. run. rewrite Hcall. reflexivity.
Qed.

(** ** More on the handlers of a collection *)

(** the create of any class up to the call of the model, for a call that
    raises *)
Lemma create_model_raises (c : collection) (w w1 : world mstate) (fn : model_method)
    (params : pyval) (e : exn) (st' : mstate) :
  model (model_fn (c_name c) "create") = Some fn ->
  parse_request w = (inr params, w1) ->
  match c_class c with
  | AsyncCollection | DebugReports | StoragePools => True
  | _ => schema_accepts params (c_name c) "create"
  end ->
  fn (coll_model_args c ++ [params])%list (w_model w1) = (inl e, st') ->
  create c w =
    (inl e, after_call (model_fn (c_name c) "create")
              (coll_model_args c ++ [params])%list st' w1).
Proof.
  intros Hfn Hp Hs Hcall. unfold create.
  assert (Hsync : schema_accepts params (c_name c) "create" ->
                  Collection_create c w =
                    (inl e, after_call (model_fn (c_name c) "create")
                              (coll_model_args c ++ [params])%list st' w1)).
  { intros Ha. unfold Collection_create, bind at 1, try, getattr_model.
    rewrite Hfn. unfold ret at 1. unfold bind at 1. rewrite Hp.
    unfold bind at 1. rewrite (validate_params_accepts _ _ _ w1 Ha).
    unfold bind at 1, call. rewrite Hcall. reflexivity. }
  destruct (c_class c); try (now apply Hsync).
  - unfold AsyncCollection_create, bind at 1, try, getattr_model.
    rewrite Hfn. unfold ret at 1. unfold bind at 1. rewrite Hp.
    unfold bind at 1, call. rewrite Hcall. reflexivity.
  - unfold StoragePools_create, bind at 1, try, getattr_model.
    rewrite Hfn. unfold ret at 1. unfold bind at 1. rewrite Hp.
    unfold bind at 1, call. rewrite Hcall. reflexivity.
  - unfold AsyncCollection_create, bind at 1, try, getattr_model.
    rewrite Hfn. unfold ret at 1. unfold bind at 1. rewrite Hp.
    unfold bind at 1, call. rewrite Hcall. reflexivity.
Qed.

(** X5. [POST] on a collection of any class, the model's [<type>_create]
    raising: 400 for [MissingParameter], [InvalidParameter] and
    [InvalidOperation], 500 for [OperationFailed], 404 for
    [NotFoundError]; the world is as the failed call left it. *)
Theorem create_errors_to_statuses (c : collection) (w w1 : world mstate)
    (fn : model_method) (params : pyval) (e : exn) (st' : mstate) (status : Z) :
  upper (method req) = "POST" ->
  model (model_fn (c_name c) "create") = Some fn ->
  parse_request w = (inr params, w1) ->
  match c_class c with
  | AsyncCollection | DebugReports | StoragePools => True
  | _ => schema_accepts params (c_name c) "create"
  end ->
  fn (coll_model_args c ++ [params])%list (w_model w1) = (inl e, st') ->
  action_status e = Some status ->
  error_status (fst (Collection_index c w)) = Some status /\
  snd (Collection_index c w) =
    after_call (model_fn (c_name c) "create") (coll_model_args c ++ [params])%list st' w1.
Proof.
  intros Hm Hfn Hp Hs Hcall Hst. rewrite (Collection_index_POST c w Hm).
  unfold try, bind. rewrite (create_model_raises c w w1 fn params e st' Hfn Hp Hs Hcall).
  destruct e; try discriminate; injection Hst as <-; split; reflexivity.
Qed.

(** X6. [POST] on a collection that validates its bodies (every class but
    [AsyncCollection], [DebugReports] and [StoragePools]), the schema of
    the server having something to say against the parsed body: the answer
    is 400 with the validator's messages joined by a semicolon, and the
    model's create has not been called. *)
Theorem create_rejected_by_schema_is_400 (c : collection) (w w1 : world mstate)
    (fn : model_method) (params schema : pyval) :
  upper (method req) = "POST" ->
  c_class c <> AsyncCollection -> c_class c <> DebugReports -> c_class c <> StoragePools ->
  model (model_fn (c_name c) "create") = Some fn ->
  parse_request w = (inr params, w1) ->
  api_schema req = Some schema ->
  iter_errors schema (PDict [(lower (c_name c) ++ "_create", params)]) <> [] ->
  Collection_index c w =
    (inl (HTTPError 400
            (Some ("Invalid parameter: '" ++
                   join "; " (iter_errors schema
                                (PDict [(lower (c_name c) ++ "_create", params)])) ++
                   "'"))), w1) /\
  w_calls w1 = w_calls w /\ w_model w1 = w_model w.
Proof.
  intros Hm Ha Hd Hs Hfn Hp Hschema Herr.
  destruct (parse_request_frame _ _ _ Hp) as (Hmodel & Hcalls & _).
  split; [|auto].
  rewrite (Collection_index_POST c w Hm).
  assert (Hcreate :
    Collection_create c w =
      (inl (InvalidParameter
              (join "; " (iter_errors schema
                            (PDict [(lower (c_name c) ++ "_create", params)])))), w1)).
  { unfold Collection_create, bind at 1, try, getattr_model.
    rewrite Hfn. unfold ret at 1. unfold bind at 1. rewrite Hp.
    unfold bind at 1, validate_params, model_fn, get_class_name. rewrite Hschema.
    destruct (iter_errors schema _) eqn:E; [contradiction | reflexivity]. }
  unfold try, bind at 1, create.
  destruct (c_class c); try contradiction; rewrite Hcreate; reflexivity.
Qed.

Lemma collection_get_get_list_raises (c : collection) (w : world mstate)
    (fn : model_method) (e : exn) (st' : mstate) :
  model (model_fn (c_name c) "get_list") = Some fn ->
  fn (coll_model_args c) (w_model w) = (inl e, st') ->
  e <> AttributeError ->
  collection_get c w =
    (inl e, after_call (model_fn (c_name c) "get_list") (coll_model_args c) st' w).
Proof.
  intros Hfn Hcall He.
  assert (Hbase : Collection_get_resources c w =
                    (inl e, after_call (model_fn (c_name c) "get_list")
                              (coll_model_args c) st' w)).
  { unfold Collection_get_resources, try, bind, getattr_model, call.
    rewrite Hfn. unfold ret at 1. rewrite Hcall.
    destruct e; try reflexivity. now contradiction He. }
  assert (Hget : Collection_get_resources c w =
                    (inl e, after_call (model_fn (c_name c) "get_list")
                              (coll_model_args c) st' w) ->
                 get_resources c w = Collection_get_resources c w ->
                 Collection_get c w =
                   (inl e, after_call (model_fn (c_name c) "get_list")
                             (coll_model_args c) st' w)).
  { intros H1 H2. unfold Collection_get, bind at 1. rewrite H2, H1. reflexivity. }
  assert (Hiso : IsoVolumes_get c w =
                   (inl e, after_call (model_fn (c_name c) "get_list")
                             (coll_model_args c) st' w)).
  { unfold IsoVolumes_get, bind at 1, try, bind, getattr_model, call.
    rewrite Hfn. unfold ret at 1. rewrite Hcall.
    destruct e; try reflexivity. now contradiction He. }
  unfold collection_get, Plugins_get.
  destruct (c_class c) eqn:E; try exact Hiso;
    try (apply Hget; [exact Hbase | unfold get_resources; rewrite E; reflexivity]).
  (* StoragePools *)
  unfold Collection_get, bind at 1, get_resources. rewrite E.
  unfold StoragePools_get_resources, try, bind at 1. rewrite Hbase.
  destruct e; try reflexivity. now contradiction He.
Qed.

(** X7. [GET] on a collection of any class, the model's [<type>_get_list]
    raising: [InvalidOperation] is answered 400 and [NotFoundError] 404;
    an [AttributeError] from inside the model is taken for a missing
    method, and every class but [StoragePools] answers the empty list;
    any other exception, [OperationFailed] among them, leaves the handler
    as it is. *)
Theorem get_list_errors (c : collection) (w : world mstate) (fn : model_method)
    (e : exn) (st' : mstate) :
  upper (method req) = "GET" ->
  model (model_fn (c_name c) "get_list") = Some fn ->
  fn (coll_model_args c) (w_model w) = (inl e, st') ->
  let w' := after_call (model_fn (c_name c) "get_list") (coll_model_args c) st' w in
  (forall status : Z,
      LIST_status e = Some status ->
      error_status (fst (Collection_index c w)) = Some status /\
      snd (Collection_index c w) = w') /\
  (e = AttributeError -> c_class c <> StoragePools ->
   Collection_index c w = (inr (Some (render (lower (c_name c)) (PList []))), w')) /\
  (LIST_status e = None -> e <> AttributeError ->
   Collection_index c w = (inl e, w')).
Proof.
  intros Hm Hfn Hcall w'. rewrite (Collection_index_GET c w Hm). split; [|split].
  - intros status Hst.
    assert (He : e <> AttributeError) by (intros ->; discriminate).
    unfold try, bind. rewrite (collection_get_get_list_raises c w fn e st' Hfn Hcall He).
    destruct e; try discriminate; injection Hst as <-; split; reflexivity.
  - intros -> Hc.
    assert (Hbase : Collection_get_resources c w = (inr [], w')).
    { unfold Collection_get_resources, try, bind, getattr_model, call.
      rewrite Hfn. unfold ret at 1. rewrite Hcall. reflexivity. }
    unfold try, bind at 1, collection_get, Plugins_get, IsoVolumes_get,
      Collection_get, get_resources.
    destruct (c_class c) eqn:E; try (now contradiction Hc);
      try (unfold bind; rewrite Hbase; reflexivity);
      unfold bind, try, getattr_model, call; rewrite Hfn; unfold ret at 1;
      rewrite Hcall; reflexivity.
  - intros Hnone He.
    unfold try, bind. rewrite (collection_get_get_list_raises c w fn e st' Hfn Hcall He).
    destruct e; try discriminate; reflexivity.
Qed.

(** *** The resources of a listing *)

Lemma mapM_no_AttributeError {A B : Type} (f : A -> M mstate B) (l : list A) :
  (forall x w, fst (f x w) <> inl AttributeError) ->
  forall w, fst (mapM f l w) <> inl AttributeError.
Proof.
  intros Hf. induction l as [|x l IH]; intros w; simpl; [discriminate|].
  unfold bind at 1. specialize (Hf x w).
  destruct (f x w) as [[e|y] w1]; simpl in *; [intros [= ->]; now apply Hf|].
  unfold bind. specialize (IH w1).
  destruct (mapM f l w1) as [[e|ys] w2]; simpl in *; [exact IH | discriminate].
Qed.

Lemma mapM_returns {A B : Type} (f : A -> M mstate B) (P : A -> B -> Prop) (l : list A) :
  (forall x w y w', f x w = (inr y, w') -> P x y) ->
  forall w ys w', mapM f l w = (inr ys, w') -> Forall2 P l ys.
Proof.
  intros Hf. induction l as [|x l IH]; intros w ys w'; simpl.
  - intros [= <- _]. constructor.
  - intros H. apply bind_returns in H as (y & w1 & Hy & H).
    apply bind_returns in H as (ys' & w2 & Hys & H).
    injection H as <- _. constructor; eauto.
Qed.

Lemma make_resource_ident (c : rclass) (args : list pyval) (i : pyval) (r : resource) :
  make_resource c (args ++ [i])%list = inr r -> ident r = i.
Proof.
  destruct args as [|a [|b [|x args]]]; destruct c; simpl;
    intros [= <-]; reflexivity.
Qed.

(** what the loop of [_get_resources] makes of one identifier *)
Lemma member_looked_up (c : collection) (i : pyval) (r : resource) (w w' : world mstate) :
  (res <- lift (make_resource (c_resource c) (resource_args c ++ [i])%list) ;;
   Resource_lookup res) w = (inr r, w') ->
  ident r = i /\ info r <> None.
Proof.
  intros H. apply bind_returns in H as (res & w1 & Hres & H).
  unfold lift in Hres.
  destruct (make_resource _ _) as [e|res0] eqn:Hmk; [discriminate|].
  injection Hres as <- <-.
  apply Resource_lookup_returns in H as (i0 & ->).
  split; [exact (make_resource_ident _ _ _ _ Hmk) | discriminate].
Qed.

Lemma member_no_AttributeError (c : collection) (i : pyval) (w : world mstate) :
  fst ((res <- lift (make_resource (c_resource c) (resource_args c ++ [i])%list) ;;
        Resource_lookup res) w) <> inl AttributeError.
Proof.
  unfold bind, lift.
  destruct (make_resource _ _) as [e|res] eqn:Hmk.
  - destruct c as [cc cr ra ma]. simpl in Hmk.
    destruct ra as [|a [|b [|x ra]]]; destruct cr; simpl in Hmk;
      try discriminate; injection Hmk as <-; discriminate.
  - apply Resource_lookup_no_AttributeError.
Qed.

Lemma Forall2_idents (idents : list pyval) (rs : list resource) :
  Forall2 (fun i r => ident r = i /\ info r <> None) idents rs ->
  map ident rs = idents /\ Forall (fun r => info r <> None) rs.
Proof.
  induction 1 as [|i r idents rs [Hi Hinfo] _ [IHm IHf]]; simpl.
  - split; [reflexivity | constructor].
  - split; [now rewrite Hi, IHm | now constructor].
Qed.

Lemma Collection_get_resources_looked_up (c : collection) (w w' : world mstate)
    (rs : list resource) :
  Collection_get_resources c w = (inr rs, w') ->
  Forall (fun r => info r <> None) rs.
Proof.
  unfold Collection_get_resources, try.
  match goal with |- context [let (_, _) := ?m w in _] => destruct (m w) as [[e|l] w1] eqn:E end.
  - destruct e; try discriminate. intros [= <- _]. constructor.
  - intros [= <- _].
    apply bind_returns in E as (gl & w2 & _ & E).
    apply bind_returns in E as (idents & w3 & _ & E).
    apply bind_returns in E as (items & w4 & _ & E).
    apply (mapM_returns _ (fun i r => ident r = i /\ info r <> None)) in E.
    + now apply Forall2_idents in E.
    + intros x wx y wy. apply member_looked_up.
Qed.

Lemma Collection_get_resources_of_list (c : collection) (w w' : world mstate)
    (rs : list resource) (gl : model_method) (idents : list pyval) (st1 : mstate) :
  Collection_get_resources c w = (inr rs, w') ->
  model (model_fn (c_name c) "get_list") = Some gl ->
  gl (coll_model_args c) (w_model w) = (inr (PList idents), st1) ->
  map ident rs = idents.
Proof.
  intros H Hgl Hcall. revert H.
  unfold Collection_get_resources, try, bind at 1, getattr_model. rewrite Hgl.
  unfold ret at 1, bind at 1, call. rewrite Hcall.
  unfold bind at 1, lift. simpl py_iter. cbv iota.
  match goal with |- context [mapM ?f idents ?w0] =>
    pose proof (mapM_no_AttributeError f idents (member_no_AttributeError c) w0) as Hno;
    pose proof (mapM_returns f (fun i r => ident r = i /\ info r <> None) idents
                  (fun x wx y wy => member_looked_up c x y wx wy) w0) as Hret;
    destruct (mapM f idents w0) as [[e|l] w1]
  end.
  - simpl in Hno. destruct e; try discriminate. now contradiction Hno.
  - intros [= <- _]. exact (proj1 (Forall2_idents _ _ (Hret l w1 eq_refl))).
Qed.

Lemma StoragePools_get_resources_returns (c : collection) (w w' : world mstate)
    (rs : list resource) :
  StoragePools_get_resources c w = (inr rs, w') ->
  exists (rs0 : list resource) (w1 : world mstate) (i : pyval),
    Collection_get_resources c w = (inr rs0, w1) /\
    rs = (rs0 ++ [set_info isos i])%list.
Proof.
  unfold StoragePools_get_resources, try at 1, bind at 1.
  destruct (Collection_get_resources c w) as [[e|rs0] w1] eqn:E.
  - destruct e; discriminate.
  - unfold try, bind.
    pose proof (Resource_lookup_no_AttributeError isos w1) as Hno.
    destruct (Resource_lookup isos w1) as [[e|iso'] w2] eqn:El; simpl in Hno.
    + destruct e; try discriminate. now contradiction Hno.
    + apply Resource_lookup_returns in El as (i & ->).
      intros [= <- _]. eauto.
Qed.

(** X8. The resources [_get_resources] hands to [Collection.get], for every
    class: each has been looked up, so each has its [info]; when the
    model's [<type>_get_list] returned a list, the resources carry its
    identifiers in its order, followed on [StoragePools], and only there,
    by the reserved ISO pool. *)
Theorem listing_follows_get_list (c : collection) (w w' : world mstate)
    (rs : list resource) :
  get_resources c w = (inr rs, w') ->
  Forall (fun r => info r <> None) rs /\
  (forall (gl : model_method) (idents : list pyval) (st1 : mstate),
      model (model_fn (c_name c) "get_list") = Some gl ->
      gl (coll_model_args c) (w_model w) = (inr (PList idents), st1) ->
      map ident rs =
        match c_class c with
        | StoragePools => (idents ++ [PStr ISO_POOL_NAME])%list
        | _ => idents
        end).
Proof.
  unfold get_resources. intros H.
  assert (Hbase : Collection_get_resources c w = (inr rs, w') ->
                  Forall (fun r => info r <> None) rs /\
                  (forall gl idents st1,
                      model (model_fn (c_name c) "get_list") = Some gl ->
                      gl (coll_model_args c) (w_model w) = (inr (PList idents), st1) ->
                      map ident rs = idents)).
  { intros Hb. split; [now apply (Collection_get_resources_looked_up c w w')|].
    intros gl idents st1. now apply (Collection_get_resources_of_list c w w'). }
  destruct (c_class c); try (now apply Hbase).
  apply StoragePools_get_resources_returns in H as (rs0 & w1 & i & Hb & ->). split.
  - apply Forall_app. split.
    + now apply (Collection_get_resources_looked_up c w w1).
    + constructor; [discriminate | constructor].
  - intros gl idents st1 Hgl Hcall. rewrite map_app. simpl.
    now rewrite (Collection_get_resources_of_list c w w1 rs0 gl idents st1 Hb Hgl Hcall).
Qed.

(** ** The data of a resource *)

Lemma lookup_key_dict_set_same (k : string) (v : pyval) (d : list (string * pyval)) :
  lookup_key k (dict_set k v d) = Some v.
Proof.
  induction d as [|[k' v'] d IH]; simpl.
  - now rewrite String.eqb_refl.
  - destruct (String.eqb k k') eqn:E; simpl; [now rewrite String.eqb_refl|].
    now rewrite E.
Qed.

Lemma lookup_key_dict_set_other (k k' : string) (v : pyval) (d : list (string * pyval)) :
  String.eqb k' k = false -> lookup_key k' (dict_set k v d) = lookup_key k' d.
Proof.
  intros Hne. induction d as [|[k0 v0] d IH]; simpl.
  - now rewrite Hne.
  - destruct (String.eqb k k0) eqn:E; simpl.
    + apply String.eqb_eq in E. subst k0. now rewrite Hne.
    + destruct (String.eqb k' k0); [reflexivity | exact IH].
Qed.

Lemma lookup_key_not_in (k : string) (d : list (string * pyval)) :
  str_in k (map fst d) = false -> lookup_key k d = None.
Proof.
  unfold str_in. induction d as [|[k' v] d IH]; simpl; [reflexivity|].
  intros H. apply orb_false_iff in H as [-> H]. auto.
Qed.

Lemma info_fields_returns (i : list (string * pyval)) (fields : list (string * string)) :
  forallb (fun k => dict_has k i) (map snd fields) = true ->
  exists d, info_fields (PDict i) fields = inr d /\ map fst d = map fst fields.
Proof.
  induction fields as [|[out key] fields IH]; simpl; intros H.
  - eauto.
  - apply andb_true_iff in H as [Hk H]. unfold dict_has in Hk.
    destruct (lookup_key key i) as [v|]; [|discriminate].
    destruct (IH H) as (d & -> & Hd). exists ((out, v) :: d). simpl.
    now rewrite Hd.
Qed.

Lemma info_fields_raises (i : list (string * pyval)) (fields : list (string * string))
    (e : exn) :
  info_fields (PDict i) fields = inl e ->
  exists k, e = KeyError k /\ In k (map snd fields) /\ lookup_key k i = None.
Proof.
  induction fields as [|[out key] fields IH]; simpl; [discriminate|].
  destruct (lookup_key key i) as [v|] eqn:E.
  - destruct (info_fields (PDict i) fields) as [e'|d]; [|discriminate].
    intros [= <-]. destruct (IH eq_refl) as (k & -> & Hin & Hk). eauto.
  - intros [= <-]. eauto.
Qed.

Lemma optional_fields_lookup (i : list (string * pyval)) (keys : list string) :
  forall res : list (string * pyval),
  exists out,
    optional_fields (PDict i) keys res = inr out /\
    forall k, lookup_key k out =
              if str_in k keys && truthy_at i k then lookup_key k i else lookup_key k res.
Proof.
  induction keys as [|key keys IH]; intros res; simpl.
  - exists res. split; [reflexivity|]. intros k. reflexivity.
  - destruct (IH (if py_truthy (match lookup_key key i with Some x => x | None => PNone end)
                  then dict_set key (match lookup_key key i with Some x => x | None => PNone end) res
                  else res)) as (out & Hout & Hk).
    exists out. split.
    + destruct (lookup_key key i); exact Hout.
    + intros k. rewrite Hk. unfold str_in. simpl existsb.
      destruct (String.eqb k key) eqn:Ek; simpl orb.
      * apply String.eqb_eq in Ek. subst key. unfold truthy_at.
        destruct (lookup_key k i) as [v|]; simpl.
        -- destruct (py_truthy v).
           ++ rewrite lookup_key_dict_set_same. now destruct (existsb _ keys).
           ++ now rewrite andb_false_r.
        -- now rewrite andb_false_r.
      * destruct (py_truthy _); [|reflexivity].
        now rewrite lookup_key_dict_set_other.
Qed.

Ltac use_info_fields i Hreq :=
  match goal with
  | |- context [info_fields (PDict i) ?F] =>
      let d := fresh "d" in
      let Hd := fresh "Hd" in
      let Hkeys := fresh "Hkeys" in
      destruct (info_fields_returns i F Hreq) as (d & Hd & Hkeys); rewrite Hd
  end.

Ltac use_optional_fields i :=
  match goal with
  | |- context [optional_fields (PDict i) ?K ?B] =>
      let out := fresh "out" in
      let Hout := fresh "Hout" in
      let Hlk := fresh "Hlk" in
      destruct (optional_fields_lookup i K B) as (out & Hout & Hlk); rewrite Hout
  end.

Ltac fail_in_info_fields i :=
  match goal with
  | |- context [info_fields (PDict i) ?F] =>
      let E := fresh "E" in
      destruct (info_fields (PDict i) F) as [?e0|?d0] eqn:E;
      [ intros [= <- <-];
        let k := fresh "k" in
        let Hin := fresh "Hin" in
        let Hk := fresh "Hk" in
        destruct (info_fields_raises i F _ E) as (k & -> & Hin & Hk);
        exists k; auto
      | ]
  end.

(** X9. The [data] of a resource whose lookup returned a dictionary, for every
    class but [VM] and [Capabilities]: when the dictionary has the keys the
    class reads, [data] is a dictionary, and a key that is copied only when
    true ([task_id] of a pool; [os_version], [os_distro] and [bootable] of
    a volume) is in it exactly when its value in [info] is true; when
    [data] fails, it is with the [KeyError] of a key that the class reads
    and [info] lacks. *)
Theorem data_reads_info (r : resource) (i : list (string * pyval)) (w : world mstate) :
  info r = Some (PDict i) ->
  r_class r <> VM -> r_class r <> Capabilities ->
  (forallb (fun k => dict_has k i) (required_keys (r_class r)) = true ->
   exists d : list (string * pyval),
     data r w = (inr (PDict d), w) /\
     forall k, In k (optional_keys (r_class r)) ->
               lookup_key k d = if truthy_at i k then lookup_key k i else None) /\
  (forall (e : exn) (w' : world mstate),
      data r w = (inl e, w') ->
      exists k, e = KeyError k /\ In k (required_keys (r_class r)) /\
                lookup_key k i = None /\ w' = w).
Proof.
  intros Hi Hvm Hcap. unfold data, get_info. rewrite Hi.
  destruct (r_class r) eqn:Hc; try contradiction; run;
    cbn [required_keys optional_keys]; split;
    try (intros Hreq; eexists; split; [reflexivity | intros k []]; fail);
    try (intros e w'; discriminate).
  all: try (intros Hreq; use_info_fields i Hreq).
  all: try (intros e w'; fail_in_info_fields i).
  all: try discriminate.
  all: try (eexists; split; [reflexivity | intros k []]; fail).
  all: try use_optional_fields i.
  all: try discriminate.
  all: try (simpl py_dict_get; destruct (lookup_key "folder" i)).
  all: try discriminate.
  all: try (eexists; split; [reflexivity | intros k []]; fail).
  all: eexists; (split; [reflexivity|]); intros k Hin; rewrite Hlk; simpl in Hin;
    repeat (destruct Hin as [<- | Hin];
            [ cbn [str_in existsb String.eqb Ascii.eqb Bool.eqb orb andb];
              destruct (truthy_at i _); [reflexivity|];
              simpl lookup_key; apply lookup_key_not_in; rewrite Hkeys; reflexivity
            | ]);
    contradiction.
Qed.

Lemma dict_has_str_in (k : string) (d : list (string * pyval)) :
  dict_has k d = str_in k (map fst d).
Proof.
  unfold dict_has, str_in. induction d as [|[k' v] d IH]; simpl; [reflexivity|].
  destruct (String.eqb k k'); [reflexivity | exact IH].
Qed.

Lemma dict_has_dict_set (k k' : string) (v : pyval) (d : list (string * pyval)) :
  dict_has k' (dict_set k v d) = String.eqb k' k || dict_has k' d.
Proof.
  unfold dict_has. destruct (String.eqb k' k) eqn:E.
  - apply String.eqb_eq in E. subst k'. now rewrite lookup_key_dict_set_same.
  - now rewrite lookup_key_dict_set_other.
Qed.

Lemma dict_update_has (k : string) (other d : list (string * pyval)) :
  dict_has k (dict_update d other) = dict_has k d || dict_has k other.
Proof.
  unfold dict_update. revert d.
  induction other as [|[k1 v1] other IH]; intros d; simpl.
  - now rewrite orb_false_r.
  - rewrite IH, dict_has_dict_set. unfold dict_has at 4. simpl.
    destruct (String.eqb k k1); simpl.
    + now rewrite orb_true_r.
    + reflexivity.
Qed.

Lemma dict_update_value (k : string) (v : pyval) (other d : list (string * pyval)) :
  lookup_key k (dict_update d other) = Some v ->
  lookup_key k d = Some v \/ In (k, v) other.
Proof.
  unfold dict_update. revert d.
  induction other as [|[k1 v1] other IH]; intros d; simpl; [auto|].
  intros H. destruct (IH _ H) as [Hd | Hin]; [|auto].
  destruct (String.eqb k k1) eqn:E.
  - apply String.eqb_eq in E. subst k1.
    rewrite lookup_key_dict_set_same in Hd. injection Hd as ->. auto.
  - rewrite lookup_key_dict_set_other in Hd by assumption. auto.
Qed.

Lemma dict_update_value_of_other (k : string) (v : pyval) (other : list (string * pyval)) :
  forall d : list (string * pyval),
    dict_has k other = true ->
    lookup_key k (dict_update d other) = Some v -> In (k, v) other.
Proof.
  unfold dict_update.
  induction other as [|[k1 v1] other IH]; intros d; simpl; [discriminate|].
  intros Hhas Hv. unfold dict_has in Hhas. simpl in Hhas.
  destruct (String.eqb k k1) eqn:E.
  - apply String.eqb_eq in E. subst k1.
    destruct (dict_update_value _ _ _ _ Hv) as [Hd | Hin]; [|auto].
    rewrite lookup_key_dict_set_same in Hd. injection Hd as ->. auto.
  - right. apply (IH (dict_set k1 v1 d)); assumption.
Qed.

(** X10. The [data] of [Capabilities], the model's [get_capabilities] returning
    a dictionary: the four capabilities the controller names are always
    there, [None] for each one the model says nothing about; the keys of
    the model are all there, each under a value the model gave it. *)
Theorem capabilities_data_has_defaults (r : resource) (w : world mstate)
    (fn : model_method) (other : list (string * pyval)) (st' : mstate) :
  r_class r = Capabilities ->
  model "get_capabilities" = Some fn ->
  fn [] (w_model w) = (inr (PDict other), st') ->
  let caps := ["libvirt_stream_protocols"; "qemu_stream"; "screenshot";
               "system_report_tool"] in
  exists d : list (string * pyval),
    data r w = (inr (PDict d), after_call "get_capabilities" [] st' w) /\
    (forall k, dict_has k d = str_in k caps || dict_has k other) /\
    (forall k, In k caps -> dict_has k other = false -> lookup_key k d = Some PNone) /\
    (forall k v, dict_has k other = true -> lookup_key k d = Some v -> In (k, v) other).
Proof.
  intros Hc Hfn Hcall caps. unfold data. rewrite Hc.
  unfold bind, getattr_model, call. rewrite Hfn. unfold ret at 1. rewrite Hcall.
  eexists. split; [reflexivity|].
  set (defaults := fold_left (fun acc x => dict_set x PNone acc) caps []).
  assert (Hdef : forall k, lookup_key k defaults =
                           if str_in k caps then Some PNone else None).
  { intros k. unfold defaults, caps, str_in. simpl.
    repeat (destruct (String.eqb k _); [reflexivity|]). reflexivity. }
  split; [|split].
  - intros k. rewrite dict_update_has. f_equal.
    unfold dict_has. rewrite Hdef. now destruct (str_in k caps).
  - intros k Hin Hno.
    assert (Hk : str_in k caps = true).
    { unfold str_in. apply existsb_exists. exists k. split; [exact Hin|].
      apply String.eqb_refl. }
    assert (Hhas : dict_has k (dict_update defaults other) = true).
    { rewrite dict_update_has. unfold dict_has at 1. now rewrite Hdef, Hk. }
    unfold dict_has in Hhas.
    destruct (lookup_key k (dict_update defaults other)) as [v|] eqn:E; [|discriminate].
    destruct (dict_update_value _ _ _ _ E) as [Hd | Hother].
    + rewrite Hdef, Hk in Hd. now injection Hd as <-.
    + exfalso. rewrite dict_has_str_in in Hno. unfold str_in in Hno.
      assert (Hex : existsb (String.eqb k) (map fst other) = true).
      { apply existsb_exists. exists k. split; [|apply String.eqb_refl].
        change k with (fst (k, v)). now apply in_map. }
      now rewrite Hex in Hno.
  - intros k v Hhas Hv. exact (dict_update_value_of_other k v other defaults Hhas Hv).
Qed.

Lemma StoragePool_data_task_id (r : resource) (i0 d : pyval) (w w' : world mstate) :
  r_class r = StoragePool -> info r = Some i0 ->
  data r w = (inr d, w') ->
  exists (i out : list (string * pyval)),
    i0 = PDict i /\ d = PDict out /\ dict_has "task_id" out = truthy_at i "task_id".
Proof.
  intros Hc Hi. unfold data, get_info. rewrite Hc, Hi. run.
  destruct i0 as [| | | | |i]; try (simpl; discriminate).
  match goal with
  | |- context [info_fields (PDict i) ?F] =>
      destruct (info_fields (PDict i) F) as [e|d0] eqn:E; [discriminate|];
      assert (Hkeys : str_in "task_id" (map fst d0) = false)
  end.
  { clear -E. revert E. simpl.
    repeat match goal with
           | |- context [lookup_key ?k i] => destruct (lookup_key k i); [|discriminate]
           end.
    intros [= <-]. reflexivity. }
  match goal with
  | |- context [optional_fields (PDict i) ?K ?B] =>
      destruct (optional_fields_lookup i K B) as (out & Hout & Hlk); rewrite Hout
  end.
  intros [= <- _]. exists i, out. split; [reflexivity|]. split; [reflexivity|].
  unfold dict_has. rewrite Hlk. simpl str_in. cbv iota. simpl andb.
  unfold truthy_at. destruct (lookup_key "task_id" i) as [v|] eqn:Ev.
  - destruct (py_truthy v); [reflexivity|].
    simpl lookup_key. now rewrite (lookup_key_not_in _ _ Hkeys).
  - simpl lookup_key. now rewrite (lookup_key_not_in _ _ Hkeys).
Qed.

(** The [data] of every class but [Capabilities] is read off the resource:
    it asks the model nothing and leaves the world as it is. *)
Lemma data_pure (r : resource) (w w0 : world mstate) :
  r_class r <> Capabilities -> data r w = (fst (data r w0), w).
Proof.
  intros Hc. unfold data, get_info.
  destruct (r_class r); try contradiction; destruct (info r); run;
    repeat match goal with
           | |- context [match ?x with inl _ => _ | inr _ => _ end] => destruct x
           end;
    reflexivity.
Qed.

(** X11. [POST /storagepools] that returns.  The model's create has been
    called with the parsed body, the pool it names has been looked up in
    the world the create left, and that lookup gave a dictionary; the body
    of the answer is the rendering of the [data] of that pool, and the
    status is 202 exactly when the value of [task_id] in that dictionary is
    true (a [task_id] of 0, of the empty text or of [None] counts as
    none), 201 otherwise; nothing else has changed since the lookup. *)
Theorem storagepools_create_status_follows_task_id (c : collection)
    (w w' : world mstate) (ob : option body) :
  upper (method req) = "POST" ->
  make_collection StoragePools [] = inr c ->
  Collection_index c w = (inr ob, w') ->
  exists (fn : model_method) (params name : pyval) (w1 : world mstate) (st1 : mstate)
         (res r' : resource) (wl : world mstate) (i d : list (string * pyval)),
    model "storagepools_create" = Some fn /\
    parse_request w = (inr params, w1) /\
    fn [params] (w_model w1) = (inr name, st1) /\
    make_resource StoragePool [name] = inr res /\
    Resource_lookup res (after_call "storagepools_create" [params] st1 w1) = (inr r', wl) /\
    info r' = Some (PDict i) /\
    data r' wl = (inr (PDict d), wl) /\
    ob = Some (render "storagepool" (PDict d)) /\
    dict_has "task_id" d = truthy_at i "task_id" /\
    w' = with_status (if truthy_at i "task_id" then 202 else 201) wl.
Proof.
  intros Hm Hc. injection Hc as <-.
  set (c := mkCollection StoragePools StoragePool [] []).
  rewrite (Collection_index_POST c w Hm).
  unfold try, bind at 1. change (create c) with (StoragePools_create c).
  destruct (StoragePools_create c w) as [[e|b] w1] eqn:E.
  - destruct e; simpl; discriminate.
  - unfold ret. intros [= <- <-].
    apply StoragePools_create_returns in E
      as (fn & params & wp & name & st1 & res & r' & w2 & w3 & d & has_task &
          Hfn & Hp & Hcall & Hmk & Hget & Hd & Hin & ->).
    apply get_returns in Hget as (wl & d0 & Hl & Hd0 & ->).
    pose proof (make_resource_class _ _ _ Hmk) as Hres. simpl in Hres.
    pose proof (Resource_lookup_class _ _ _ _ Hl) as Hr'. rewrite Hres in Hr'.
    assert (Hcap : r_class r' <> Capabilities) by (rewrite Hr'; discriminate).
    rewrite (data_pure r' wl wl Hcap) in Hd0.
    injection Hd0 as Hd0 <-.
    rewrite (data_pure r' wl wl Hcap), Hd0 in Hd.
    injection Hd as <- <-.
    destruct (Resource_lookup_returns _ _ _ _ Hl) as (i0 & ->).
    assert (Hdata : data (set_info res i0) wl = (inr d0, wl)).
    { rewrite (data_pure _ wl wl Hcap). now rewrite Hd0. }
    destruct (StoragePool_data_task_id _ i0 d0 wl wl Hr' eq_refl Hdata)
      as (i & out & -> & -> & Hhas).
    simpl in Hin. injection Hin as <-.
    exists fn, params, name, wp, st1, res, (set_info res (PDict i)), wl, i, out.
    repeat split; try assumption.
    + unfold r_name. rewrite Hres. reflexivity.
    + now rewrite Hhas.
Qed.

Lemma get_resources_idents (c : collection) (w w' : world mstate)
    (rs : list resource) (gl : model_method) (idents : list pyval) (st1 : mstate) :
  get_resources c w = (inr rs, w') ->
  model (model_fn (c_name c) "get_list") = Some gl ->
  gl (coll_model_args c) (w_model w) = (inr (PList idents), st1) ->
  length rs = match c_class c with
              | StoragePools => S (length idents)
              | _ => length idents
              end.
Proof.
  unfold get_resources. intros H Hgl Hcall.
  assert (Hbase : forall rs0 w0, Collection_get_resources c w = (inr rs0, w0) ->
                                 length rs0 = length idents).
  { intros rs0 w0 Hb.
    rewrite <- (Collection_get_resources_of_list c w w0 rs0 gl idents st1 Hb Hgl Hcall).
    now rewrite length_map. }
  destruct (c_class c); try (now apply (Hbase rs w')).
  apply StoragePools_get_resources_returns in H as (rs0 & w1 & i & Hb & ->).
  rewrite length_app, (Hbase rs0 w1 Hb). simpl. lia.
Qed.

(** X12. [GET] on a collection that looks its members up (every class but
    [IsoVolumes] and [Plugins]), the model's [<type>_get_list] returning a
    list: an answer with a body is the rendering of a list with one entry
    for each identifier, and on [StoragePools] one more for the reserved
    pool. *)
Theorem listing_has_one_entry_per_identifier (c : collection) (w w' : world mstate)
    (gl : model_method) (idents : list pyval) (st1 : mstate) (ob : option body) :
  upper (method req) = "GET" ->
  c_class c <> IsoVolumes -> c_class c <> Plugins ->
  model (model_fn (c_name c) "get_list") = Some gl ->
  gl (coll_model_args c) (w_model w) = (inr (PList idents), st1) ->
  Collection_index c w = (inr ob, w') ->
  exists ds : list pyval,
    ob = Some (render (lower (c_name c)) (PList ds)) /\
    length ds = match c_class c with
                | StoragePools => S (length idents)
                | _ => length idents
                end.
Proof.
  intros Hm Hiso Hplug Hgl Hcall. rewrite (Collection_index_GET c w Hm).
  unfold try, bind at 1.
  destruct (collection_get c w) as [[e|b] w1] eqn:E.
  - destruct e; simpl; discriminate.
  - unfold ret. intros [= <- <-].
    assert (Hget : Collection_get c w = (inr b, w1)).
    { revert E. unfold collection_get. destruct (c_class c); try contradiction; auto. }
    unfold Collection_get in Hget.
    apply bind_returns in Hget as (rs & w2 & Hrs & Hget).
    apply bind_returns in Hget as (ds & w3 & Hds & Hget).
    unfold ret in Hget. injection Hget as <- _.
    exists ds. split; [reflexivity|].
    rewrite <- (get_resources_idents c w w2 rs gl idents st1 Hrs Hgl Hcall).
    symmetry. apply (Forall2_length (R := fun _ _ => True)).
    exact (mapM_returns data (fun _ _ => True) rs (fun _ _ _ _ _ => I) w2 ds w3 Hds).
Qed.

(** ** Path dispatch *)

Lemma make_resource_for_member (cls : cclass) (args : list pyval) (c : collection)
    (x : pyval) :
  make_collection cls args = inr c ->
  exists r, make_resource (c_resource c) (resource_args c ++ [x])%list = inr r /\
            ident r = x /\ r_class r = c_resource c /\
            model_args r = (resource_args c ++ [x])%list.
Proof.
  destruct cls; destruct args as [|a [|b args]]; simpl; intros [= <-]; simpl;
    eexists; repeat split; reflexivity.
Qed.

(** X13. [Collection._cp_dispatch], for a collection as its constructor builds
    it.  The empty path resolves to nothing.  Otherwise the first segment
    is taken off the path, whatever comes of it; when the segment is plain
    ASCII the result is the member whose identifier is that segment, with
    the model arguments of the collection's members before it. *)
Theorem collection_dispatch_takes_one_segment (cls : cclass) (args : list pyval)
    (c : collection) :
  make_collection cls args = inr c ->
  Collection_cp_dispatch c [] = (inr None, []) /\
  (forall (seg : string) (rest : list string),
      snd (Collection_cp_dispatch c (seg :: rest)) = rest) /\
  (forall (seg : string) (rest : list string),
      is_ascii seg = true ->
      exists r : resource,
        Collection_cp_dispatch c (seg :: rest) = (inr (Some r), rest) /\
        r_class r = c_resource c /\
        ident r = PStr seg /\
        model_args r = (resource_args c ++ [PStr seg])%list).
Proof.
  intros Hc. split; [reflexivity|]. split.
  - intros seg rest. unfold Collection_cp_dispatch.
    destruct (py_decode decode_bytes (PStr seg)) as [e|d]; [reflexivity|].
    destruct (make_resource _ _); reflexivity.
  - intros seg rest Hseg. unfold Collection_cp_dispatch, py_decode. rewrite Hseg.
    destruct (make_resource_for_member cls args c (PStr seg) Hc) as (r & -> & Hi & Hcl & Ha).
    exists r. auto.
Qed.

(** X14. [StoragePool._cp_dispatch] and [IsoPool._cp_dispatch].  The first
    segment is taken off the path even when it is not [storagevolumes],
    and then the result is nothing.  Under [storagevolumes], for an
    identifier that is plain ASCII text, a pool gives the [StorageVolumes]
    that passes the pool to its members and to the model, the ISO pool
    the [IsoVolumes] that passes nothing on. *)
Theorem pool_dispatch_knows_storagevolumes (r : resource) (rest : list string) :
  (forall seg : string,
      seg <> "storagevolumes" ->
      StoragePool_cp_dispatch r (seg :: rest) = (inr None, rest) /\
      IsoPool_cp_dispatch r (seg :: rest) = (inr None, rest)) /\
  (forall pool : string,
      ident r = PStr pool -> is_ascii pool = true ->
      StoragePool_cp_dispatch r ("storagevolumes" :: rest) =
        (inr (Some (mkCollection StorageVolumes StorageVolume [PStr pool] [PStr pool])),
         rest) /\
      IsoPool_cp_dispatch r ("storagevolumes" :: rest) =
        (inr (Some (mkCollection IsoVolumes Resource [] [])), rest)).
Proof.
  split.
  - intros seg Hseg. unfold StoragePool_cp_dispatch, IsoPool_cp_dispatch.
    destruct (String.eqb_spec seg "storagevolumes") as [E|_]; [contradiction|].
    split; reflexivity.
  - intros pool Hi Hp. unfold StoragePool_cp_dispatch, IsoPool_cp_dispatch, py_decode.
    rewrite Hi, Hp. split; reflexivity.
Qed.

(** X15. The path [/storagepools/<pool>/storagevolumes/<volume>], dispatched
    from the [StoragePools] collection segment by segment, for plain ASCII
    names: each step takes its segment, the last one gives the volume
    with the model arguments (pool, volume), and the URI template of that
    volume filled with its model arguments, which is where its action
    handlers redirect, is the path it was reached by. *)
Theorem nested_volume_path_round_trip (pool volume : string) (rest : list string) :
  is_ascii pool = true -> is_ascii volume = true ->
  exists (pools volumes : collection) (p v : resource) (fmt : string),
    make_collection StoragePools [] = inr pools /\
    Collection_cp_dispatch pools (pool :: "storagevolumes" :: volume :: rest) =
      (inr (Some p), "storagevolumes" :: volume :: rest) /\
    StoragePool_cp_dispatch p ("storagevolumes" :: volume :: rest) =
      (inr (Some volumes), volume :: rest) /\
    Collection_cp_dispatch volumes (volume :: rest) = (inr (Some v), rest) /\
    r_class v = StorageVolume /\
    model_args v = [PStr pool; PStr volume] /\
    uri_fmt v = Some fmt /\
    py_format fmt (map py_str (model_args v)) =
      inr ("/storagepools/" ++ pool ++ "/storagevolumes/" ++ volume).
Proof.
  intros Hp Hv.
  exists (mkCollection StoragePools StoragePool [] []),
         (mkCollection StorageVolumes StorageVolume [PStr pool] [PStr pool]).
  eexists _, _, _. split; [reflexivity|].
  split; [unfold Collection_cp_dispatch, py_decode; rewrite Hp; reflexivity|].
  split; [unfold StoragePool_cp_dispatch, py_decode; simpl; rewrite Hp; reflexivity|].
  split; [unfold Collection_cp_dispatch, py_decode; rewrite Hv; reflexivity|].
  split; [reflexivity|]. split; [reflexivity|]. split; [reflexivity|].
  simpl. now rewrite string_app_nil.
Qed.

(** ** Login *)

(** X16. [login] on a body parsed to a dictionary that lacks [userid], or has
    it and lacks [password]: the answer is 400 naming the key that is
    missing, and [kimchi.auth] has not been asked.  A request without a
    [Content-Length] is such a request. *)
Theorem login_without_credentials_is_400 (w w1 : world mstate)
    (d : list (string * pyval)) :
  parse_request w = (inr (PDict d), w1) ->
  (lookup_key "userid" d = None ->
   login w = (inl (HTTPError 400 (Some "Missing parameter: ''userid''")), w1)) /\
  (lookup_key "userid" d <> None -> lookup_key "password" d = None ->
   login w = (inl (HTTPError 400 (Some "Missing parameter: ''password''")), w1)) /\
  w_calls w1 = w_calls w /\
  (header_get "Content-Length" (headers req) = None -> d = [] /\ w1 = w).
Proof.
  intros Hp. split; [|split; [|split]].
  - intros Hu. unfold login, bind at 1. rewrite Hp.
    unfold bind at 1, try, bind at 1, lift. simpl. rewrite Hu. reflexivity.
  - intros Hu Hpw. unfold login, bind at 1. rewrite Hp.
    unfold bind at 1, try, bind at 1, lift. simpl.
    destruct (lookup_key "userid" d); [|contradiction].
    unfold bind at 1. rewrite Hpw. reflexivity.
  - now destruct (parse_request_frame _ _ _ Hp) as (_ & -> & _).
  - intros Hlen. revert Hp. unfold parse_request. rewrite Hlen. unfold ret.
    intros [= <- <-]. auto.
Qed.

(** X17. [login] with both credentials in the body: they are handed to
    [kimchi.auth.login] in the order (userid, password); when that returns
    the handler returns the text of an empty JSON object; an
    [OperationFailed] from it is answered 401 without a message; any other
    exception leaves the handler as it is. *)
Theorem login_asks_auth (w w1 : world mstate) (d : list (string * pyval))
    (userid password : pyval) :
  parse_request w = (inr (PDict d), w1) ->
  lookup_key "userid" d = Some userid ->
  lookup_key "password" d = Some password ->
  forall (x : exn + pyval) (st' : mstate),
    auth_login [userid; password] (w_model w1) = (x, st') ->
    login w =
      (match x with
       | inr _ => inr "{}"
       | inl (OperationFailed _) => inl (HTTPError 401 None)
       | inl e => inl e
       end,
       after_call "auth.login" [userid; password] st' w1).
Proof.
  intros Hp Hu Hpw x st' Hauth. unfold login, bind at 1. rewrite Hp.
  unfold bind at 1, try at 1, bind at 1, lift. simpl py_getitem. rewrite Hu.
  unfold bind at 1. rewrite Hpw. unfold ret at 1.
  unfold bind at 1, try, bind at 1, call. simpl fst. simpl snd. rewrite Hauth.
  destruct x as [e|v]; [destruct e|]; reflexivity.
Qed.

(** ** What [GET] and [DELETE] leave alone *)

Lemma unread_ret {A : Type} (a : A) : keeps_body (ret a : M mstate A).
Proof. intros w. reflexivity. Qed.

Lemma unread_raise {A : Type} (e : exn) : keeps_body (raise e : M mstate A).
Proof. intros w. reflexivity. Qed.

Lemma unread_lift {A : Type} (x : exn + A) : keeps_body (lift x : M mstate A).
Proof. intros w. reflexivity. Qed.

Lemma unread_bind {A B : Type} (m : M mstate A) (k : A -> M mstate B) :
  keeps_body m -> (forall a, keeps_body (k a)) -> keeps_body (bind m k).
Proof.
  intros Hm Hk w. unfold bind. specialize (Hm w).
  destruct (m w) as [[e|a] w1]; simpl in *; [assumption|].
  now rewrite Hk.
Qed.

Lemma unread_try {A : Type} (m : M mstate A) (handler : exn -> option (M mstate A)) :
  keeps_body m -> (forall e h, handler e = Some h -> keeps_body h) ->
  keeps_body (try m handler).
Proof.
  intros Hm Hh w. unfold try. specialize (Hm w).
  destruct (m w) as [[e|a] w1]; simpl in *; [|assumption].
  destruct (handler e) as [h|] eqn:E; [|assumption].
  now rewrite (Hh e h E).
Qed.

Lemma unread_call (name : string) (fn : model_method) (args : list pyval) :
  keeps_body (call name fn args).
Proof. intros w. unfold call. now destruct (fn args (w_model w)). Qed.

Lemma unread_getattr_model (name : string) : keeps_body (getattr_model name).
Proof. intros w. unfold getattr_model. now destruct (model name). Qed.

Lemma unread_get_info (r : resource) : keeps_body (get_info r).
Proof. intros w. unfold get_info. now destruct (info r). Qed.

Lemma unread_set_status (code : Z) : keeps_body (set_status code : M mstate unit).
Proof. intros w. reflexivity. Qed.

Lemma unread_mapM {A B : Type} (f : A -> M mstate B) (l : list A) :
  (forall x, keeps_body (f x)) -> keeps_body (mapM f l).
Proof.
  intros Hf. induction l as [|x l IH]; simpl.
  - apply unread_ret.
  - apply unread_bind; [apply Hf|]. intros y.
    apply unread_bind; [apply IH|]. intros ys. apply unread_ret.
Qed.

(** a handler of exceptions whose clauses all raise *)
Ltac raising_handler :=
  let e := fresh "e" in
  let h := fresh "h" in
  intros e h; destruct e; simpl; intros [= <-];
  first [apply unread_raise | apply keeps_raise | apply unread_ret | apply keeps_ret].

Ltac unread :=
  repeat first
    [ apply unread_ret | apply unread_raise | apply unread_lift | apply unread_call
    | apply unread_getattr_model | apply unread_get_info | apply unread_set_status
    | apply unread_bind; [|intros ?]
    | apply unread_try; [|raising_handler] ].

Lemma unread_Resource_lookup (r : resource) : keeps_body (Resource_lookup r).
Proof. unfold Resource_lookup. unread. Qed.

Lemma unread_data (r : resource) : keeps_body (data r).
Proof.
  unfold data. destruct (r_class r); unread.
Qed.

Lemma unread_get (r : resource) : keeps_body (get r).
Proof.
  unfold get, DebugReportContent_get, VMScreenShot_get, Resource_get, internal_redirect.
  destruct (r_class r);
    repeat first [ apply unread_Resource_lookup | apply unread_data | progress unread ].
Qed.

Lemma unread_Resource_delete (r : resource) : keeps_body (Resource_delete r).
Proof. unfold Resource_delete. unread. Qed.

Lemma unread_member (c : collection) (i : pyval) :
  keeps_body (res <- lift (make_resource (c_resource c) (resource_args c ++ [i])%list) ;;
              Resource_lookup res).
Proof. apply unread_bind; [apply unread_lift|]. intros res. apply unread_Resource_lookup. Qed.

Lemma keeps_member (c : collection) (i : pyval) :
  keeps_status (res <- lift (make_resource (c_resource c) (resource_args c ++ [i])%list) ;;
                Resource_lookup res).
Proof. apply keeps_bind; [apply keeps_lift|]. intros res. apply keeps_Resource_lookup. Qed.

Lemma unread_collection_get (c : collection) : keeps_body (collection_get c).
Proof.
  assert (Hbase : keeps_body (Collection_get_resources c)).
  { unfold Collection_get_resources. apply unread_try; [|raising_handler].
    repeat (apply unread_bind; [first [apply unread_getattr_model | apply unread_call
                                      | apply unread_lift]|intros ?]).
    apply unread_mapM. apply unread_member. }
  assert (Hres : keeps_body (get_resources c)).
  { unfold get_resources, StoragePools_get_resources.
    destruct (c_class c); try exact Hbase.
    apply unread_try; [|raising_handler].
    apply unread_bind; [exact Hbase|]. intros rs.
    apply unread_try; [|raising_handler].
    apply unread_bind; [apply unread_Resource_lookup|]. intros x. apply unread_ret. }
  assert (Hget : keeps_body (Collection_get c)).
  { unfold Collection_get. apply unread_bind; [exact Hres|]. intros rs.
    apply unread_bind; [apply unread_mapM; apply unread_data|]. intros ds.
    apply unread_ret. }
  unfold collection_get, Plugins_get, IsoVolumes_get.
  destruct (c_class c); try exact Hget; unread.
Qed.

Lemma keeps_collection_get (c : collection) : keeps_status (collection_get c).
Proof.
  assert (Hhandler : forall (A : Type) (x : A) (e : exn) (h : M mstate A),
             match e with AttributeError => Some (ret x) | _ => None end = Some h ->
             keeps_status h).
  { intros A x e h. destruct e; intros [= <-]. apply keeps_ret. }
  assert (Hbase : keeps_status (Collection_get_resources c)).
  { unfold Collection_get_resources. apply keeps_try; [|apply Hhandler].
    repeat (apply keeps_bind; [first [apply keeps_getattr_model | apply keeps_call
                                     | apply keeps_lift]|intros ?]).
    apply keeps_mapM. apply keeps_member. }
  assert (Hres : keeps_status (get_resources c)).
  { unfold get_resources, StoragePools_get_resources.
    destruct (c_class c); try exact Hbase.
    apply keeps_try.
    - apply keeps_bind; [exact Hbase|]. intros rs.
      apply keeps_try; [|apply Hhandler].
      apply keeps_bind; [apply keeps_Resource_lookup|]. intros x. apply keeps_ret.
    - intros e h. destruct e; intros [= <-]. apply keeps_raise. }
  assert (Hget : keeps_status (Collection_get c)).
  { unfold Collection_get. apply keeps_bind; [exact Hres|]. intros rs.
    apply keeps_bind; [apply keeps_mapM; apply keeps_data|]. intros ds.
    apply keeps_ret. }
  unfold collection_get, Plugins_get, IsoVolumes_get.
  destruct (c_class c); try exact Hget;
    (apply keeps_bind; [|intros ?; apply keeps_ret]);
    (apply keeps_try; [|apply Hhandler]); keeps.
Qed.

(** X18. [GET] on a resource or on a collection changes neither the status of
    the response nor the unread body of the request, whatever the model
    does and however the handler ends; [DELETE] on a resource does not read
    the body either. *)
Theorem get_and_delete_leave_the_request_alone (r : resource) (c : collection)
    (w : world mstate) :
  (upper (method req) = "GET" ->
   w_status (snd (Resource_index r w)) = w_status w /\
   w_body (snd (Resource_index r w)) = w_body w /\
   w_status (snd (Collection_index c w)) = w_status w /\
   w_body (snd (Collection_index c w)) = w_body w) /\
  (upper (method req) = "DELETE" ->
   w_body (snd (Resource_index r w)) = w_body w).
Proof.
  split.
  - intros Hm. rewrite (Resource_index_GET r w Hm), (Collection_index_GET c w Hm).
    repeat split.
    + apply keeps_try.
      * apply keeps_bind; [apply keeps_get | intros ?; apply keeps_ret].
      * intros e h. destruct e; intros [= <-]; apply keeps_raise.
    + apply unread_try; [|raising_handler].
      apply unread_bind; [apply unread_get | intros ?; apply unread_ret].
    + apply keeps_try.
      * apply keeps_bind; [apply keeps_collection_get | intros ?; apply keeps_ret].
      * intros e h. destruct e; intros [= <-]; apply keeps_raise.
    + apply unread_try; [|raising_handler].
      apply unread_bind; [apply unread_collection_get | intros ?; apply unread_ret].
  - intros Hm. rewrite (Resource_index_DELETE r w Hm).
    apply unread_try; [|raising_handler]. apply unread_Resource_delete.
Qed.

(** X19. A method outside (GET, DELETE, PUT) on a resource, or outside (GET,
    POST) on a collection, is answered 405 before anything else happens:
    the model is not asked and the body is not read. *)
Theorem other_methods_are_405 (r : resource) (c : collection) (w : world mstate) :
  (str_in (upper (method req)) ["GET"; "DELETE"; "PUT"] = false ->
   Resource_index r w = (inl (HTTPError 405 None), w)) /\
  (str_in (upper (method req)) ["GET"; "POST"] = false ->
   Collection_index c w = (inl (HTTPError 405 None), w)).
Proof.
  split; intros H.
  - unfold Resource_index, validate_method, bind, py_in. rewrite H. reflexivity.
  - unfold Collection_index, validate_method, bind, py_in. rewrite H. reflexivity.
Qed.

(** ** Missing lookups and missing keys *)

(** X21. [GET] on a resource whose model has no [<type>_lookup]: [info] is
    empty, so a class whose [data] reads keys ends in the [KeyError] of the
    first of them, which no clause of the handler takes; a class whose
    [data] is [info] itself, and the base class, answer with the rendering
    of an empty dictionary. *)
Theorem get_without_lookup (r : resource) (w : world mstate) :
  upper (method req) = "GET" ->
  model (model_fn (r_name r) "lookup") = None ->
  (forall k : string,
      match r_class r with
      | VM => Some "uuid"
      | DebugReportContent => Some "file"
      | cls => hd_error (required_keys cls)
      end = Some k ->
      Resource_index r w = (inl (KeyError k), w)) /\
  (In (r_class r) [Resource; Distro; Host; HostStats; Partition] ->
   Resource_index r w = (inr (Some (render (lower (r_name r)) (PDict []))), w)).
Proof.
  intros Hm Hnone. rewrite (Resource_index_GET r w Hm).
  assert (Hl : Resource_lookup r w = (inr (set_info r (PDict [])), w)).
  { unfold Resource_lookup, try, bind, getattr_model. rewrite Hnone. reflexivity. }
  assert (Hclass : r_class (set_info r (PDict [])) = r_class r) by reflexivity.
  unfold r_name. split.
  - intros k Hk. unfold try, bind at 1, get.
    destruct (r_class r) eqn:Hc; simpl in Hk; try discriminate; injection Hk as <-;
      unfold DebugReportContent_get, Resource_get, bind at 1; rewrite Hl;
      unfold bind at 1, data, get_info; rewrite ?Hclass, ?Hc; reflexivity.
  - intros Hin. unfold try, bind at 1, get. simpl in Hin.
    repeat (destruct Hin as [Hc | Hin];
            [ symmetry in Hc; rewrite Hc;
              unfold Resource_get, bind at 1; rewrite Hl;
              unfold bind at 1, data, r_name; rewrite Hclass, Hc; reflexivity
            | ]).
    contradiction.
Qed.

(** X22. A generated action handler on [POST], the parsed body a dictionary
    without the first key the handler declares: the handler ends in the
    [KeyError] of that key, which none of its clauses takes (it is no 400),
    and the model has not been called. *)
Theorem action_handler_missing_key (r : resource) (action_name key : string)
    (keys : list string) (w w1 : world mstate) (d : list (string * pyval)) :
  upper (method req) = "POST" ->
  parse_request w = (inr (PDict d), w1) ->
  lookup_key key d = None ->
  generate_action_handler r action_name (Some (key :: keys)) w = (inl (KeyError key), w1) /\
  w_calls w1 = w_calls w /\ w_model w1 = w_model w.
Proof.
  intros Hm Hp Hk.
  destruct (parse_request_frame _ _ _ Hp) as (Hmodel & Hcalls & _).
  split; [|auto].
  assert (Hpost : str_contains (upper (method req)) "POST" = true) by now rewrite Hm.
  unfold generate_action_handler, validate_method, bind at 1, py_in.
  rewrite Hpost. cbn [negb]. unfold ret at 1.
  unfold try, bind at 1, body_args. cbn [mapM]. unfold bind at 1, bind at 1.
  rewrite Hp. unfold lift. simpl py_getitem. rewrite Hk. reflexivity.
Qed.

End Controller.

(** ** The answers of a create, class by class *)

Section CreateAnswers.

Variable mstate : Type.
Variable model : string -> option (model_method mstate).
Variable body : Type.
Variable render : string -> pyval -> body.
Variable json_loads : string -> option pyval.
Variable iter_errors : pyval -> pyval -> list string.
Variable ISO_POOL_NAME : string.
Variable socket_port : Z.

Local Abbreviation create_on req :=
  (create mstate model body render json_loads iter_errors ISO_POOL_NAME socket_port req).

(** C1, as the code has it.  A create that returns has found the model's
    [<type>_create], has parsed the body and has called the create with the
    model arguments of the collection and the parsed body; what follows
    goes by the class of the collection, from the world the create left.
    [AsyncCollection] and [DebugReports]: the body is the rendering of what
    the create returned as a Task, the status is 202 and nothing else
    changes; the answer is the same whatever schema the server has.
    [StoragePools]: the member named by what the create returned is looked
    up, the body is the rendering of its [data], and the status is 202
    when that [data], read once more, has a [task_id] and 201 when not;
    for a class of members that does not ask the model for its data, the
    second reading gives what the first gave; the answer is the same
    whatever schema the server has.  Every other class: the schema of the
    server, if there is one, accepts the parsed body under [<type>_create],
    the status is set to 201, the member named by what the create returned
    is looked up, and the body is the rendering of its [data]. *)
Theorem create_answers (req : request) (c : collection) (w w' : world mstate) (b : body) :
  create_on req c w = (inr b, w') ->
  exists (fn : model_method mstate) (params out : pyval) (w1 : world mstate)
         (st1 : mstate),
    model (model_fn (c_name c) "create") = Some fn /\
    parse_request mstate json_loads req w = (inr params, w1) /\
    fn (coll_model_args c ++ [params])%list (w_model w1) = (inr out, st1) /\
    let wc := after_call (model_fn (c_name c) "create")
                (coll_model_args c ++ [params])%list st1 w1 in
    match c_class c with
    | AsyncCollection | DebugReports =>
        b = render "Task" out /\
        w' = with_status 202 wc /\
        w_status w' = 202 /\
        (forall schema, create_on (with_schema req schema) c w = (inr b, w'))
    | StoragePools =>
        (exists (res r' : resource) (wl w2 w3 : world mstate) (d d' : pyval)
                (has_task : bool),
            make_resource ISO_POOL_NAME (c_resource c) (resource_args c ++ [out])%list =
              inr res /\
            Resource_lookup mstate model res wc = (inr r', wl) /\
            data mstate model socket_port r' wl = (inr d, w2) /\
            b = render (lower (rclass_name (c_resource c))) d /\
            data mstate model socket_port r' w2 = (inr d', w3) /\
            py_contains "task_id" d' = inr has_task /\
            w' = with_status (if has_task then 202 else 201) w3 /\
            w_status w' = (if has_task then 202 else 201) /\
            (c_resource c <> Capabilities -> d' = d /\ w3 = wl)) /\
        (forall schema, create_on (with_schema req schema) c w = (inr b, w'))
    | _ =>
        schema_accepts iter_errors req params (c_name c) "create" /\
        (exists (res r' : resource) (wl : world mstate) (d : pyval),
            make_resource ISO_POOL_NAME (c_resource c) (resource_args c ++ [out])%list =
              inr res /\
            Resource_lookup mstate model res (with_status 201 wc) = (inr r', wl) /\
            data mstate model socket_port r' wl = (inr d, w') /\
            b = render (lower (rclass_name (c_resource c))) d /\
            w_status w' = 201)
    end.
Proof.
  intros H.
  assert (Hsync :
    Collection_create mstate model body render json_loads iter_errors ISO_POOL_NAME
      socket_port req c w = (inr b, w') ->
    exists (fn : model_method mstate) (params out : pyval) (w1 : world mstate)
           (st1 : mstate),
      model (model_fn (c_name c) "create") = Some fn /\
      parse_request mstate json_loads req w = (inr params, w1) /\
      fn (coll_model_args c ++ [params])%list (w_model w1) = (inr out, st1) /\
      schema_accepts iter_errors req params (c_name c) "create" /\
      (exists (res r' : resource) (wl : world mstate) (d : pyval),
          make_resource ISO_POOL_NAME (c_resource c) (resource_args c ++ [out])%list =
            inr res /\
          Resource_lookup mstate model res
            (with_status 201
               (after_call (model_fn (c_name c) "create")
                  (coll_model_args c ++ [params])%list st1 w1)) = (inr r', wl) /\
          data mstate model socket_port r' wl = (inr d, w') /\
          b = render (lower (rclass_name (c_resource c))) d /\
          w_status w' = 201)).
  { intros Hc. apply Collection_create_returns in Hc
      as (fn & params & w1 & name & st1 & res & r' & Hfn & Hp & Hs & Hcall & Hmk & Hget).
    exists fn, params, name, w1, st1. repeat (split; [assumption|]).
    pose proof (keeps_get mstate model body render socket_port res) as Hk.
    match type of Hget with _ ?w0 = _ => specialize (Hk w0) end.
    rewrite Hget in Hk.
    apply get_returns in Hget as (wl & d & Hl & Hd & ->).
    exists res, r', wl, d. repeat (split; [assumption|]). split; [|exact Hk].
    unfold r_name. now rewrite (make_resource_class _ _ _ _ Hmk). }
  assert (Hasync :
    AsyncCollection_create mstate model body render json_loads req c w = (inr b, w') ->
    exists (fn : model_method mstate) (params out : pyval) (w1 : world mstate)
           (st1 : mstate),
      model (model_fn (c_name c) "create") = Some fn /\
      parse_request mstate json_loads req w = (inr params, w1) /\
      fn (coll_model_args c ++ [params])%list (w_model w1) = (inr out, st1) /\
      b = render "Task" out /\
      w' = with_status 202
             (after_call (model_fn (c_name c) "create")
                (coll_model_args c ++ [params])%list st1 w1) /\
      w_status w' = 202 /\
      (forall schema,
          AsyncCollection_create mstate model body render json_loads
            (with_schema req schema) c w = (inr b, w'))).
  { intros Hc. pose proof Hc as Hc'.
    apply AsyncCollection_create_returns in Hc'
      as (fn & params & w1 & task & st1 & Hfn & Hp & Hcall & Hb & Hw).
    exists fn, params, task, w1, st1. repeat (split; [assumption|]).
    split; [now rewrite Hw|]. intros schema. exact Hc. }
  assert (Hpools :
    StoragePools_create mstate model body render json_loads ISO_POOL_NAME socket_port
      req c w = (inr b, w') ->
    exists (fn : model_method mstate) (params out : pyval) (w1 : world mstate)
           (st1 : mstate),
      model (model_fn (c_name c) "create") = Some fn /\
      parse_request mstate json_loads req w = (inr params, w1) /\
      fn (coll_model_args c ++ [params])%list (w_model w1) = (inr out, st1) /\
      (exists (res r' : resource) (wl w2 w3 : world mstate) (d d' : pyval)
              (has_task : bool),
          make_resource ISO_POOL_NAME (c_resource c) (resource_args c ++ [out])%list =
            inr res /\
          Resource_lookup mstate model res
            (after_call (model_fn (c_name c) "create")
               (coll_model_args c ++ [params])%list st1 w1) = (inr r', wl) /\
          data mstate model socket_port r' wl = (inr d, w2) /\
          b = render (lower (rclass_name (c_resource c))) d /\
          data mstate model socket_port r' w2 = (inr d', w3) /\
          py_contains "task_id" d' = inr has_task /\
          w' = with_status (if has_task then 202 else 201) w3 /\
          w_status w' = (if has_task then 202 else 201) /\
          (c_resource c <> Capabilities -> d' = d /\ w3 = wl)) /\
      (forall schema,
          StoragePools_create mstate model body render json_loads ISO_POOL_NAME
            socket_port (with_schema req schema) c w = (inr b, w'))).
  { intros Hc. pose proof Hc as Hc'.
    apply StoragePools_create_returns in Hc'
      as (fn & params & w1 & name & st1 & res & r' & w2 & w3 & d' & has_task &
          Hfn & Hp & Hcall & Hmk & Hget & Hd' & Hin & Hw).
    exists fn, params, name, w1, st1. repeat (split; [assumption|]).
    split; [|intros schema; exact Hc].
    apply get_returns in Hget as (wl & d & Hl & Hd & ->).
    exists res, r', wl, w2, w3, d, d', has_task.
    repeat (split; [assumption|]).
    split; [unfold r_name; now rewrite (make_resource_class _ _ _ _ Hmk)|].
    repeat (split; [assumption|]).
    split; [rewrite Hw; now destruct has_task|].
    intros Hcap.
    assert (Hcap' : r_class r' <> Capabilities).
    { rewrite (Resource_lookup_class _ _ _ _ _ _ Hl), (make_resource_class _ _ _ _ Hmk).
      exact Hcap. }
    rewrite (data_pure mstate model socket_port r' wl wl Hcap') in Hd.
    injection Hd as Hd <-.
    rewrite (data_pure mstate model socket_port r' wl wl Hcap'), Hd in Hd'.
    injection Hd' as <- <-. split; reflexivity. }
  unfold create in *.
  destruct (c_class c);
    try (destruct (Hsync H) as (fn & params & out & w1 & st1 & Hfn & Hp & Hcall & Hrest);
         exists fn, params, out, w1, st1; exact (conj Hfn (conj Hp (conj Hcall Hrest))));
    try (destruct (Hasync H) as (fn & params & out & w1 & st1 & Hfn & Hp & Hcall & Hrest);
         exists fn, params, out, w1, st1; exact (conj Hfn (conj Hp (conj Hcall Hrest)))).
  destruct (Hpools H) as (fn & params & out & w1 & st1 & Hfn & Hp & Hcall & Hrest).
  exists fn, params, out, w1, st1. exact (conj Hfn (conj Hp (conj Hcall Hrest))).
Qed.

End CreateAnswers.

(** ** The case of the method *)

Section MethodCase.

Variable mstate : Type.
Variable model : string -> option (model_method mstate).
Variable body : Type.
Variable render : string -> pyval -> body.
Variable json_loads : string -> option pyval.
Variable iter_errors : pyval -> pyval -> list string.
Variable py_repr : pyval -> string.
Variable ISO_POOL_NAME : string.
Variable socket_port : Z.

(** X20. The handlers see the method of a request in upper case only: a request
    whose method differs from another's in the case of its letters, with
    the same headers and the same server, gets the same answer from a
    resource, from a collection and from a generated action handler. *)
Theorem method_case_does_not_matter (req : request) (m : string) (r : resource)
    (c : collection) (action_name : string) (action_args : option (list string))
    (w : world mstate) :
  upper m = upper (method req) ->
  let req' := mkRequest m (headers req) (api_schema req) in
  Resource_index mstate model body render json_loads iter_errors py_repr socket_port
    req' r w =
  Resource_index mstate model body render json_loads iter_errors py_repr socket_port
    req r w /\
  Collection_index mstate model body render json_loads iter_errors ISO_POOL_NAME
    socket_port req' c w =
  Collection_index mstate model body render json_loads iter_errors ISO_POOL_NAME
    socket_port req c w /\
  generate_action_handler mstate model body json_loads py_repr req' r action_name
    action_args w =
  generate_action_handler mstate model body json_loads py_repr req r action_name
    action_args w.
Proof.
  intros Hm req'. unfold req'.
  unfold Resource_index, Collection_index, generate_action_handler, validate_method.
  cbn [method]. rewrite Hm. repeat split; reflexivity.
Qed.

End MethodCase.

(** ** The handlers at work on concrete requests *)

Local Abbreviation resource_index model req r :=
  (Resource_index Demo.store model Demo.body Demo.render Demo.loads Demo.iter_errors
     Demo.repr Demo.socket_port req r).

Local Abbreviation collection_index model req c :=
  (Collection_index Demo.store model Demo.body Demo.render Demo.loads Demo.iter_errors
     Demo.ISO_POOL_NAME Demo.socket_port req c).

Local Abbreviation action_handler model req r :=
  (generate_action_handler Demo.store model Demo.body Demo.loads Demo.repr req r).

(** the instances of the examples are the ones the constructors build *)
Lemma demo_instances :
  make_resource Demo.ISO_POOL_NAME VM [PStr "vm1"] = inr Demo.vm1 /\
  make_resource Demo.ISO_POOL_NAME StorageVolume [PStr "p1"; PStr "v1"] = inr Demo.volume_v1 /\
  make_collection VMs [] = inr Demo.the_vms /\
  make_collection StoragePools [] = inr Demo.the_pools /\
  make_collection DebugReports [] = inr Demo.the_reports.
Proof. repeat split. Qed.

(** [POST /storagepools] with the name of a pool: the model creates the
    pool, its lookup reports the task still running, and the answer is the
    rendered pool, a member resource, under status 202. *)
Lemma storagepools_create_202_with_member :
  let answer := collection_index Demo.model
                  (mkRequest "POST" (Demo.json_headers "14") None) Demo.the_pools
                  (fresh_world [] Demo.body_pool) in
  w_status (snd answer) = 202 /\
  exists data : pyval,
    fst answer = inr (Some (Demo.render "storagepool" data)) /\
    py_getitem data "name" = inr (PStr "p1") /\
    py_getitem data "task_id" = inr (PStr "1").
Proof.
  split; [reflexivity|]. eexists. split; [reflexivity|]. split; reflexivity.
Qed.

(** [POST /vms] with a name: status 201 and the rendered machine.
    [POST /debugreports]: status 202 and the rendering of what the model
    returned as a Task.  [POST /storagepools]: the rendered pool under
    status 202, the lookup reporting a task. *)
Lemma create_answers_at_work :
  (exists (b : Demo.body) (w' : world Demo.store),
      create Demo.store Demo.model Demo.body Demo.render Demo.loads Demo.iter_errors
        Demo.ISO_POOL_NAME Demo.socket_port
        (mkRequest "POST" (Demo.json_headers "16") (Some Demo.schema)) Demo.the_vms
        (fresh_world [] Demo.body_rename) = (inr b, w') /\
      w_status w' = 201 /\
      exists d : pyval, b = Demo.render "vm" d) /\
  (exists (b : Demo.body) (w' : world Demo.store),
      create Demo.store Demo.model Demo.body Demo.render Demo.loads Demo.iter_errors
        Demo.ISO_POOL_NAME Demo.socket_port
        (mkRequest "POST" (Demo.json_headers "2") (Some Demo.schema)) Demo.the_reports
        (fresh_world [] Demo.body_empty) = (inr b, w') /\
      w_status w' = 202 /\
      b = Demo.render "Task" Demo.task) /\
  (exists (b : Demo.body) (w' : world Demo.store),
      create Demo.store Demo.model Demo.body Demo.render Demo.loads Demo.iter_errors
        Demo.ISO_POOL_NAME Demo.socket_port
        (mkRequest "POST" (Demo.json_headers "14") None) Demo.the_pools
        (fresh_world [] Demo.body_pool) = (inr b, w') /\
      w_status w' = 202 /\
      exists d : pyval, b = Demo.render "storagepool" d).
Proof.
  pose proof (fun req c raw =>
                create_answers Demo.store Demo.model Demo.body Demo.render Demo.loads
                  Demo.iter_errors Demo.ISO_POOL_NAME Demo.socket_port req c
                  (fresh_world [] raw)) as H.
  split; [|split].
  - eexists _, _. split; [vm_compute; reflexivity|].
    destruct (H (mkRequest "POST" (Demo.json_headers "16") (Some Demo.schema))
                Demo.the_vms Demo.body_rename _ _ eq_refl)
      as (fn & params & out & w1 & st1 & _ & _ & _ & Hrest).
    simpl in Hrest. destruct Hrest as (_ & res & r' & wl & d & _ & _ & _ & Hbody & Hstatus).
    split; [exact Hstatus | exists d; exact Hbody].
  - eexists _, _. split; [vm_compute; reflexivity|].
    destruct (H (mkRequest "POST" (Demo.json_headers "2") (Some Demo.schema))
                Demo.the_reports Demo.body_empty _ _ eq_refl)
      as (fn & params & out & w1 & st1 & Hfn & Hp & Hcall & Hrest).
    simpl in Hrest. destruct Hrest as (Hbody & _ & Hstatus & _).
    split; [exact Hstatus|].
    vm_compute in Hfn. injection Hfn as <-.
    vm_compute in Hp. injection Hp as <- <-.
    vm_compute in Hcall. injection Hcall as <- <-.
    exact Hbody.
  - eexists _, _. split; [vm_compute; reflexivity|].
    destruct (H (mkRequest "POST" (Demo.json_headers "14") None)
                Demo.the_pools Demo.body_pool _ _ eq_refl)
      as (fn & params & out & w1 & st1 & Hfn & Hp & Hcall & Hrest).
    simpl in Hrest.
    destruct Hrest as ((res & r' & wl & w2 & w3 & d & d' & has_task &
                        Hmk & Hl & Hd & Hbody & Hd' & Hin & _ & Hstatus & _) & _).
    split; [|exists d; exact Hbody].
    vm_compute in Hfn. injection Hfn as <-.
    vm_compute in Hp. injection Hp as <- <-.
    vm_compute in Hcall. injection Hcall as <- <-.
    vm_compute in Hmk. injection Hmk as <-.
    vm_compute in Hl. injection Hl as <- <-.
    vm_compute in Hd. injection Hd as <- <-.
    vm_compute in Hd'. injection Hd' as <- <-.
    vm_compute in Hin. injection Hin as <-.
    exact Hstatus.
Defined.

(** [PUT /vms/vm1] with a [uuid], on a server whose schema lets
    [vm_update] take a [name] only: the validator speaks first, and the
    answer is 400, not the 405 of the allow-list. *)
Lemma put_uuid_with_schema_is_400 :
  fst (resource_index Demo.model
         (mkRequest "PUT" (Demo.json_headers "14") (Some Demo.schema)) Demo.vm1
         (fresh_world Demo.vms Demo.body_uuid)) =
  inl (HTTPError 400
         (Some "Invalid parameter: 'Additional properties are not allowed (u'uuid' was unexpected)'")).
Proof. reflexivity. Qed.

(** The same request on a server without a schema: 405, the message names
    the key, and the model has not been called. *)
Lemma put_uuid_without_schema_is_405 :
  resource_index Demo.model (mkRequest "PUT" (Demo.json_headers "14") None) Demo.vm1
    (fresh_world Demo.vms Demo.body_uuid) =
  (inl (HTTPError 405 (Some "[u'uuid'] are not allowed to be updated")),
   body_consumed (fresh_world Demo.vms Demo.body_uuid)).
Proof.
  exact (proj2 (proj2 (put_outside_allow_list_is_405 Demo.store Demo.model Demo.body
                         Demo.render Demo.loads Demo.iter_errors Demo.repr Demo.socket_port
                         (mkRequest "PUT" (Demo.json_headers "14") None) Demo.vm1
                         (fresh_world Demo.vms Demo.body_uuid)
                         (body_consumed (fresh_world Demo.vms Demo.body_uuid))
                         ["name"] [("uuid", PStr "42")] "uuid"
                         eq_refl eq_refl eq_refl (or_introl eq_refl) eq_refl)
                  Demo.entity_update eq_refl I)).
Defined.

(** [PUT /vms/vm1] with a new name: the model renames the machine and the
    answer is the 303 redirect to the quoted new name.  With the name it
    has: status 200 and the machine as a lookup after the update shows
    it. *)
Lemma put_rename_is_303_same_name_is_200 :
  resource_index Demo.model (mkRequest "PUT" (Demo.json_headers "16") None) Demo.vm1
    (fresh_world Demo.vms Demo.body_rename) =
  (inl (HTTPRedirect "/vms/vm%202" 303),
   after_call "vm_update" [PStr "vm1"; PDict [("name", PStr "vm 2")]]
     [("vm 2", Demo.vm_info "running")]
     (body_consumed (fresh_world Demo.vms Demo.body_rename))) /\
  exists (b : Demo.body) (w' : world Demo.store),
    resource_index Demo.model (mkRequest "PUT" (Demo.json_headers "15") None) Demo.vm1
      (fresh_world Demo.vms Demo.body_same_name) = (inr (Some b), w') /\
    w_status w' = 200 /\
    w_calls w' = [("vm_update", [PStr "vm1"; PDict [("name", PStr "vm1")]]);
                  ("vm_lookup", [PStr "vm1"])].
Proof.
  pose proof (fun len raw params new_ident st' =>
                put_redirects_or_fetches_again Demo.store Demo.model Demo.body
                  Demo.render Demo.loads Demo.iter_errors Demo.repr Demo.socket_port
                  (mkRequest "PUT" (Demo.json_headers len) None) Demo.vm1
                  (fresh_world Demo.vms raw) (body_consumed (fresh_world Demo.vms raw))
                  Demo.entity_update (PDict [("name", PStr params)]) (PStr new_ident) st'
                  eq_refl eq_refl) as H.
  split.
  - exact (proj2 (proj1 (H "16" Demo.body_rename "vm 2" "vm 2"
                           [("vm 2", Demo.vm_info "running")]
                           eq_refl I
                           (ex_intro _ [("name", PStr "vm 2")] (conj eq_refl eq_refl))
                           eq_refl)
                    eq_refl)
             "vm 2" "/vms/%s" "/vms/vm%202" eq_refl eq_refl eq_refl).
  - eexists _, _.
    destruct (proj2 (H "15" Demo.body_same_name "vm1" "vm1" Demo.vms
                       eq_refl I
                       (ex_intro _ [("name", PStr "vm1")] (conj eq_refl eq_refl))
                       eq_refl)
                eq_refl _ _ _ eq_refl) as (Hanswer & Hstatus & _).
    split; [exact Hanswer|]. split; [exact Hstatus|]. reflexivity.
Defined.



(** C5 on the code.  The handler tests the method against the string
    ['POST'], so a request whose method is [OST], a part of that string, is
    let through: the model's [vm_start] runs and the answer is the
    redirect, where a handler for [POST] alone answers 405. *)
Lemma action_handler_lets_OST_through :
  action_handler Demo.model (mkRequest "OST" [] None) Demo.vm1 "start" None
    (fresh_world Demo.vms "") =
  (inl (InternalRedirect "/vms/vm1"),
   after_call "vm_start" [PStr "vm1"] Demo.vms (fresh_world Demo.vms "")).
Proof. reflexivity. Qed.

(** The methods of the other handlers are refused by a generated one. *)
Lemma action_handler_refuses_GET_PUT_DELETE :
  forall m : string, In m ["GET"; "PUT"; "DELETE"; "get"; "Put"; "PATCH"] ->
    action_handler Demo.model (mkRequest m [] None) Demo.vm1 "start" None
      (fresh_world Demo.vms "") =
    (inl (HTTPError 405 None), fresh_world Demo.vms "").
Proof.
  intros m Hm. apply action_handler_refuses.
  simpl in Hm. repeat (destruct Hm as [<- | Hm]; [reflexivity|]). contradiction.
Qed.

(** [POST /storagepools/p1/storagevolumes/v1/resize] with [size] 10, on
    the handler a [StorageVolume] generates for [resize]: the model's
    [storagevolume_resize] is called with the pool, the volume and 10, then
    the answer is the internal redirect to the volume. *)
Lemma resize_calls_model_then_redirects :
  In ("resize", Some ["size"]) (class_actions StorageVolume) /\
  action_handler Demo.model (mkRequest "POST" (Demo.json_headers "12") None)
    Demo.volume_v1 "resize" (Some ["size"]) (fresh_world Demo.vms Demo.body_size) =
  (inl (InternalRedirect "/storagepools/p1/storagevolumes/v1"),
   after_call "storagevolume_resize" [PStr "p1"; PStr "v1"; PInt 10] Demo.vms
     (body_consumed (fresh_world Demo.vms Demo.body_size))).
Proof.
  split; [now left|].
  apply (action_handler_on_POST Demo.store Demo.model Demo.body Demo.loads Demo.repr
           (mkRequest "POST" (Demo.json_headers "12") None) Demo.volume_v1 "resize"
           (Some ["size"]) _ _ [PInt 10] Demo.action_done PNone Demo.vms
           "/storagepools/%s/storagevolumes/%s");
    reflexivity.
Qed.

(** [GET /storagepools] on a model that cannot list the pools but knows
    the reserved one: status 200 and a list that is not empty. *)
Lemma storagepools_list_holds_the_iso_pool :
  collection_index Demo.iso_only (mkRequest "GET" [] None) Demo.the_pools
    (fresh_world [] "") =
  (inr (Some (Demo.render "storagepools"
                (PList [PDict [("name", PStr "kimchi_isos"); ("state", PStr "active");
                               ("type", PStr "kimchi-iso")]]))),
   after_call "isopool_lookup" [PStr "kimchi_isos"] [] (fresh_world [] "")).
Proof. reflexivity. Qed.

(** [GET /vms] on a model without any method: the empty list, status 200.
    [GET /storagepools] on a model with the lookup of the reserved pool
    alone: that pool. *)
Lemma list_without_get_list_at_work :
  collection_index Demo.no_model (mkRequest "GET" [] None) Demo.the_vms
    (fresh_world Demo.vms "") =
  (inr (Some (Demo.render "vms" (PList []))), fresh_world Demo.vms "") /\
  collection_index Demo.iso_only (mkRequest "GET" [] None) Demo.the_pools
    (fresh_world [] "") =
  (inr (Some (Demo.render "storagepools"
                (PList [PDict [("name", PStr Demo.ISO_POOL_NAME);
                               ("state", PStr "active"); ("type", PStr "kimchi-iso")]]))),
   after_call "isopool_lookup" [PStr Demo.ISO_POOL_NAME] [] (fresh_world [] "")).
Proof.
  pose proof (fun model c st =>
                list_without_get_list Demo.store model Demo.body Demo.render
                  Demo.loads Demo.iter_errors Demo.ISO_POOL_NAME Demo.socket_port
                  (mkRequest "GET" [] None) c (fresh_world st "") eq_refl) as H.
  split.
  - exact (proj1 (H Demo.no_model Demo.the_vms Demo.vms eq_refl) ltac:(discriminate)).
  - exact (proj2 (H Demo.iso_only Demo.the_pools [] eq_refl) eq_refl
             (Demo.returning Demo.iso_info) Demo.iso_info []
             [("state", PStr "active"); ("type", PStr "kimchi-iso")]
             eq_refl eq_refl eq_refl).
Defined.

(** [DELETE /vms/vm1]: 405 on a model without [vm_delete], 204 and no body
    on the model that has it. *)
Lemma delete_vm1_405_and_204 :
  resource_index Demo.no_model (mkRequest "DELETE" [] None) Demo.vm1
    (fresh_world Demo.vms "") =
  (inl (HTTPError 405 (Some "Delete is not allowed for vm")), fresh_world Demo.vms "") /\
  resource_index Demo.model (mkRequest "DELETE" [] None) Demo.vm1
    (fresh_world Demo.vms "") =
  (inr None, with_status 204 (after_call "vm_delete" [PStr "vm1"] [] (fresh_world Demo.vms ""))).
Proof.
  split.
  - exact (proj1 (delete_405_without_method_204_on_success Demo.store Demo.no_model
                    Demo.body Demo.render Demo.loads Demo.iter_errors Demo.repr
                    Demo.socket_port (mkRequest "DELETE" [] None) Demo.vm1
                    (fresh_world Demo.vms "") eq_refl) eq_refl).
  - exact (proj2 (delete_405_without_method_204_on_success Demo.store Demo.model
                    Demo.body Demo.render Demo.loads Demo.iter_errors Demo.repr
                    Demo.socket_port (mkRequest "DELETE" [] None) Demo.vm1
                    (fresh_world Demo.vms "") eq_refl)
             Demo.entity_delete PNone [] eq_refl eq_refl).
Defined.

(** A body that is no JSON, sent as [application/json] in capitals or
    with a blank before the parameters: 415, where a JSON content type with
    such a body was to be 400.  A body sent as [text/plain,application/json]:
    accepted and parsed. *)
Lemma json_in_capitals_or_spaced_is_415 :
  parse_request Demo.store Demo.loads
    (mkRequest "POST" [("Content-Length", "5"); ("Content-Type", "Application/JSON")] None)
    (fresh_world Demo.vms "{} {}") =
  (inl (HTTPError 415 (Some "This API only supports 'application/json'")),
   body_consumed (fresh_world Demo.vms "{} {}")) /\
  parse_request Demo.store Demo.loads
    (mkRequest "POST"
       [("Content-Length", "5"); ("Content-Type", "application/json ; charset=utf-8")] None)
    (fresh_world Demo.vms "{} {}") =
  (inl (HTTPError 415 (Some "This API only supports 'application/json'")),
   body_consumed (fresh_world Demo.vms "{} {}")) /\
  parse_request Demo.store Demo.loads
    (mkRequest "POST"
       [("Content-Length", "16"); ("Content-Type", "text/plain,application/json")] None)
    (fresh_world Demo.vms Demo.body_rename) =
  (inr (PDict [("name", PStr "vm 2")]), body_consumed (fresh_world Demo.vms Demo.body_rename)).
Proof. repeat split. Qed.

(** A body sent as [text/plain] is answered 415, and a body that is no
    JSON, sent as [application/json] or without a [Content-Type], 400; a
    body sent under a list of media types that has [application/json] is
    parsed, and one sent as [Application/JSON] is answered 415. *)
Lemma parse_request_415_and_400_at_work :
  parse_request Demo.store Demo.loads
    (mkRequest "POST" [("Content-Length", "5"); ("Content-Type", "text/plain; charset=utf-8")]
       None)
    (fresh_world Demo.vms "{} {}") =
  (inl (HTTPError 415 (Some "This API only supports 'application/json'")),
   body_consumed (fresh_world Demo.vms "{} {}")) /\
  parse_request Demo.store Demo.loads
    (mkRequest "POST" (Demo.json_headers "5") None) (fresh_world Demo.vms "{} {}") =
  (inl (HTTPError 400 (Some "Unable to parse JSON request")),
   body_consumed (fresh_world Demo.vms "{} {}")) /\
  parse_request Demo.store Demo.loads
    (mkRequest "POST" [("Content-Length", "5")] None) (fresh_world Demo.vms "{} {}") =
  (inl (HTTPError 400 (Some "Unable to parse JSON request")),
   body_consumed (fresh_world Demo.vms "{} {}")) /\
  parse_request Demo.store Demo.loads
    (mkRequest "POST"
       [("Content-Length", "16"); ("Content-Type", "text/plain,application/json")] None)
    (fresh_world Demo.vms Demo.body_rename) =
  (inr (PDict [("name", PStr "vm 2")]),
   body_consumed (fresh_world Demo.vms Demo.body_rename)) /\
  parse_request Demo.store Demo.loads
    (mkRequest "POST" [("Content-Length", "16"); ("Content-Type", "Application/JSON")] None)
    (fresh_world Demo.vms Demo.body_rename) =
  (inl (HTTPError 415 (Some "This API only supports 'application/json'")),
   body_consumed (fresh_world Demo.vms Demo.body_rename)).
Proof.
  assert (Hjson : lists_media_type "application/json" "application/json").
  { exists [], [], "". repeat split; [constructor | now left]. }
  assert (Hlist : lists_media_type "application/json" "text/plain,application/json").
  { exists ["text/plain"], [], "". repeat split; [repeat constructor | now left]. }
  assert (Hplain : ~ lists_media_type "application/json" "text/plain; charset=utf-8").
  { intros H.
    apply (lists_media_type_iff "application/json" "text/plain; charset=utf-8"
             eq_refl eq_refl) in H.
    vm_compute in H. discriminate. }
  assert (Hcapitals : ~ lists_media_type "application/json" "Application/JSON").
  { intros H.
    apply (lists_media_type_iff "application/json" "Application/JSON" eq_refl eq_refl) in H.
    vm_compute in H. discriminate. }
  split; [|split; [|split; [|split]]].
  - exact (proj1 (proj2 (parse_request_415_and_400 Demo.store Demo.loads
                           (mkRequest "POST"
                              [("Content-Length", "5");
                               ("Content-Type", "text/plain; charset=utf-8")] None)
                           "5" (fresh_world Demo.vms "{} {}") eq_refl))
             Hplain).
  - exact (proj1 (proj1 (parse_request_415_and_400 Demo.store Demo.loads
                           (mkRequest "POST" (Demo.json_headers "5") None)
                           "5" (fresh_world Demo.vms "{} {}") eq_refl)
                    Hjson)
             eq_refl).
  - exact (proj1 (proj1 (parse_request_415_and_400 Demo.store Demo.loads
                           (mkRequest "POST" [("Content-Length", "5")] None)
                           "5" (fresh_world Demo.vms "{} {}") eq_refl)
                    Hjson)
             eq_refl).
  - exact (proj2 (proj1 (parse_request_415_and_400 Demo.store Demo.loads
                           (mkRequest "POST"
                              [("Content-Length", "16");
                               ("Content-Type", "text/plain,application/json")] None)
                           "16" (fresh_world Demo.vms Demo.body_rename) eq_refl)
                    Hlist)
             (PDict [("name", PStr "vm 2")]) eq_refl).
  - exact (proj1 (proj2 (parse_request_415_and_400 Demo.store Demo.loads
                           (mkRequest "POST"
                              [("Content-Length", "16");
                               ("Content-Type", "Application/JSON")] None)
                           "16" (fresh_world Demo.vms Demo.body_rename) eq_refl))
             Hcapitals).
Defined.

(** The schema of the examples against a [uuid] for [vm_update]: one
    [InvalidParameter] with the validator's message; and no schema, no
    complaint. *)
Lemma validate_params_at_work :
  validate_params Demo.store Demo.iter_errors (mkRequest "PUT" [] (Some Demo.schema))
    (PDict [("uuid", PStr "42")]) "VM" "update" (fresh_world Demo.vms "") =
  (inl (InvalidParameter "Additional properties are not allowed (u'uuid' was unexpected)"),
   fresh_world Demo.vms "") /\
  validate_params Demo.store Demo.iter_errors (mkRequest "PUT" [] None)
    (PDict [("uuid", PStr "42")]) "VM" "update" (fresh_world Demo.vms "") =
  (inr tt, fresh_world Demo.vms "").
Proof.
  split.
  - exact (proj2 (proj2 (validate_params_wraps_and_joins Demo.store Demo.iter_errors
                           (mkRequest "PUT" [] (Some Demo.schema))
                           (PDict [("uuid", PStr "42")]) "VM" "update"
                           (fresh_world Demo.vms ""))
                    Demo.schema eq_refl)
             ltac:(discriminate)).
  - exact (proj1 (validate_params_wraps_and_joins Demo.store Demo.iter_errors
                    (mkRequest "PUT" [] None)
                    (PDict [("uuid", PStr "42")]) "VM" "update"
                    (fresh_world Demo.vms "")) eq_refl).
Defined.

(** A [POST] without [Content-Length]: the empty dictionary, the body
    unread, whatever the [Content-Type]. *)
Lemma parse_request_without_content_length_at_work :
  parse_request Demo.store Demo.loads
    (mkRequest "POST" [("Content-Type", "text/plain")] None)
    (fresh_world Demo.vms "{} {}") =
  (inr (PDict []), fresh_world Demo.vms "{} {}").
Proof.
  exact (proj1 (parse_request_without_content_length Demo.store Demo.loads
                  (mkRequest "POST" [("Content-Type", "text/plain")] None) eq_refl)
           (fresh_world Demo.vms "{} {}")).
Defined.

(** ** More of the handlers at work *)

Local Abbreviation on_vms := (fresh_world Demo.vms "").

(** A lookup on a model without [vm_lookup], and on one whose [vm_lookup]
    fails inside with an [AttributeError]: an empty [info] both times. *)
Lemma lookup_masks_AttributeError_at_work :
  Resource_lookup Demo.store Demo.no_model Demo.vm1 on_vms =
    (inr (set_info Demo.vm1 (PDict [])), on_vms) /\
  Resource_lookup Demo.store (Demo.broken ValueError) Demo.vm1 on_vms =
    (inr (set_info Demo.vm1 (PDict [])),
     after_call "vm_lookup" [PStr "vm1"] Demo.vms on_vms).
Proof.
  split.
  - exact (proj1 (proj2 (proj2 (lookup_masks_AttributeError Demo.store Demo.no_model
                                  Demo.vm1 on_vms))) eq_refl).
  - exact (proj2 (proj2 (proj2 (lookup_masks_AttributeError Demo.store
                                  (Demo.broken ValueError) Demo.vm1 on_vms)))
             (Demo.raising AttributeError) Demo.vms eq_refl eq_refl).
Defined.

(** [DELETE /vms/vm1] on a model whose [vm_delete] fails inside with an
    [AttributeError]: 405. *)
Lemma delete_AttributeError_inside_model_at_work :
  resource_index (Demo.broken ValueError) (mkRequest "DELETE" [] None) Demo.vm1 on_vms =
  (inl (HTTPError 405 (Some "Delete is not allowed for vm")),
   after_call "vm_delete" [PStr "vm1"] Demo.vms on_vms).
Proof.
  exact (delete_AttributeError_inside_model_is_405 Demo.store (Demo.broken ValueError)
           Demo.body Demo.render Demo.loads Demo.iter_errors Demo.repr Demo.socket_port
           (mkRequest "DELETE" [] None) Demo.vm1 on_vms
           (Demo.raising AttributeError) Demo.vms eq_refl eq_refl eq_refl).
Defined.

(** [POST /vms] and [PUT /vms/vm1] on a model without any method: 405, the
    body unread. *)
Lemma missing_create_or_update_at_work :
  collection_index Demo.no_model (mkRequest "POST" (Demo.json_headers "16") None)
    Demo.the_vms (fresh_world Demo.vms Demo.body_rename) =
  (inl (HTTPError 405 (Some "Create is not allowed for vms")),
   fresh_world Demo.vms Demo.body_rename) /\
  resource_index Demo.no_model (mkRequest "PUT" (Demo.json_headers "16") None)
    Demo.vm1 (fresh_world Demo.vms Demo.body_rename) =
  (inl (HTTPError 405 (Some "vm does not implement update method")),
   fresh_world Demo.vms Demo.body_rename).
Proof.
  split.
  - exact (proj1 (missing_create_or_update_is_405 Demo.store Demo.no_model Demo.body
                    Demo.render Demo.loads Demo.iter_errors Demo.repr Demo.ISO_POOL_NAME
                    Demo.socket_port (mkRequest "POST" (Demo.json_headers "16") None)
                    Demo.the_vms Demo.vm1 (fresh_world Demo.vms Demo.body_rename))
             eq_refl eq_refl).
  - exact (proj2 (missing_create_or_update_is_405 Demo.store Demo.no_model Demo.body
                    Demo.render Demo.loads Demo.iter_errors Demo.repr Demo.ISO_POOL_NAME
                    Demo.socket_port (mkRequest "PUT" (Demo.json_headers "16") None)
                    Demo.the_vms Demo.vm1 (fresh_world Demo.vms Demo.body_rename))
             eq_refl eq_refl).
Defined.

(** [GET] on the content of a debug report and on the screenshot of a
    machine: the internal redirects to the file and to the picture. *)
Lemma content_and_screenshot_redirect_at_work :
  resource_index Demo.wide_model (mkRequest "GET" [] None) Demo.report_content on_vms =
  (inl (InternalRedirect "/data/debugreports/r1.txz"),
   after_call "debugreportcontent_lookup" [PStr "r1"] Demo.vms on_vms) /\
  resource_index Demo.wide_model (mkRequest "GET" [] None) Demo.screenshot_vm1 on_vms =
  (inl (InternalRedirect "/data/screenshots/vm1.png"),
   after_call "vmscreenshot_lookup" [PStr "vm1"] Demo.vms on_vms) /\
  (forall (b : option Demo.body) (w' : world Demo.store),
      resource_index Demo.wide_model (mkRequest "GET" [] None) Demo.screenshot_vm1 on_vms
      <> (inr b, w')).
Proof.
  pose proof (fun r =>
                get_of_content_and_screenshot_redirects Demo.store Demo.wide_model
                  Demo.body Demo.render Demo.loads Demo.iter_errors Demo.repr
                  Demo.socket_port (mkRequest "GET" [] None) r on_vms eq_refl) as H.
  split; [|split].
  - exact (proj1 (proj2 (H Demo.report_content)) eq_refl
             (Demo.returning Demo.report_info) Demo.report_info
             "/data/debugreports/r1.txz" Demo.vms eq_refl eq_refl eq_refl).
  - exact (proj2 (proj2 (H Demo.screenshot_vm1)) eq_refl
             (Demo.returning (PStr "/data/screenshots/vm1.png"))
             "/data/screenshots/vm1.png" Demo.vms eq_refl eq_refl).
  - exact (proj1 (H Demo.screenshot_vm1) (or_intror eq_refl)).
Defined.

(** [POST /vms] on a model whose create raises [OperationFailed]: 500. *)
Lemma create_errors_to_statuses_at_work :
  error_status
    (fst (collection_index (Demo.broken (OperationFailed "disk full"))
            (mkRequest "POST" (Demo.json_headers "16") None) Demo.the_vms
            (fresh_world Demo.vms Demo.body_rename))) = Some 500.
Proof.
  exact (proj1 (create_errors_to_statuses Demo.store
                  (Demo.broken (OperationFailed "disk full")) Demo.body Demo.render
                  Demo.loads Demo.iter_errors Demo.ISO_POOL_NAME Demo.socket_port
                  (mkRequest "POST" (Demo.json_headers "16") None) Demo.the_vms
                  (fresh_world Demo.vms Demo.body_rename)
                  (body_consumed (fresh_world Demo.vms Demo.body_rename))
                  (Demo.raising (OperationFailed "disk full"))
                  (PDict [("name", PStr "vm 2")]) (OperationFailed "disk full")
                  Demo.vms 500 eq_refl eq_refl eq_refl I eq_refl eq_refl)).
Defined.

(** [POST /vms] with a [uuid], on a server whose schema lets [vms_create]
    take a [name] only: 400 with the validator's message, the model not
    called. *)
Lemma create_rejected_by_schema_at_work :
  collection_index Demo.model
    (mkRequest "POST" (Demo.json_headers "14") (Some Demo.create_schema)) Demo.the_vms
    (fresh_world Demo.vms Demo.body_uuid) =
  (inl (HTTPError 400
          (Some "Invalid parameter: 'Additional properties are not allowed (u'uuid' was unexpected)'")),
   body_consumed (fresh_world Demo.vms Demo.body_uuid)).
Proof.
  exact (proj1 (create_rejected_by_schema_is_400 Demo.store Demo.model Demo.body
                  Demo.render Demo.loads Demo.iter_errors Demo.ISO_POOL_NAME
                  Demo.socket_port
                  (mkRequest "POST" (Demo.json_headers "14") (Some Demo.create_schema))
                  Demo.the_vms (fresh_world Demo.vms Demo.body_uuid)
                  (body_consumed (fresh_world Demo.vms Demo.body_uuid))
                  (Demo.entity_create (Demo.vm_info "shutoff"))
                  (PDict [("uuid", PStr "42")]) Demo.create_schema
                  eq_refl ltac:(discriminate) ltac:(discriminate) ltac:(discriminate)
                  eq_refl eq_refl eq_refl ltac:(discriminate))).
Defined.

(** [GET /vms] on a model whose listing raises: [NotFoundError] is 404, an
    [AttributeError] gives the empty list, [OperationFailed] is left as it
    is. *)
Lemma get_list_errors_at_work :
  error_status (fst (collection_index (Demo.broken (NotFoundError "vms"))
                       (mkRequest "GET" [] None) Demo.the_vms on_vms)) = Some 404 /\
  collection_index (Demo.broken AttributeError) (mkRequest "GET" [] None) Demo.the_vms
    on_vms =
  (inr (Some (Demo.render "vms" (PList []))),
   after_call "vms_get_list" [] Demo.vms on_vms) /\
  collection_index (Demo.broken (OperationFailed "busy")) (mkRequest "GET" [] None)
    Demo.the_vms on_vms =
  (inl (OperationFailed "busy"), after_call "vms_get_list" [] Demo.vms on_vms).
Proof.
  pose proof (fun e =>
                get_list_errors Demo.store (Demo.broken e) Demo.body Demo.render
                  Demo.loads Demo.iter_errors Demo.ISO_POOL_NAME Demo.socket_port
                  (mkRequest "GET" [] None) Demo.the_vms on_vms (Demo.raising e) e
                  Demo.vms eq_refl eq_refl eq_refl) as H.
  split; [|split].
  - exact (proj1 (proj1 (H (NotFoundError "vms")) 404 eq_refl)).
  - exact (proj1 (proj2 (H AttributeError)) eq_refl ltac:(discriminate)).
  - exact (proj2 (proj2 (H (OperationFailed "busy"))) eq_refl ltac:(discriminate)).
Defined.

(** The members of [/vms] on a model listing [vm1] and [vm2]: one resource
    per name, in the order of the listing, each with its [info]. *)
Lemma listing_follows_get_list_at_work :
  exists (rs : list resource) (w' : world Demo.store),
    get_resources Demo.store Demo.wide_model Demo.ISO_POOL_NAME Demo.the_vms on_vms =
      (inr rs, w') /\
    Forall (fun r => info r <> None) rs /\
    map ident rs = [PStr "vm1"; PStr "vm2"].
Proof.
  destruct (get_resources Demo.store Demo.wide_model Demo.ISO_POOL_NAME Demo.the_vms on_vms)
    as [[e | rs] w'] eqn:E; [vm_compute in E; discriminate|].
  exists rs, w'. split; [reflexivity|].
  destruct (listing_follows_get_list Demo.store Demo.wide_model Demo.ISO_POOL_NAME
              Demo.the_vms on_vms w' rs E) as [Hinfo Hident].
  split; [exact Hinfo|].
  exact (Hident (Demo.returning (PList [PStr "vm1"; PStr "vm2"]))
           [PStr "vm1"; PStr "vm2"] Demo.vms eq_refl eq_refl).
Defined.

(** The [data] of a pool whose [task_id] is [None] has no [task_id]; the
    [data] of a pool whose [info] is empty cannot fail but with a
    [KeyError] on a key the class needs. *)
Lemma data_reads_info_at_work :
  (exists d : list (string * pyval),
      data Demo.store Demo.no_model Demo.socket_port
        (set_info Demo.pool_p1 (Demo.pool_info PNone)) on_vms = (inr (PDict d), on_vms) /\
      lookup_key "task_id" d = None) /\
  (forall (e : exn) (w' : world Demo.store),
      data Demo.store Demo.no_model Demo.socket_port
        (set_info Demo.pool_p1 (PDict [])) on_vms = (inl e, w') ->
      exists k : string,
        e = KeyError k /\ In k (required_keys StoragePool) /\ w' = on_vms).
Proof.
  split.
  - destruct (proj1 (data_reads_info Demo.store Demo.no_model Demo.socket_port
                       (set_info Demo.pool_p1 (Demo.pool_info PNone)) _ on_vms
                       eq_refl ltac:(discriminate) ltac:(discriminate)) eq_refl)
      as [d [Hd Hopt]].
    exists d. split; [exact Hd|].
    exact (Hopt "task_id" (or_introl eq_refl)).
  - intros e w' He.
    destruct (proj2 (data_reads_info Demo.store Demo.no_model Demo.socket_port
                       (set_info Demo.pool_p1 (PDict [])) [] on_vms
                       eq_refl ltac:(discriminate) ltac:(discriminate)) e w' He)
      as [k [Hk [Hin [_ Hw]]]].
    exists k. repeat split; assumption.
Defined.

(** The capabilities of a host whose model reports [qemu_stream] and [kvm]:
    the [screenshot] it does not report is [None], the other two are as
    reported. *)
Lemma capabilities_data_at_work :
  exists d : list (string * pyval),
    data Demo.store Demo.wide_model Demo.socket_port Demo.capabilities on_vms =
      (inr (PDict d), after_call "get_capabilities" [] Demo.vms on_vms) /\
    lookup_key "screenshot" d = Some PNone /\
    dict_has "kvm" d = true /\
    dict_has "cpus" d = false.
Proof.
  destruct (capabilities_data_has_defaults Demo.store Demo.wide_model Demo.socket_port
              Demo.capabilities on_vms
              (Demo.returning (PDict [("qemu_stream", PBool true); ("kvm", PBool true)]))
              [("qemu_stream", PBool true); ("kvm", PBool true)] Demo.vms
              eq_refl eq_refl eq_refl) as [d [Hd [Hhas [Hdef _]]]].
  exists d. split; [exact Hd|]. split; [|split].
  - exact (Hdef "screenshot" (or_intror (or_intror (or_introl eq_refl))) eq_refl).
  - exact (Hhas "kvm").
  - exact (Hhas "cpus").
Defined.

(** [POST /storagepools] on a model whose lookup of the new pool reports
    the task 1: status 202.  The same request on a model that holds a pool
    of that name whose [task_id] is 0: status 201. *)
Lemma storagepools_create_status_at_work :
  (exists (ob : option Demo.body) (w' : world Demo.store),
      collection_index Demo.model (mkRequest "POST" (Demo.json_headers "14") None)
        Demo.the_pools (fresh_world Demo.vms Demo.body_pool) = (inr ob, w') /\
      w_status w' = 202%Z) /\
  (exists (ob : option Demo.body) (w' : world Demo.store),
      collection_index Demo.model (mkRequest "POST" (Demo.json_headers "14") None)
        Demo.the_pools (fresh_world [("p1", Demo.pool_info (PInt 0))] Demo.body_pool) =
        (inr ob, w') /\
      w_status w' = 201%Z).
Proof.
  split.
  - destruct (collection_index Demo.model (mkRequest "POST" (Demo.json_headers "14") None)
                Demo.the_pools (fresh_world Demo.vms Demo.body_pool))
      as [[e | ob] w'] eqn:E; [vm_compute in E; discriminate|].
    exists ob, w'. split; [reflexivity|].
    destruct (storagepools_create_status_follows_task_id Demo.store Demo.model Demo.body
                Demo.render Demo.loads Demo.iter_errors Demo.ISO_POOL_NAME
                Demo.socket_port (mkRequest "POST" (Demo.json_headers "14") None)
                Demo.the_pools (fresh_world Demo.vms Demo.body_pool) w' ob
                eq_refl eq_refl E)
      as (fn & params & name & w1 & st1 & res & r' & wl & i & d &
          Hfn & Hp & Hcall & Hmk & Hl & Hi & _ & _ & _ & ->).
    vm_compute in Hfn. injection Hfn as <-.
    vm_compute in Hp. injection Hp as <- <-.
    vm_compute in Hcall. injection Hcall as <- <-.
    vm_compute in Hmk. injection Hmk as <-.
    vm_compute in Hl. injection Hl as <- <-.
    vm_compute in Hi. injection Hi as <-.
    reflexivity.
  - destruct (collection_index Demo.model (mkRequest "POST" (Demo.json_headers "14") None)
                Demo.the_pools (fresh_world [("p1", Demo.pool_info (PInt 0))] Demo.body_pool))
      as [[e | ob] w'] eqn:E; [vm_compute in E; discriminate|].
    exists ob, w'. split; [reflexivity|].
    destruct (storagepools_create_status_follows_task_id Demo.store Demo.model Demo.body
                Demo.render Demo.loads Demo.iter_errors Demo.ISO_POOL_NAME
                Demo.socket_port (mkRequest "POST" (Demo.json_headers "14") None)
                Demo.the_pools (fresh_world [("p1", Demo.pool_info (PInt 0))] Demo.body_pool)
                w' ob eq_refl eq_refl E)
      as (fn & params & name & w1 & st1 & res & r' & wl & i & d &
          Hfn & Hp & Hcall & Hmk & Hl & Hi & _ & _ & _ & ->).
    vm_compute in Hfn. injection Hfn as <-.
    vm_compute in Hp. injection Hp as <- <-.
    vm_compute in Hcall. injection Hcall as <- <-.
    vm_compute in Hmk. injection Hmk as <-.
    vm_compute in Hl. injection Hl as <- <-.
    vm_compute in Hi. injection Hi as <-.
    reflexivity.
Defined.

(** [GET /vms] on a model listing two machines gives two entries;
    [GET /storagepools] on a model listing one pool gives two, the reserved
    pool being the second. *)
Lemma listing_entries_at_work :
  (exists (ds : list pyval) (w' : world Demo.store),
      collection_index Demo.wide_model (mkRequest "GET" [] None) Demo.the_vms on_vms =
        (inr (Some (Demo.render "vms" (PList ds))), w') /\
      length ds = 2%nat) /\
  (exists (ds : list pyval) (w' : world Demo.store),
      collection_index Demo.wide_model (mkRequest "GET" [] None) Demo.the_pools on_vms =
        (inr (Some (Demo.render "storagepools" (PList ds))), w') /\
      length ds = 2%nat).
Proof.
  split.
  - destruct (collection_index Demo.wide_model (mkRequest "GET" [] None) Demo.the_vms on_vms)
      as [[e | ob] w'] eqn:E; [vm_compute in E; discriminate|].
    destruct (listing_has_one_entry_per_identifier Demo.store Demo.wide_model Demo.body
                Demo.render Demo.loads Demo.iter_errors Demo.ISO_POOL_NAME
                Demo.socket_port (mkRequest "GET" [] None) Demo.the_vms on_vms w'
                (Demo.returning (PList [PStr "vm1"; PStr "vm2"]))
                [PStr "vm1"; PStr "vm2"] Demo.vms ob eq_refl
                ltac:(discriminate) ltac:(discriminate) eq_refl eq_refl E)
      as [ds [-> Hlen]].
    exists ds, w'. split; [reflexivity | exact Hlen].
  - destruct (collection_index Demo.wide_model (mkRequest "GET" [] None) Demo.the_pools on_vms)
      as [[e | ob] w'] eqn:E; [vm_compute in E; discriminate|].
    destruct (listing_has_one_entry_per_identifier Demo.store Demo.wide_model Demo.body
                Demo.render Demo.loads Demo.iter_errors Demo.ISO_POOL_NAME
                Demo.socket_port (mkRequest "GET" [] None) Demo.the_pools on_vms w'
                (Demo.returning (PList [PStr "p1"]))
                [PStr "p1"] Demo.vms ob eq_refl
                ltac:(discriminate) ltac:(discriminate) eq_refl eq_refl E)
      as [ds [-> Hlen]].
    exists ds, w'. split; [reflexivity | exact Hlen].
Defined.

(** [/vms/vm1/start] under [/vms]: the member [vm1], with [start] left for
    the member; nothing under [/vms] is the collection itself. *)
Lemma collection_dispatch_at_work :
  Collection_cp_dispatch Demo.ISO_POOL_NAME Demo.decode_bytes Demo.the_vms [] =
    (inr None, []) /\
  exists r : resource,
    Collection_cp_dispatch Demo.ISO_POOL_NAME Demo.decode_bytes Demo.the_vms
      ["vm1"; "start"] = (inr (Some r), ["start"]) /\
    r_class r = VM /\ ident r = PStr "vm1" /\ model_args r = [PStr "vm1"].
Proof.
  pose proof (collection_dispatch_takes_one_segment Demo.ISO_POOL_NAME Demo.decode_bytes
                VMs [] Demo.the_vms eq_refl) as [Hnone [_ Hone]].
  split; [exact Hnone|].
  exact (Hone "vm1" ["start"] eq_refl).
Defined.

(** Under the pool [p1], [storagevolumes] is the collection of its
    volumes; [config] is nothing the pool knows. *)
Lemma pool_dispatch_at_work :
  StoragePool_cp_dispatch Demo.decode_text Demo.pool_p1 ["storagevolumes"; "v1"] =
    (inr (Some Demo.volumes_of_p1), ["v1"]) /\
  StoragePool_cp_dispatch Demo.decode_text Demo.pool_p1 ["config"; "v1"] =
    (inr None, ["v1"]).
Proof.
  pose proof (pool_dispatch_knows_storagevolumes Demo.decode_text Demo.pool_p1 ["v1"])
    as [Hother Hvolumes].
  split.
  - exact (proj1 (Hvolumes "p1" eq_refl eq_refl)).
  - exact (proj1 (Hother "config" ltac:(discriminate))).
Defined.

(** [/storagepools/p1/storagevolumes/v1/resize]: three steps of dispatch
    reach the volume [v1] of [p1], whose address is the path that was
    walked; [resize] is left for the volume. *)
Lemma nested_volume_path_at_work :
  exists (pools volumes : collection) (p v : resource) (fmt : string),
    make_collection StoragePools [] = inr pools /\
    Collection_cp_dispatch Demo.ISO_POOL_NAME Demo.decode_bytes pools
      ["p1"; "storagevolumes"; "v1"; "resize"] =
      (inr (Some p), ["storagevolumes"; "v1"; "resize"]) /\
    StoragePool_cp_dispatch Demo.decode_text p ["storagevolumes"; "v1"; "resize"] =
      (inr (Some volumes), ["v1"; "resize"]) /\
    Collection_cp_dispatch Demo.ISO_POOL_NAME Demo.decode_bytes volumes ["v1"; "resize"] =
      (inr (Some v), ["resize"]) /\
    r_class v = StorageVolume /\
    model_args v = [PStr "p1"; PStr "v1"] /\
    uri_fmt v = Some fmt /\
    py_format fmt (map (py_str Demo.repr) (model_args v)) =
      inr "/storagepools/p1/storagevolumes/v1".
Proof.
  exact (nested_volume_path_round_trip Demo.repr Demo.ISO_POOL_NAME Demo.decode_bytes
           Demo.decode_text "p1" "v1" ["resize"] eq_refl eq_refl).
Defined.

(** [POST /login] with a [userid] only, and without a body: 400 naming
    the key that is missing, the authentication not asked. *)
Lemma login_without_credentials_at_work :
  login Demo.store Demo.loads_login (mkRequest "POST" (Demo.json_headers "19") None)
    Demo.auth_login (fresh_world Demo.vms Demo.body_userid_only) =
  (inl (HTTPError 400 (Some "Missing parameter: ''password''")),
   body_consumed (fresh_world Demo.vms Demo.body_userid_only)) /\
  login Demo.store Demo.loads_login (mkRequest "POST" [] None) Demo.auth_login
    (fresh_world Demo.vms Demo.body_login) =
  (inl (HTTPError 400 (Some "Missing parameter: ''userid''")),
   fresh_world Demo.vms Demo.body_login).
Proof.
  split.
  - exact (proj1 (proj2 (login_without_credentials_is_400 Demo.store Demo.loads_login
                           (mkRequest "POST" (Demo.json_headers "19") None)
                           Demo.auth_login (fresh_world Demo.vms Demo.body_userid_only)
                           (body_consumed (fresh_world Demo.vms Demo.body_userid_only))
                           [("userid", PStr "admin")] eq_refl))
             ltac:(discriminate) eq_refl).
  - exact (proj1 (login_without_credentials_is_400 Demo.store Demo.loads_login
                    (mkRequest "POST" [] None) Demo.auth_login
                    (fresh_world Demo.vms Demo.body_login)
                    (fresh_world Demo.vms Demo.body_login) [] eq_refl)
             eq_refl).
Defined.

(** [POST /login] with the password of the user: an empty object; with
    another password: 401. *)
Lemma login_asks_auth_at_work :
  login Demo.store Demo.loads_login (mkRequest "POST" (Demo.json_headers "41") None)
    Demo.auth_login (fresh_world Demo.vms Demo.body_login) =
  (inr "{}",
   after_call "auth.login" [PStr "admin"; PStr "secret"] Demo.vms
     (body_consumed (fresh_world Demo.vms Demo.body_login))) /\
  login Demo.store Demo.loads_login (mkRequest "POST" (Demo.json_headers "40") None)
    Demo.auth_login (fresh_world Demo.vms Demo.body_wrong_password) =
  (inl (HTTPError 401 None),
   after_call "auth.login" [PStr "admin"; PStr "guess"] Demo.vms
     (body_consumed (fresh_world Demo.vms Demo.body_wrong_password))).
Proof.
  split.
  - exact (login_asks_auth Demo.store Demo.loads_login
             (mkRequest "POST" (Demo.json_headers "41") None) Demo.auth_login
             (fresh_world Demo.vms Demo.body_login)
             (body_consumed (fresh_world Demo.vms Demo.body_login))
             [("userid", PStr "admin"); ("password", PStr "secret")]
             (PStr "admin") (PStr "secret") eq_refl eq_refl eq_refl
             (inr PNone) Demo.vms eq_refl).
  - exact (login_asks_auth Demo.store Demo.loads_login
             (mkRequest "POST" (Demo.json_headers "40") None) Demo.auth_login
             (fresh_world Demo.vms Demo.body_wrong_password)
             (body_consumed (fresh_world Demo.vms Demo.body_wrong_password))
             [("userid", PStr "admin"); ("password", PStr "guess")]
             (PStr "admin") (PStr "guess") eq_refl eq_refl eq_refl
             (inl (OperationFailed "Invalid credentials")) Demo.vms eq_refl).
Defined.

(** [GET /vms/vm1] and [GET /vms] leave the status and the body of the
    request as they were; [DELETE /vms/vm1] leaves the body. *)
Lemma get_and_delete_leave_the_request_alone_at_work :
  (w_status (snd (resource_index Demo.model (mkRequest "GET" [] None) Demo.vm1
                    (fresh_world Demo.vms Demo.body_rename))) =
     w_status (fresh_world Demo.vms Demo.body_rename) /\
   w_body (snd (collection_index Demo.model (mkRequest "GET" [] None) Demo.the_vms
                  (fresh_world Demo.vms Demo.body_rename))) =
     w_body (fresh_world Demo.vms Demo.body_rename)) /\
  w_body (snd (resource_index Demo.model (mkRequest "DELETE" [] None) Demo.vm1
                 (fresh_world Demo.vms Demo.body_rename))) =
    w_body (fresh_world Demo.vms Demo.body_rename).
Proof.
  pose proof (fun req =>
                get_and_delete_leave_the_request_alone Demo.store Demo.model Demo.body
                  Demo.render Demo.loads Demo.iter_errors Demo.repr Demo.ISO_POOL_NAME
                  Demo.socket_port req Demo.vm1 Demo.the_vms
                  (fresh_world Demo.vms Demo.body_rename)) as H.
  split; [split|].
  - exact (proj1 (proj1 (H (mkRequest "GET" [] None)) eq_refl)).
  - exact (proj2 (proj2 (proj2 (proj1 (H (mkRequest "GET" [] None)) eq_refl)))).
  - exact (proj2 (H (mkRequest "DELETE" [] None)) eq_refl).
Defined.

(** [POST /vms/vm1] and [DELETE /vms]: 405 without a message, nothing
    touched. *)
Lemma other_methods_are_405_at_work :
  resource_index Demo.model (mkRequest "POST" (Demo.json_headers "16") None) Demo.vm1
    (fresh_world Demo.vms Demo.body_rename) =
  (inl (HTTPError 405 None), fresh_world Demo.vms Demo.body_rename) /\
  collection_index Demo.model (mkRequest "DELETE" [] None) Demo.the_vms on_vms =
  (inl (HTTPError 405 None), on_vms).
Proof.
  split.
  - exact (proj1 (other_methods_are_405 Demo.store Demo.model Demo.body Demo.render
                    Demo.loads Demo.iter_errors Demo.repr Demo.ISO_POOL_NAME
                    Demo.socket_port (mkRequest "POST" (Demo.json_headers "16") None)
                    Demo.vm1 Demo.the_vms (fresh_world Demo.vms Demo.body_rename))
             eq_refl).
  - exact (proj2 (other_methods_are_405 Demo.store Demo.model Demo.body Demo.render
                    Demo.loads Demo.iter_errors Demo.repr Demo.ISO_POOL_NAME
                    Demo.socket_port (mkRequest "DELETE" [] None)
                    Demo.vm1 Demo.the_vms on_vms)
             eq_refl).
Defined.

(** A request whose method is written [get] is answered as [GET] is, and
    one written [Post] as [POST] is. *)
Lemma method_case_at_work :
  resource_index Demo.model (mkRequest "get" [] None) Demo.vm1 on_vms =
    resource_index Demo.model (mkRequest "GET" [] None) Demo.vm1 on_vms /\
  collection_index Demo.model (mkRequest "get" [] None) Demo.the_vms on_vms =
    collection_index Demo.model (mkRequest "GET" [] None) Demo.the_vms on_vms /\
  action_handler Demo.model (mkRequest "Post" [] None) Demo.vm1 "start" None on_vms =
    action_handler Demo.model (mkRequest "POST" [] None) Demo.vm1 "start" None on_vms.
Proof.
  pose proof (fun req m H =>
                method_case_does_not_matter Demo.store Demo.model Demo.body Demo.render
                  Demo.loads Demo.iter_errors Demo.repr Demo.ISO_POOL_NAME
                  Demo.socket_port req m Demo.vm1 Demo.the_vms "start" None on_vms H)
    as H.
  split; [|split].
  - exact (proj1 (H (mkRequest "GET" [] None) "get" eq_refl)).
  - exact (proj1 (proj2 (H (mkRequest "GET" [] None) "get" eq_refl))).
  - exact (proj2 (proj2 (H (mkRequest "POST" [] None) "Post" eq_refl))).
Defined.

(** [GET /vms/vm1] on a model without [vm_lookup]: the [KeyError] of the
    first key the machine's [data] reads; [GET] on a resource of a class
    with the base [data]: an empty object. *)
Lemma get_without_lookup_at_work :
  resource_index Demo.no_model (mkRequest "GET" [] None) Demo.vm1 on_vms =
    (inl (KeyError "uuid"), on_vms) /\
  resource_index Demo.no_model (mkRequest "GET" [] None)
    (mkResource Distro (PStr "fedora") [PStr "fedora"] (Some []) None None) on_vms =
    (inr (Some (Demo.render "distro" (PDict []))), on_vms).
Proof.
  pose proof (fun r H =>
                get_without_lookup Demo.store Demo.no_model Demo.body Demo.render
                  Demo.loads Demo.iter_errors Demo.repr Demo.socket_port
                  (mkRequest "GET" [] None) r on_vms eq_refl H) as H.
  split.
  - exact (proj1 (H Demo.vm1 eq_refl) "uuid" eq_refl).
  - exact (proj2 (H (mkResource Distro (PStr "fedora") [PStr "fedora"] (Some []) None None)
                    eq_refl)
             (or_intror (or_introl eq_refl))).
Defined.

(** [POST /storagepools/p1/storagevolumes/v1/resize] with an empty object:
    the [KeyError] on [size], the model not called. *)
Lemma action_handler_missing_key_at_work :
  action_handler Demo.model (mkRequest "POST" (Demo.json_headers "2") None)
    Demo.volume_v1 "resize" (Some ["size"]) (fresh_world Demo.vms Demo.body_empty) =
  (inl (KeyError "size"), body_consumed (fresh_world Demo.vms Demo.body_empty)).
Proof.
  exact (proj1 (action_handler_missing_key Demo.store Demo.model Demo.body Demo.loads
                  Demo.repr (mkRequest "POST" (Demo.json_headers "2") None)
                  Demo.volume_v1 "resize" "size" []
                  (fresh_world Demo.vms Demo.body_empty)
                  (body_consumed (fresh_world Demo.vms Demo.body_empty)) []
                  eq_refl eq_refl eq_refl)).
Defined.
